(** * EIOPA monitoring: the historical store and the comparison engine

    A shallow embedding of [analyzer.py] (class [EIOPAAnalyzer]) and of the
    helpers of [utils.py] and constants of [config.py] it relies on.

    Modelling choices, all of them visible in the definitions below:
    - a [datetime] is its proleptic Gregorian ordinal (the value of
      [datetime.toordinal]); the store works at day granularity, so the time
      of day is left out;
    - a Python [float] is an IEEE binary64 number ([PrimFloat.float]); a null
      cell of a pandas float column is NaN, as in pandas itself;
    - a Python [dict] whose iteration order matters is an association list
      in insertion order;
    - a [DataFrame] is the list of its column names and the list of its rows;
    - exceptions are the [Raised] case of [outcome]; the analyzer, its backing
      file and the log are threaded through a state monad; the queries, which
      only read the frame, are functions of the frame, and their log lines
      are left out.

    Beside the analyzer, the file embeds the file selection of
    [downloader.py] ([get_file_by_date]), the extraction of the rates from
    the sheet in [processor.py] ([extract_country_rates_from_pivot]) and the
    dates of file names in [utils.py] ([parse_date_from_filename],
    [format_date_eiopa]); what these read from the network or from a file is
    an argument of the model. *)

From Stdlib Require Import ZArith Bool Lia PrimFloat SpecFloat FloatOps Sorted Permutation.
From Stdlib Require FloatAxioms.
From stdpp Require Import base list strings gmap pretty.

Local Open Scope Z_scope.
Set Warnings "-inexact-float".

Abbreviation float := PrimFloat.float (only parsing).
Abbreviation datetime := Z (only parsing).

(** ** Python's [datetime] arithmetic (module [datetime] of the standard
    library), on ordinals *)

Module Calendar.

Definition _DAYS_IN_MONTH : list Z :=
  [-1; 31; 28; 31; 30; 31; 30; 31; 31; 30; 31; 30; 31].

Definition _DAYS_BEFORE_MONTH : list Z :=
  [-1; 0; 31; 59; 90; 120; 151; 181; 212; 243; 273; 304; 334].

Definition index (l : list Z) (i : Z) : Z := nth (Z.to_nat i) l 0.

Definition bool_to_Z (b : bool) : Z := if b then 1 else 0.

Definition _is_leap (year : Z) : bool :=
  (year mod 4 =? 0) && (negb (year mod 100 =? 0) || (year mod 400 =? 0)).

Definition _days_before_year (year : Z) : Z :=
  let y := year - 1 in y * 365 + y / 4 - y / 100 + y / 400.

Definition _days_before_month (year month : Z) : Z :=
  index _DAYS_BEFORE_MONTH month + bool_to_Z ((2 <? month) && _is_leap year).

Definition _ymd2ord (year month day : Z) : Z :=
  _days_before_year year + _days_before_month year month + day.

Definition _DI400Y : Z := _days_before_year 401.
Definition _DI100Y : Z := _days_before_year 101.
Definition _DI4Y : Z := _days_before_year 5.

Definition _ord2ymd (n : Z) : Z * Z * Z :=
  let n := n - 1 in
  let n400 := n / _DI400Y in
  let n := n mod _DI400Y in
  let year := n400 * 400 + 1 in
  let n100 := n / _DI100Y in
  let n := n mod _DI100Y in
  let n4 := n / _DI4Y in
  let n := n mod _DI4Y in
  let n1 := n / 365 in
  let n := n mod 365 in
  let year := year + n100 * 100 + n4 * 4 + n1 in
  if (n1 =? 4) || (n100 =? 4) then (year - 1, 12, 31)
  else
    let leapyear := (n1 =? 3) && (negb (n4 =? 24) || (n100 =? 3)) in
    let month := Z.shiftr (n + 50) 5 in
    let preceding :=
      index _DAYS_BEFORE_MONTH month + bool_to_Z ((2 <? month) && leapyear) in
    if n <? preceding then
      let month := month - 1 in
      let preceding :=
        preceding
        - (index _DAYS_IN_MONTH month + bool_to_Z ((month =? 2) && leapyear)) in
      (year, month, n - preceding + 1)
    else (year, month, n - preceding + 1).

(** [datetime(year, month, day)] *)
Definition mk_datetime (year month day : Z) : datetime := _ymd2ord year month day.

Definition dt_year (d : datetime) : Z := fst (fst (_ord2ymd d)).
Definition dt_month (d : datetime) : Z := snd (fst (_ord2ymd d)).
Definition dt_day (d : datetime) : Z := snd (_ord2ymd d).

(** [d.replace(day=day)] *)
Definition replace_day (d : datetime) (day : Z) : datetime :=
  mk_datetime (dt_year d) (dt_month d) day.

(** [timedelta(days=n)] is the number [n]; [d - timedelta(days=n)] is [d - n]. *)
Definition timedelta (days : Z) : Z := days.

End Calendar.

(** ** [utils.py]: date anchors *)

Definition get_previous_month_date (reference_date : datetime) : datetime :=
  let first_day_current := Calendar.replace_day reference_date 1 in
  let last_day_previous := first_day_current - Calendar.timedelta 1 in
  last_day_previous.

Definition get_year_start_date (reference_date : datetime) : datetime :=
  Calendar.mk_datetime (Calendar.dt_year reference_date) 1 1.

(** ** Floats and null cells *)

Definition nan : float := PrimFloat.nan.

(** [pd.notna] on a float cell *)
Definition notna (x : float) : bool := negb (PrimFloat.is_nan x).

(** what pandas stores in a float column for an optional Python value *)
Definition to_cell (v : option float) : float := default nan v.

(** [float(x) if pd.notna(x) else None] *)
Definition of_cell (x : float) : option float :=
  if notna x then Some x else None.

(** [utils.calculate_bps_change] *)
Definition calculate_bps_change (old_rate new_rate : float) : float :=
  PrimFloat.mul (PrimFloat.sub new_rate old_rate) 10000%float.

(** ** Python dictionaries in insertion order *)

Section Dict.
Context {K V : Type} `{EqDecision K}.

Fixpoint dict_get (k : K) (d : list (K * V)) : option V :=
  match d with
  | [] => None
  | (k', v) :: d' => if decide (k = k') then Some v else dict_get k d'
  end.

(** [d[k] = v]: an existing key keeps its place, a new key goes last. *)
Fixpoint dict_set (k : K) (v : V) (d : list (K * V)) : list (K * V) :=
  match d with
  | [] => [(k, v)]
  | (k', v') :: d' =>
      if decide (k = k') then (k, v) :: d' else (k', v') :: dict_set k v d'
  end.

Definition dict_keys (d : list (K * V)) : list K := map fst d.

Definition dict_mem (k : K) (d : list (K * V)) : bool :=
  bool_decide (is_Some (dict_get k d)).
End Dict.

(** ** Sorting

  [DataFrame.sort_values] sorts with numpy's default kind, quicksort, which
  does not promise an order among equal keys; numpy's scalar quicksort sorts
  inputs of up to 17 elements by insertion, which leaves equal keys in
  their original order, and may reorder equal keys in longer inputs.  The
  model is that insertion sort: on longer inputs it fixes one of the orders
  the code may produce.  The theorems use of the sort only that its result
  is a permutation of its input in ascending order of the key; the one
  statement that reads the order of equal keys is about a store of two
  rows. *)

Section Sort.
Context {A : Type} (key : A -> Z).

Fixpoint insert_by (x : A) (l : list A) : list A :=
  match l with
  | [] => [x]
  | y :: l' => if key x <=? key y then x :: l else y :: insert_by x l'
  end.

Fixpoint sort_by (l : list A) : list A :=
  match l with
  | [] => []
  | x :: l' => insert_by x (sort_by l')
  end.
End Sort.

(** ** Boolean masks *)

Fixpoint select {A : Type} (mask : list bool) (l : list A) : list A :=
  match mask, l with
  | b :: mask', x :: l' => if b then x :: select mask' l' else select mask' l'
  | _, _ => []
  end.

Definition mask_any (mask : list bool) : bool := existsb (fun b => b) mask.

(** ** [config.py] *)

Definition TARGET_MATURITIES : list Z := [1; 5; 10; 20; 30].
Definition ALERT_THRESHOLD_MOM : float := 50%float.
Definition ALERT_THRESHOLD_YTD : float := 100%float.

(** [f'rate_{maturity}y'] *)
Definition rate_col (maturity : Z) : string :=
  "rate_" +:+ pretty maturity +:+ "y".

(** ** Data model *)

(** The record handed over by the processor: the dictionary with keys
    ['reference_date'], ['country'], ['rates'] and ['va']. *)
Record Observation := {
  obs_reference_date : datetime;
  obs_country : string;
  obs_rates : list (Z * float);
  obs_va : option float
}.

(** A row of the historical table: the two key columns and the float-valued
    columns by name; a column the row has no entry for reads as null.  The
    code reads ['reference_date'], ['country'] and ['va'] without checking
    that the column exists: the frames of the model always have them. *)
Record Row := {
  reference_date : datetime;
  country : string;
  floats : gmap string float
}.

Record DataFrame := {
  columns : list string;
  rows : list Row
}.

Definition cell (r : Row) (col : string) : float :=
  default nan (floats r !! col).

Definition set_cell (col : string) (v : float) (r : Row) : Row :=
  {| reference_date := reference_date r;
     country := country r;
     floats := <[col := v]> (floats r) |}.

Definition set_reference_date (d : datetime) (r : Row) : Row :=
  {| reference_date := d; country := country r; floats := floats r |}.

Definition set_country (c : string) (r : Row) : Row :=
  {| reference_date := reference_date r; country := c; floats := floats r |}.

(** [DataFrame.empty]: pandas calls a frame empty when it has no rows or no
    columns; a row of this model always has its two key columns, so a frame
    with rows has columns. *)
Definition df_empty (df : DataFrame) : bool :=
  match rows df with
  | [] => true
  | _ :: _ => false
  end.

(** [pd.DataFrame()] and [pd.DataFrame(columns=columns)] *)
Definition DataFrame_of_columns (cols : list string) : DataFrame :=
  {| columns := cols; rows := [] |}.

Definition add_column (col : string) (cols : list string) : list string :=
  if bool_decide (col ∈ cols) then cols else cols ++ [col].

(** [df.loc[mask, col] = value]: the masked rows take the value; a column
    that did not exist is created. *)
Definition loc_set (upd : Row -> Row) (mask : list bool) (col : string)
    (df : DataFrame) : DataFrame :=
  {| columns := add_column col (columns df);
     rows := zip_with (fun (b : bool) r => if b then upd r else r)
               mask (rows df) |}.

(** [pd.concat([df1, df2], ignore_index=True)] *)
Definition concat (df1 df2 : DataFrame) : DataFrame :=
  {| columns := foldl (fun cols c => add_column c cols) (columns df1) (columns df2);
     rows := rows df1 ++ rows df2 |}.

(** [df.sort_values('reference_date')] *)
Definition sort_values_reference_date (df : DataFrame) : DataFrame :=
  {| columns := columns df; rows := sort_by reference_date (rows df) |}.

(** The values a new row gives to its float columns, in the order of the
    Python dictionary [row] of [add_to_historical]. *)
Definition row_items (data : Observation) : list (string * float) :=
  foldl (fun row maturity =>
           dict_set (rate_col maturity)
                    (to_cell (dict_get maturity (obs_rates data))) row)
        [] TARGET_MATURITIES
  ++ [("va", to_cell (obs_va data))].

(** [pd.DataFrame([row])] *)
Definition DataFrame_of_row (data : Observation) : DataFrame :=
  {| columns := ["reference_date"; "country"] ++ dict_keys (row_items data);
     rows := [ {| reference_date := obs_reference_date data;
                  country := obs_country data;
                  floats := list_to_map (row_items data) |} ] |}.

(** The test behind the mask of [add_to_historical]: same reference date
    and same country as the new record. *)
Definition has_key (data : Observation) (r : Row) : bool :=
  bool_decide (reference_date r = obs_reference_date data)
  && bool_decide (country r = obs_country data).

(** The in-memory part of [add_to_historical] (everything before the save). *)
Definition upsert_frame (data : Observation) (historical_data : DataFrame)
    : DataFrame :=
  let historical_data :=
    if negb (df_empty historical_data) then
      let mask := map (has_key data) (rows historical_data) in
      if mask_any mask then
        let df := loc_set (set_reference_date (obs_reference_date data))
                          mask "reference_date" historical_data in
        let df := loc_set (set_country (obs_country data)) mask "country" df in
        foldl (fun df '(col, value) => loc_set (set_cell col value) mask col df)
              df (row_items data)
      else concat historical_data (DataFrame_of_row data)
    else DataFrame_of_row data in
  sort_values_reference_date historical_data.

(** The dictionary the lookups rebuild from a row.  Only the rate columns
    are read behind [col_name in row]; [row['va']] is read as it is, and on
    a frame without that column the code raises [KeyError] where the model
    reads a null: the statements that say a lookup or an analysis returns
    are about frames that have the column ([read_columns] below), as every
    frame [add_to_historical] leaves has. *)
Definition row_to_dict (cols : list string) (row : Row) : Observation :=
  {| obs_reference_date := reference_date row;
     obs_country := country row;
     obs_rates :=
       foldl (fun rates maturity =>
                let col_name := rate_col maturity in
                if bool_decide (col_name ∈ cols) && notna (cell row col_name)
                then dict_set maturity (cell row col_name) rates
                else rates)
             [] TARGET_MATURITIES;
     obs_va := of_cell (cell row "va") |}.

(** [EIOPAAnalyzer.get_historical_data] *)
Definition get_historical_data (historical_data : DataFrame)
    (c : string) (target_date : datetime) : option Observation :=
  if df_empty historical_data then None
  else
    let mask :=
      map (fun r => bool_decide (country r = c)
                    && bool_decide (reference_date r = target_date))
          (rows historical_data) in
    if negb (mask_any mask) then None
    else
      match select mask (rows historical_data) with
      | row :: _ => Some (row_to_dict (columns historical_data) row)
      | [] => None
      end.

(** Rows selected by a condition: [df[cond(df)]] *)
Definition df_where (cond : Row -> bool) (l : list Row) : list Row :=
  select (map cond l) l.

(** [EIOPAAnalyzer.get_previous_month_data] *)
Definition get_previous_month_data (historical_data : DataFrame)
    (current_date : datetime) (c : string) : option Observation :=
  let target_date := get_previous_month_date current_date in
  if df_empty historical_data then None
  else
    let mask :=
      map (fun r => bool_decide (country r = c)
                    && (target_date - Calendar.timedelta 5 <=? reference_date r)
                    && (reference_date r <=? target_date + Calendar.timedelta 5))
          (rows historical_data) in
    if negb (mask_any mask) then None
    else
      let candidates := select mask (rows historical_data) in
      let diff := fun r => Z.abs (reference_date r - target_date) in
      match sort_by diff candidates with
      | row :: _ => Some (row_to_dict (columns historical_data) row)
      | [] => None
      end.

(** [EIOPAAnalyzer.get_ytd_data] *)
Definition get_ytd_data (historical_data : DataFrame)
    (current_date : datetime) (c : string) : option Observation :=
  let ytd_date := get_year_start_date current_date in
  if df_empty historical_data then None
  else
    let mask :=
      map (fun r => bool_decide (country r = c)
                    && (ytd_date - Calendar.timedelta 10 <=? reference_date r)
                    && (reference_date r <=? ytd_date + Calendar.timedelta 10))
          (rows historical_data) in
    if negb (mask_any mask) then None
    else
      let candidates := select mask (rows historical_data) in
      let diff := fun r => Z.abs (reference_date r - ytd_date) in
      match sort_by diff candidates with
      | row :: _ => Some (row_to_dict (columns historical_data) row)
      | [] => None
      end.

(** [EIOPAAnalyzer.get_time_series]; the result frame, with its columns
    ['reference_date'] and ['rate'], is the list of its rows. *)
Definition get_time_series (historical_data : DataFrame) (c : string)
    (maturity : Z) (start_date end_date : option datetime)
    : list (datetime * float) :=
  if df_empty historical_data then []
  else
    let col_name := rate_col maturity in
    if negb (bool_decide (col_name ∈ columns historical_data)) then []
    else
      let df := df_where (fun r => bool_decide (country r = c))
                         (rows historical_data) in
      let df := match start_date with
                | Some start_date =>
                    df_where (fun r => start_date <=? reference_date r) df
                | None => df
                end in
      let df := match end_date with
                | Some end_date =>
                    df_where (fun r => reference_date r <=? end_date) df
                | None => df
                end in
      let result := map (fun r => (reference_date r, cell r col_name)) df in
      let result := select (map (fun p => notna (snd p)) result) result in
      sort_by fst result.

(** ** Exceptions, the analyzer's state and its file *)

Inductive exn := TypeError | KeyError | ParserError | OSError.

Inductive outcome (A : Type) :=
  | Returned (a : A)
  | Raised (e : exn).
Arguments Returned {A} a.
Arguments Raised {A} e.

Definition obind {A B} (m : outcome A) (k : A -> outcome B) : outcome B :=
  match m with
  | Returned a => k a
  | Raised e => Raised e
  end.

#[global] Instance outcome_ret : MRet outcome := @Returned.
#[global] Instance outcome_bind : MBind outcome := fun A B k m => obind m k.

(** [d[k]] *)
Definition dict_index {K V} `{EqDecision K} (d : list (K * V)) (k : K)
    : outcome V :=
  match dict_get k d with
  | Some v => Returned v
  | None => Raised KeyError
  end.

(** a [for] loop whose body may raise *)
Fixpoint for_each {A S} (l : list A) (body : S -> A -> outcome S) (s : S)
    : outcome S :=
  match l with
  | [] => Returned s
  | a :: l' => s' ← body s a; for_each l' body s'
  end.

(** What the historical file holds. *)
Inductive File :=
  | Absent
  | Unparseable
  | Csv (df : DataFrame).

Inductive level := INFO | WARNING | ERROR.

(** How a write to the historical file goes: it goes through; it fails
    before the file is opened (no permission, no directory), and the file is
    as it was; or it fails once the file is open for writing, which has
    truncated it, and the file holds the part of the text written by then:
    nothing that parses when that is nothing, else what reads back from
    it. *)
Inductive Disk :=
  | Writes
  | FailsAtOpen
  | FailsAfterOpen (remains : File).

Record State := {
  historical_data : DataFrame;
  historical_file : File;
  disk : Disk;
  log : list (level * string)
}.

(** whether a write goes through *)
Definition writable (st : State) : bool :=
  match disk st with
  | Writes => true
  | _ => false
  end.

Definition M (A : Type) : Type := State -> outcome A * State.

Definition ret {A} (a : A) : M A := fun st => (Returned a, st).

Definition bind {A B} (m : M A) (k : A -> M B) : M B :=
  fun st =>
    match m st with
    | (Returned a, st') => k a st'
    | (Raised e, st') => (Raised e, st')
    end.

#[global] Instance M_ret : MRet M := @ret.
#[global] Instance M_bind : MBind M := fun A B k m => bind m k.

(** [try: body except Exception as e: handler(e)] *)
Definition try_except {A} (body : M A) (handler : exn -> M A) : M A :=
  fun st =>
    match body st with
    | (Returned a, st') => (Returned a, st')
    | (Raised e, st') => handler e st'
    end.

Definition logger (lvl : level) (msg : string) : M unit :=
  fun st =>
    (Returned tt,
     {| historical_data := historical_data st;
        historical_file := historical_file st;
        disk := disk st;
        log := log st ++ [(lvl, msg)] |}).

Definition get_historical_frame : M DataFrame :=
  fun st => (Returned (historical_data st), st).

Definition set_historical_frame (df : DataFrame) : M unit :=
  fun st =>
    (Returned tt,
     {| historical_data := df;
        historical_file := historical_file st;
        disk := disk st;
        log := log st |}).

(** [self.historical_file.exists()] *)
Definition file_exists : M bool :=
  fun st =>
    (Returned match historical_file st with Absent => false | _ => true end, st).

(** [pd.read_csv(self.historical_file, parse_dates=['reference_date'])] *)
Definition read_csv : M DataFrame :=
  fun st =>
    match historical_file st with
    | Csv df => (Returned df, st)
    | Unparseable => (Raised ParserError, st)
    | Absent => (Raised OSError, st)
    end.

(** [df.to_csv(self.historical_file, index=False)]: the file is opened for
    writing, which empties it, then the text is written. *)
Definition to_csv (df : DataFrame) : M unit :=
  fun st =>
    match disk st with
    | Writes =>
        (Returned tt,
         {| historical_data := historical_data st;
            historical_file := Csv df;
            disk := disk st;
            log := log st |})
    | FailsAtOpen => (Raised OSError, st)
    | FailsAfterOpen remains =>
        (Raised OSError,
         {| historical_data := historical_data st;
            historical_file := remains;
            disk := disk st;
            log := log st |})
    end.

Definition schema : list string :=
  ["reference_date"; "country"]
  ++ map rate_col TARGET_MATURITIES
  ++ ["va"; "llp"; "alpha"; "ufr"; "cra"; "convergence"; "coupon_freq"].

(** [EIOPAAnalyzer._load_historical]; the log messages are kept without the
    values interpolated into them. *)
Definition _load_historical : M DataFrame :=
  e ← file_exists;
  if negb e then
    logger INFO "Aucun historique existant, création d'un nouveau fichier";;
    let columns := schema in
    mret (DataFrame_of_columns columns)
  else
    try_except
      (df ← read_csv;
       logger INFO "Historique chargé";;
       mret df)
      (fun e =>
         logger ERROR "Erreur lors du chargement de l'historique";;
         mret (DataFrame_of_columns [])).

(** [EIOPAAnalyzer.__init__] *)
Definition init : M unit :=
  df ← _load_historical;
  set_historical_frame df.

(** [EIOPAAnalyzer.save_historical] *)
Definition save_historical : M unit :=
  try_except
    (df ← get_historical_frame;
     to_csv df;;
     logger INFO "Historique sauvegardé")
    (fun e => logger ERROR "Erreur lors de la sauvegarde").

Definition key_exists (data : Observation) (df : DataFrame) : bool :=
  negb (df_empty df) && mask_any (map (has_key data) (rows df)).

(** [EIOPAAnalyzer.add_to_historical] *)
Definition add_to_historical (data : Observation) : M unit :=
  df ← get_historical_frame;
  (if key_exists data df
   then logger INFO "Mise à jour d'une entrée existante"
   else mret tt);;
  set_historical_frame (upsert_frame data df);;
  save_historical;;
  logger INFO "Donnée ajoutée".

(** ** [utils.py]: formatting *)

(** Python's format specification [.1f] on a float: the decimal expansion of
    the exact binary value, rounded to one decimal, ties to even. *)
Definition format_1f (x : float) : string :=
  match Prim2SF x with
  | S754_nan => "nan"
  | S754_infinity s => if s then "-inf" else "inf"
  | S754_zero s => if s then "-0.0" else "0.0"
  | S754_finite s m e =>
      let tenths :=
        if 0 <=? e then Z.pos m * 2 ^ e * 10
        else
          let num := Z.pos m * 10 in
          let den := 2 ^ (- e) in
          let q := num / den in
          let r := num mod den in
          if (den <? 2 * r) || ((den =? 2 * r) && Z.odd q) then q + 1 else q in
      (if s then "-" else "")
      +:+ pretty (tenths / 10) +:+ "." +:+ pretty (tenths mod 10)
  end.

(** [utils.format_bps] *)
Definition format_bps (bps : float) : string :=
  let sign := if PrimFloat.leb 0%float bps then "+" else "" in
  sign +:+ format_1f bps +:+ " bps".

(** ** The comparator *)

(** Keys of the two delta dictionaries: a maturity, or the string ['va']. *)
Inductive mkey :=
  | Mat (maturity : Z)
  | VaKey.

#[global] Instance mkey_eq_dec : EqDecision mkey.
Proof. solve_decision. Defined.

(** The dictionary built by [create_summary_dict] and completed by
    [analyze]; the keys [analyze] adds start out unset. *)
Record Summary := {
  sum_reference_date : datetime;
  sum_country : string;
  sum_rates : list (Z * float);
  sum_va : option float;
  changes_mom : list (mkey * float);
  changes_ytd : list (mkey * float);
  previous_date : option datetime;
  ytd_date : option datetime;
  alerts : list string
}.

(** [calculate_bps_change(old, new)] where [new] may be [None]: Python
    raises [TypeError] on [None - old]. *)
Definition calculate_bps_change_opt (old_rate : float) (new_rate : option float)
    : outcome float :=
  match new_rate with
  | Some new_rate => Returned (calculate_bps_change old_rate new_rate)
  | None => Raised TypeError
  end.

(** truth value of an optional dictionary: [None] and [{}] are false *)
Definition truthy {K V} (d : option (list (K * V))) : bool :=
  match d with
  | Some (_ :: _) => true
  | _ => false
  end.

(** One of the two blocks of [create_summary_dict]: the deltas against one
    anchor. *)
Definition changes_against (rates : list (Z * float)) (va : option float)
    (anchor_rates : option (list (Z * float))) (anchor_va : option float)
    : outcome (list (mkey * float)) :=
  if truthy anchor_rates then
    let anchor_rates := default [] anchor_rates in
    changes ←
      for_each (dict_keys rates)
        (fun changes maturity =>
           if dict_mem maturity anchor_rates then
             old ← dict_index anchor_rates maturity;
             new ← dict_index rates maturity;
             mret (dict_set (Mat maturity) (calculate_bps_change old new) changes)
           else mret changes)
        [];
    match anchor_va with
    | Some anchor_va =>
        change ← calculate_bps_change_opt anchor_va va;
        mret (dict_set VaKey change changes)
    | None => mret changes
    end
  else mret [].

(** [utils.create_summary_dict] *)
Definition create_summary_dict (reference_date : datetime) (country : string)
    (rates : list (Z * float)) (va : option float)
    (previous_rates : option (list (Z * float))) (previous_va : option float)
    (ytd_rates : option (list (Z * float))) (ytd_va : option float)
    : outcome Summary :=
  mom ← changes_against rates va previous_rates previous_va;
  ytd ← changes_against rates va ytd_rates ytd_va;
  mret {| sum_reference_date := reference_date;
          sum_country := country;
          sum_rates := rates;
          sum_va := va;
          changes_mom := mom;
          changes_ytd := ytd;
          previous_date := None;
          ytd_date := None;
          alerts := [] |}.

Definition key_to_string (k : mkey) : string :=
  match k with
  | Mat maturity => pretty maturity
  | VaKey => "va"
  end.

(** The test [abs(change_bps) >= threshold] of [_detect_alerts]; the
    thresholds are the integers 50 and 100, which Python compares with a
    float by value. *)
Definition alert_due (threshold change_bps : float) : bool :=
  PrimFloat.leb threshold (PrimFloat.abs change_bps).

(** The message of [_detect_alerts]. *)
Definition alert_message (label : string) (maturity : mkey) (change_bps : float)
    : string :=
  let direction :=
    if PrimFloat.ltb 0%float change_bps then "hausse" else "baisse" in
  "⚠️ Variation " +:+ label +:+ " importante ("
  +:+ key_to_string maturity +:+ "Y): "
  +:+ direction +:+ " de " +:+ format_bps change_bps.

(** One of the two loops of [_detect_alerts]. *)
Definition scan_alerts (label : string) (threshold : float)
    (changes : list (mkey * float)) (alerts : list string) : list string :=
  foldl (fun alerts '(maturity, change_bps) =>
           if bool_decide (maturity = VaKey) then alerts
           else if alert_due threshold change_bps then
             alerts ++ [alert_message label maturity change_bps]
           else alerts)
        alerts changes.

(** [EIOPAAnalyzer._detect_alerts] *)
Definition _detect_alerts (summary : Summary) : list string :=
  let alerts := [] in
  let alerts := scan_alerts "M/M" ALERT_THRESHOLD_MOM (changes_mom summary) alerts in
  let alerts := scan_alerts "YTD" ALERT_THRESHOLD_YTD (changes_ytd summary) alerts in
  alerts.

(** [EIOPAAnalyzer.analyze] *)
Definition analyze (historical_data : DataFrame) (current_data : Observation)
    : outcome Summary :=
  let reference_date := obs_reference_date current_data in
  let country := obs_country current_data in
  let previous_data := get_previous_month_data historical_data reference_date country in
  let ytd_data := get_ytd_data historical_data reference_date country in
  summary ←
    create_summary_dict reference_date country
      (obs_rates current_data) (obs_va current_data)
      (obs_rates <$> previous_data) (previous_data ≫= obs_va)
      (obs_rates <$> ytd_data) (ytd_data ≫= obs_va);
  let summary :=
    {| sum_reference_date := sum_reference_date summary;
       sum_country := sum_country summary;
       sum_rates := sum_rates summary;
       sum_va := sum_va summary;
       changes_mom := changes_mom summary;
       changes_ytd := changes_ytd summary;
       previous_date := obs_reference_date <$> previous_data;
       ytd_date := obs_reference_date <$> ytd_data;
       alerts := alerts summary |} in
  mret {| sum_reference_date := sum_reference_date summary;
          sum_country := sum_country summary;
          sum_rates := sum_rates summary;
          sum_va := sum_va summary;
          changes_mom := changes_mom summary;
          changes_ytd := changes_ytd summary;
          previous_date := previous_date summary;
          ytd_date := ytd_date summary;
          alerts := _detect_alerts summary |}.

(** What the update branch of [add_to_historical] makes of a row under the
    mask: every item of the new row is assigned in turn. *)
Definition overwrite_row (data : Observation) (r : Row) : Row :=
  foldl (fun r '(col, value) => set_cell col value r)
        (set_country (obs_country data)
           (set_reference_date (obs_reference_date data) r))
        (row_items data).

(** Two observation dictionaries that Python's [==] cannot tell apart on the
    four keys the store knows: same date, country and VA, and the same rate
    under every maturity. *)
Definition same_observation (o1 o2 : Observation) : Prop :=
  obs_reference_date o1 = obs_reference_date o2
  /\ obs_country o1 = obs_country o2
  /\ (forall m, dict_get m (obs_rates o1) = dict_get m (obs_rates o2))
  /\ obs_va o1 = obs_va o2.

(** The shape the two anchor lookups share: [get_previous_month_data] is
    [lookup_near] around the previous month end with 5 days of tolerance,
    [get_ytd_data] around the year start with 10 days. *)
Definition lookup_near (historical_data : DataFrame) (c : string)
    (target_date tolerance : Z) : option Observation :=
  if df_empty historical_data then None
  else
    let mask :=
      map (fun r => bool_decide (country r = c)
                    && (target_date - Calendar.timedelta tolerance <=? reference_date r)
                    && (reference_date r <=? target_date + Calendar.timedelta tolerance))
          (rows historical_data) in
    if negb (mask_any mask) then None
    else
      let candidates := select mask (rows historical_data) in
      let diff := fun r => Z.abs (reference_date r - target_date) in
      match sort_by diff candidates with
      | row :: _ => Some (row_to_dict (columns historical_data) row)
      | [] => None
      end.

(** A record the anchor lookup considers: of the country, at most
    [tolerance] days from the anchor. *)
Definition in_window (c : string) (anchor tolerance : Z) (r : Row) : Prop :=
  country r = c
  /\ anchor - tolerance <= reference_date r <= anchor + tolerance.

(** day-distance of a row to the anchor *)
Definition distance (anchor : Z) (r : Row) : Z :=
  Z.abs (reference_date r - anchor).

(** The answer of an anchor lookup: nothing when no row is in the window,
    otherwise a row of the window at the least distance. *)
Definition closest_match (df : DataFrame) (c : string)
    (anchor tolerance : Z) (res : option Observation) : Prop :=
  match res with
  | None => forall r, r ∈ rows df -> ~ in_window c anchor tolerance r
  | Some o =>
      exists row,
        row ∈ rows df
        /\ o = row_to_dict (columns df) row
        /\ in_window c anchor tolerance row
        /\ (forall r, r ∈ rows df -> in_window c anchor tolerance r ->
               distance anchor row <= distance anchor r)
  end.

(** The answer of an anchor lookup under the sort of the model, which keeps
    rows at the same distance in the order of the store: the row returned is
    strictly closer than every row of the window before it. *)
Definition first_closest_match (df : DataFrame) (c : string)
    (anchor tolerance : Z) (res : option Observation) : Prop :=
  match res with
  | None => forall r, r ∈ rows df -> ~ in_window c anchor tolerance r
  | Some o =>
      exists pre row post,
        rows df = pre ++ row :: post
        /\ o = row_to_dict (columns df) row
        /\ in_window c anchor tolerance row
        /\ (forall r, r ∈ rows df -> in_window c anchor tolerance r ->
               distance anchor row <= distance anchor r)
        /\ (forall r, r ∈ pre -> in_window c anchor tolerance r ->
               distance anchor row < distance anchor r)
  end.

(** The answer of an anchor lookup as the specification has it, ties going
    to the earliest date. *)
Definition earliest_closest_match (df : DataFrame) (c : string)
    (anchor tolerance : Z) (res : option Observation) : Prop :=
  match res with
  | None => forall r, r ∈ rows df -> ~ in_window c anchor tolerance r
  | Some o =>
      exists row,
        row ∈ rows df
        /\ o = row_to_dict (columns df) row
        /\ in_window c anchor tolerance row
        /\ (forall r, r ∈ rows df -> in_window c anchor tolerance r ->
               distance anchor row < distance anchor r
               \/ (distance anchor row = distance anchor r
                    /\ reference_date row <= reference_date r))
  end.

(** The rows the time-series query keeps: those of the country, inside the
    optional date bounds, with a value in the column. *)
Definition in_series (c : string) (col_name : string)
    (start_date end_date : option datetime) (r : Row) : bool :=
  bool_decide (country r = c)
  && match start_date with
     | Some start_date => start_date <=? reference_date r
     | None => true
     end
  && match end_date with
     | Some end_date => reference_date r <=? end_date
     | None => true
     end
  && notna (cell r col_name).

(** The entries of a delta dictionary that raise an alert under a
    threshold: what the loop of [_detect_alerts] does not skip. *)
Definition alerting (threshold : float) (entry : mkey * float) : bool :=
  negb (bool_decide (entry.1 = VaKey)) && alert_due threshold entry.2.

Definition alert_entries (threshold : float) (changes : list (mkey * float))
    : list (mkey * float) :=
  List.filter (alerting threshold) changes.

Definition alert_of (label : string) (entry : mkey * float) : string :=
  alert_message label entry.1 entry.2.

Definition maturity_of (k : mkey) : option Z :=
  match k with
  | Mat maturity => Some maturity
  | VaKey => None
  end.

(** the maturities that raise an alert, in the order of their alerts *)
Definition alert_maturities (threshold : float) (changes : list (mkey * float))
    : list Z :=
  omap (fun entry : mkey * float => maturity_of entry.1) (alert_entries threshold changes).

(** ** Sample data *)

Module Sample.

Definition fr_row (date : datetime) (items : list (string * float)) : Row :=
  {| reference_date := date; country := "FR"; floats := list_to_map items |}.

Definition frame (l : list Row) : DataFrame :=
  {| columns := schema; rows := l |}.

Definition state (df : DataFrame) (can_write : bool) : State :=
  {| historical_data := df;
     historical_file := Csv df;
     disk := if can_write then Writes else FailsAtOpen;
     log := [] |}.

Definition observation (date : datetime) (rates : list (Z * float))
    (va : option float) : Observation :=
  {| obs_reference_date := date;
     obs_country := "FR";
     obs_rates := rates;
     obs_va := va |}.

Definition jan_2024 : Observation :=
  observation (Calendar.mk_datetime 2024 1 31) [(1, 0.0280%float)] None.
Definition feb_2024 : Observation :=
  observation (Calendar.mk_datetime 2024 2 29) [(1, 0.0290%float)] None.
Definition mar_2024 : Observation :=
  observation (Calendar.mk_datetime 2024 3 31) [(1, 0.0350%float)] None.

(** a store with one February row carrying two rates and a VA *)
Definition feb_store : DataFrame :=
  frame [fr_row (Calendar.mk_datetime 2024 2 29)
           [("rate_1y", 0.0290%float); ("rate_5y", 0.0300%float);
            ("va", 0.0010%float)]].

(** a new February record with one rate and no VA *)
Definition feb_revised : Observation :=
  observation (Calendar.mk_datetime 2024 2 29) [(1, 0.0310%float)] None.

(** rows 3 days after and 3 days before the February month end, in that
    order *)
Definition tie_store : DataFrame :=
  frame [fr_row (Calendar.mk_datetime 2024 3 3) [("rate_1y", 0.0300%float)];
         fr_row (Calendar.mk_datetime 2024 2 26) [("rate_1y", 0.0290%float)]].

(** rows 7 and 3 days before, 2 and 6 days after the February month end *)
Definition spread_store : DataFrame :=
  frame [fr_row (Calendar.mk_datetime 2024 2 22) [("rate_1y", 0.0270%float)];
         fr_row (Calendar.mk_datetime 2024 2 26) [("rate_1y", 0.0280%float)];
         fr_row (Calendar.mk_datetime 2024 3 2) [("rate_1y", 0.0290%float)];
         fr_row (Calendar.mk_datetime 2024 3 6) [("rate_1y", 0.0300%float)]].

(** a February row with the 1-year and 10-year rates *)
Definition two_rate_store : DataFrame :=
  frame [fr_row (Calendar.mk_datetime 2024 2 29)
           [("rate_1y", 0.0300%float); ("rate_10y", 0.0300%float)]].

(** a March record whose rates dictionary was filled 10-year first *)
Definition mar_unordered : Observation :=
  observation (Calendar.mk_datetime 2024 3 31)
    [(10, 0.0400%float); (1, 0.0400%float)] None.

(** the January and February records of the end-to-end scenario *)
Definition scenario_store : DataFrame :=
  frame [fr_row (Calendar.mk_datetime 2024 1 31) [("rate_1y", 0.0280%float)];
         fr_row (Calendar.mk_datetime 2024 2 29) [("rate_1y", 0.0290%float)]].

(** a February row with a VA but no rate at all *)
Definition va_only_store : DataFrame :=
  frame [fr_row (Calendar.mk_datetime 2024 2 29) [("va", 0.0010%float)]].

(** a March record with a VA *)
Definition mar_with_va : Observation :=
  observation (Calendar.mk_datetime 2024 3 31) [(1, 0.0350%float)]
    (Some 0.0012%float).

(** an analyzer whose historical file exists but cannot be parsed *)
Definition unparseable_state : State :=
  {| historical_data := DataFrame_of_columns [];
     historical_file := Unparseable;
     disk := Writes;
     log := [] |}.

End Sample.

(** ** Running the analyzer *)

Definition exec {A} (m : M A) (st : State) : State := snd (m st).
Definition result {A} (m : M A) (st : State) : outcome A := fst (m st).

(** a run of [add_to_historical] on each record in turn *)
Fixpoint add_all (l : list Observation) : M unit :=
  match l with
  | [] => mret tt
  | data :: l' => add_to_historical data;; add_all l'
  end.

(** rows in non-decreasing order of [reference_date] *)
Definition date_sorted (df : DataFrame) : Prop :=
  Sorted (fun r1 r2 => reference_date r1 <= reference_date r2) (rows df).

(** ** More of the store *)

(** The row [pd.DataFrame([row])] holds for a new record. *)
Definition new_row (data : Observation) : Row :=
  {| reference_date := obs_reference_date data;
     country := obs_country data;
     floats := list_to_map (row_items data) |}.

(** the keys of the store's rows, in row order *)
Definition row_keys (df : DataFrame) : list (datetime * string) :=
  map (fun r => (reference_date r, country r)) (rows df).

(** A record of the data model: rates under the configured maturities, and
    no NaN among its values. *)
Definition record_ok (data : Observation) : Prop :=
  (forall m v, dict_get m (obs_rates data) = Some v ->
               m ∈ TARGET_MATURITIES /\ PrimFloat.is_nan v = false)
  /\ (forall v, obs_va data = Some v -> PrimFloat.is_nan v = false).

(** ** More of the comparator *)

(** The delta [create_summary_dict] records under a maturity: the
    basis-point change between the anchor's rate and the current rate when
    both have the maturity, nothing otherwise. *)
Definition rate_delta (rates : list (Z * float))
    (anchor_rates : option (list (Z * float))) (maturity : Z) : option float :=
  match dict_get maturity rates, anchor_rates ≫= dict_get maturity with
  | Some new_rate, Some old_rate => Some (calculate_bps_change old_rate new_rate)
  | _, _ => None
  end.

(** The columns the lookups read from a row without a guard
    ([row['reference_date']], [row['country']], [row['va']]): a frame that
    has rows has them.  Every frame [add_to_historical] leaves does; a file
    written by other means may not, and the lookups then raise [KeyError],
    which the model, where each row carries the three, does not show. *)
Definition read_columns (df : DataFrame) : Prop :=
  rows df = []
  \/ ("reference_date" ∈ columns df /\ "country" ∈ columns df
      /\ "va" ∈ columns df).

(** The years all of whose days, and the days around them that the lookups
    compute, are pandas timestamps (1677-09-21 to 2262-04-11). *)
Definition timestamp_years (d : datetime) : Prop :=
  Calendar.mk_datetime 1678 1 1 <= d <= Calendar.mk_datetime 2261 12 31.

(** The one way [create_summary_dict] raises: the anchor has rates and a VA,
    and the current observation has no VA. *)
Definition va_conflict (va : option float)
    (anchor_rates : option (list (Z * float))) (anchor_va : option float) : bool :=
  match va, anchor_va with
  | None, Some _ => truthy anchor_rates
  | _, _ => false
  end.

(** ** More of the calendar *)

(** [datetime._days_in_month] *)
Definition _days_in_month (year month : Z) : Z :=
  if (month =? 2) && Calendar._is_leap year then 29
  else Calendar.index Calendar._DAYS_IN_MONTH month.

(** The end of [_ord2ymd]: month and day from the day of the year, counted
    from 0, and the leap flag. *)
Definition month_day (n : Z) (leapyear : bool) : Z * Z :=
  let month := Z.shiftr (n + 50) 5 in
  let preceding :=
    Calendar.index Calendar._DAYS_BEFORE_MONTH month
    + Calendar.bool_to_Z ((2 <? month) && leapyear) in
  if n <? preceding then
    let month := month - 1 in
    let preceding :=
      preceding
      - (Calendar.index Calendar._DAYS_IN_MONTH month
         + Calendar.bool_to_Z ((month =? 2) && leapyear)) in
    (month, n - preceding + 1)
  else (month, n - preceding + 1).

(** days before a month, and days in it, by leap flag *)
Definition days_before (leapyear : bool) (month : Z) : Z :=
  Calendar.index Calendar._DAYS_BEFORE_MONTH month
  + Calendar.bool_to_Z ((2 <? month) && leapyear).

Definition days_in (leapyear : bool) (month : Z) : Z :=
  if (month =? 2) && leapyear then 29
  else Calendar.index Calendar._DAYS_IN_MONTH month.

(** [month_day] lands on the right month and day, for one day of the year *)
Definition month_day_ok (leapyear : bool) (n : Z) : bool :=
  let '(m, d) := month_day n leapyear in
  (1 <=? m) && (m <=? 12) && (1 <=? d) && (d <=? days_in leapyear m)
  && (days_before leapyear m + d =? n + 1).

Fixpoint month_day_ok_from (count : nat) (leapyear : bool) (n : Z) : bool :=
  match count with
  | O => true
  | S count' => month_day_ok leapyear n && month_day_ok_from count' leapyear (n + 1)
  end.

(** ** [downloader.py]: the file of a date *)

(** An entry of the list [get_available_files] returns: file name, URL and
    date. *)
Definition FileInfo : Type := string * string * datetime.

(** The loop of [EIOPADownloader.get_file_by_date] over the files, from the
    state [(closest_match, min_diff)]; [min_diff] is [None] while it is
    [float('inf')].  The first component is [exact_match]; the loop stops
    at the first file that sets it. *)
Fixpoint get_file_by_date_loop (files : list FileInfo) (target_date : datetime)
    (closest_match : option FileInfo) (min_diff : option Z)
    : option FileInfo * option FileInfo * option Z :=
  match files with
  | [] => (None, closest_match, min_diff)
  | (filename, url, file_date) :: files' =>
      if bool_decide (file_date = target_date) then
        (Some (filename, url, file_date), closest_match, min_diff)
      else
        let diff := Z.abs (file_date - target_date) in
        if match min_diff with
           | Some min_diff => diff <? min_diff
           | None => true
           end
        then get_file_by_date_loop files' target_date
               (Some (filename, url, file_date)) (Some diff)
        else get_file_by_date_loop files' target_date closest_match min_diff
  end.

(** [EIOPADownloader.get_file_by_date], on the list [get_available_files]
    returned. *)
Definition get_file_by_date (files : list FileInfo) (target_date : datetime)
    : option FileInfo :=
  let '(exact_match, closest_match, min_diff) :=
    get_file_by_date_loop files target_date None None in
  match exact_match with
  | Some exact_match => Some exact_match
  | None =>
      match closest_match, min_diff with
      | Some closest_match, Some min_diff =>
          if min_diff <=? 5 then Some closest_match else None
      | _, _ => None
      end
  end.

(** days between a file's date and a date *)
Definition file_distance (target_date : datetime) (f : FileInfo) : Z :=
  Z.abs (f.2 - target_date).

(** the state of the loop of [get_file_by_date] after the files [seen], none
    of which has the target date *)
Definition closest_so_far (target_date : datetime) (seen : list FileInfo)
    (closest_match : option FileInfo) (min_diff : option Z) : Prop :=
  match closest_match, min_diff with
  | None, None => seen = []
  | Some c, Some d =>
      d = file_distance target_date c
      /\ exists pre post,
           seen = pre ++ c :: post
           /\ (forall g, g ∈ pre -> d < file_distance target_date g)
           /\ (forall g, g ∈ post -> d <= file_distance target_date g)
  | _, _ => False
  end.

(** files in descending order of date *)
Definition newest_first (files : list FileInfo) : Prop :=
  StronglySorted (fun f g : FileInfo => g.2 <= f.2) files.

(** ** [processor.py]: the rates of the pivot sheet *)

(** [config.MIN_RATE], [config.MAX_RATE] *)
Definition MIN_RATE : float := (-0.05)%float.
Definition MAX_RATE : float := 0.15%float.

(** [utils.validate_rate] *)
Definition validate_rate (rate : float) : bool :=
  PrimFloat.leb MIN_RATE rate && PrimFloat.leb rate MAX_RATE.

(** A value read from a sheet: a float, an int (a bool is an int), a string,
    [None], or a value of another type (a date, say), which equals no int
    and which [float()] rejects. *)
Inductive pyvalue :=
  | PyFloat (f : float)
  | PyInt (z : Z)
  | PyStr (s : string)
  | PyNone
  | PyOther.

(** [pd.isna] on a scalar *)
Definition isna (value : pyvalue) : bool :=
  match value with
  | PyNone => true
  | PyFloat f => PrimFloat.is_nan f
  | _ => false
  end.

(** whether a character of a string is the one character of [s] *)
Definition char_is (c : Ascii.ascii) (s : string) : bool :=
  String.eqb (String c EmptyString) s.

(** [s.replace(',', '.')] *)
Fixpoint replace_comma (s : string) : string :=
  match s with
  | EmptyString => EmptyString
  | String c s' =>
      if char_is c "," then "." +:+ replace_comma s' else String c (replace_comma s')
  end.

(** [s.replace(' ', '')] *)
Fixpoint remove_spaces (s : string) : string :=
  match s with
  | EmptyString => EmptyString
  | String c s' =>
      if char_is c " " then remove_spaces s' else String c (remove_spaces s')
  end.

(** [needle in s] *)
Fixpoint contains (needle s : string) : bool :=
  String.prefix needle s
  || match s with
     | EmptyString => false
     | String _ s' => contains needle s'
     end.

(** The sheet as [read_excel] returns it: the column labels (each as
    [str(col)]), the index, and the cell at a row position under a label. *)
Record Pivot := {
  pv_columns : list string;
  pv_index : list pyvalue;
  pv_at : nat -> string -> pyvalue
}.

(** [df[col]], from the top *)
Definition column_values (df : Pivot) (col : string) : list pyvalue :=
  map (fun i => pv_at df i col) (seq 0 (length (pv_index df))).

(** [country_mapping] of [extract_country_rates_from_pivot] *)
Definition country_mapping : list (string * list string) :=
  [("FR", ["France"; "French"; "FR"]);
   ("DE", ["Germany"; "German"; "DE"]);
   ("IT", ["Italy"; "Italian"; "IT"]);
   ("ES", ["Spain"; "Spanish"; "ES"]);
   ("EUR", ["Euro"; "EUR"; "Eurozone"]);
   ("GB", ["United Kingdom"; "UK"; "GB"; "GBP"]);
   ("US", ["United States"; "USA"; "US"; "USD"])].

(** truth value of [country_column]: [None] and the empty label are false *)
Definition truthy_label (country_column : option string) : bool :=
  match country_column with
  | Some (String _ _) => true
  | _ => false
  end.

Section Python.

(** Three builtins of Python the processor calls: [str.lower], [float] on a
    string ([None] where it raises [ValueError]) and [float] on an int (the
    ints of a sheet are in the range of floats, where it does not raise). *)
Variable lower : string -> string.
Variable float_of_str : string -> option float.
Variable float_of_int : Z -> float.

(** [utils.safe_float_conversion] *)
Definition safe_float_conversion (value : pyvalue) : option float :=
  if isna value then None
  else
    match value with
    | PyStr s => float_of_str (remove_spaces (replace_comma s))
    | PyFloat f => Some f
    | PyInt z => Some (float_of_int z)
    | PyNone | PyOther => None
    end.

(** one element of [df.index == maturity] *)
Definition index_eq (v : pyvalue) (maturity : Z) : bool :=
  match v with
  | PyInt z => z =? maturity
  | PyFloat f => PrimFloat.eqb f (float_of_int maturity)
  | _ => false
  end.

(** The search for the country's column in
    [extract_country_rates_from_pivot]: for each name in turn, the first
    column whose label contains it, whatever the case; the search stops at
    the first name with a column. *)
Fixpoint find_country_column (target_columns : list string) (columns : list string)
    (country_column : option string) : option string :=
  match target_columns with
  | [] => country_column
  | possible_name :: target_columns' =>
      let country_column :=
        match List.find (fun col => contains (lower possible_name) (lower col))
                columns with
        | Some col => Some col
        | None => country_column
        end in
      if truthy_label country_column then country_column
      else find_country_column target_columns' columns country_column
  end.

(** [EIOPAProcessor.extract_country_rates_from_pivot], without its log
    lines. *)
Definition extract_country_rates_from_pivot (df : Pivot) (country_code : string)
    : option (list (Z * float)) :=
  let target_columns :=
    default [country_code] (dict_get country_code country_mapping) in
  match find_country_column target_columns (pv_columns df) None with
  | None => None
  | Some country_column =>
      let rates :=
        foldl (fun rates maturity =>
                 let mask := map (fun v => index_eq v maturity) (pv_index df) in
                 if negb (mask_any mask) then rates
                 else
                   match select mask (column_values df country_column) with
                   | rate_value :: _ =>
                       match safe_float_conversion rate_value with
                       | Some rate_float =>
                           let rate_decimal := PrimFloat.div rate_float 100 in
                           if validate_rate rate_decimal
                           then dict_set maturity rate_decimal rates
                           else rates
                       | None => rates
                       end
                   | [] => rates
                   end)
              [] TARGET_MATURITIES in
      match rates with
      | [] => None
      | _ :: _ => Some rates
      end
  end.

(** The rate [extract_country_rates_from_pivot] keeps for a maturity: the
    cell of the first row of that maturity, as a decimal, when it converts
    and validates. *)
Definition pivot_rate (df : Pivot) (country_column : string) (maturity : Z)
    : option float :=
  match select (map (fun v => index_eq v maturity) (pv_index df))
               (column_values df country_column) with
  | rate_value :: _ =>
      match safe_float_conversion rate_value with
      | Some rate_float =>
          if validate_rate (PrimFloat.div rate_float 100)
          then Some (PrimFloat.div rate_float 100) else None
      | None => None
      end
  | [] => None
  end.

End Python.

(** [process] hands over the rates with the file's date, the target country
    and no VA. *)
Definition processed (reference_date : datetime) (c : string)
    (rates : list (Z * float)) : Observation :=
  {| obs_reference_date := reference_date;
     obs_country := c;
     obs_rates := rates;
     obs_va := None |}.

(** ** [utils.py]: the date of a file name

  A string is the list of its bytes.  On a name of ASCII characters, the
  digits [\d] matches are the characters 0 to 9. *)

(** the value of a character 0 to 9 *)
Definition digit_of (c : Ascii.ascii) : option Z :=
  let n := Z.of_nat (Ascii.nat_of_ascii c) in
  if (48 <=? n) && (n <=? 57) then Some (n - 48) else None.

(** the character of a digit *)
Definition digit_char (n : Z) : Ascii.ascii :=
  Ascii.ascii_of_nat (Z.to_nat (48 + n)).

(** the first [n] characters, when they are digits *)
Fixpoint take_digits (n : nat) (s : string) : option (list Z) :=
  match n with
  | O => Some []
  | S n' =>
      match s with
      | EmptyString => None
      | String c s' =>
          d ← digit_of c; ds ← take_digits n' s'; Some (d :: ds)
      end
  end.

(** [re.search(r'(\d{8})', filename)]: the leftmost run of 8 digits *)
Fixpoint search_8_digits (filename : string) : option (list Z) :=
  match take_digits 8 filename with
  | Some date_str => Some date_str
  | None =>
      match filename with
      | EmptyString => None
      | String _ filename' => search_8_digits filename'
      end
  end.

(** [int] on a string of digits *)
Definition int_of_digits (ds : list Z) : Z :=
  foldl (fun n d => 10 * n + d) 0 ds.

(** [datetime.strptime(date_str, '%Y%m%d')] on 8 digits, [None] where it
    raises [ValueError]: the pattern takes 4 digits for the year, then a
    month 01 to 12 and a day 01 to 31 of 2 digits each, and leaves no digit
    over; [datetime] then refuses the year 0 and a day the month has not. *)
Definition strptime_Ymd (date_str : list Z) : option datetime :=
  let year := int_of_digits (take 4 date_str) in
  let month := int_of_digits (take 2 (drop 4 date_str)) in
  let day := int_of_digits (drop 6 date_str) in
  if (1 <=? year) && (1 <=? month) && (month <=? 12)
     && (1 <=? day) && (day <=? _days_in_month year month)
  then Some (Calendar.mk_datetime year month day)
  else None.

(** [utils.parse_date_from_filename] *)
Definition parse_date_from_filename (filename : string) : option datetime :=
  match search_8_digits filename with
  | Some date_str => strptime_Ymd date_str
  | None => None
  end.

(** a number below 100 on 2 digits *)
Definition two_digits (n : Z) : string :=
  String (digit_char (n / 10)) (String (digit_char (n mod 10)) EmptyString).

(** a number below 10000 on 4 digits *)
Definition four_digits (n : Z) : string :=
  String (digit_char (n / 1000))
    (String (digit_char (n / 100 mod 10)) (two_digits (n mod 100))).

(** [utils.format_date_eiopa]: [strftime('%Y%m%d')], for the years of 4
    digits *)
Definition format_date_eiopa (date : datetime) : string :=
  four_digits (Calendar.dt_year date)
  +:+ two_digits (Calendar.dt_month date)
  +:+ two_digits (Calendar.dt_day date).

(** a string of ASCII characters *)
Fixpoint ascii_text (s : string) : bool :=
  match s with
  | EmptyString => true
  | String c s' => Nat.ltb (Ascii.nat_of_ascii c) 128 && ascii_text s'
  end.

(** a string without a digit *)
Fixpoint no_digit (s : string) : bool :=
  match s with
  | EmptyString => true
  | String c s' => negb (bool_decide (is_Some (digit_of c))) && no_digit s'
  end.

(** ** More sample data *)

(** the two delta dictionaries and the alerts of an analysis *)
Definition analysis_deltas (res : outcome Summary)
    : option (list (mkey * float) * list (mkey * float) * list string) :=
  match res with
  | Returned s => Some (changes_mom s, changes_ytd s, alerts s)
  | Raised _ => None
  end.

Module Cases.

(** a store with a 10-year rate of zero on January 2 and on February 29 *)
Definition zero_store : DataFrame :=
  Sample.frame
    [Sample.fr_row (Calendar.mk_datetime 2024 1 2) [("rate_10y", 0%float)];
     Sample.fr_row (Calendar.mk_datetime 2024 2 29) [("rate_10y", 0%float)]].

(** the same with a rate of 0.5% *)
Definition half_store : DataFrame :=
  Sample.frame
    [Sample.fr_row (Calendar.mk_datetime 2024 1 2) [("rate_10y", 0.005%float)];
     Sample.fr_row (Calendar.mk_datetime 2024 2 29) [("rate_10y", 0.005%float)]].

(** the March record with a given 10-year rate *)
Definition at_rate (rate : float) : Observation :=
  Sample.observation (Calendar.mk_datetime 2024 3 31) [(10, rate)] None.

(** an analyzer on a disk where a write fails once the file is open and
    leaves it empty *)
Definition truncating_state (df : DataFrame) : State :=
  {| historical_data := df;
     historical_file := Csv df;
     disk := FailsAfterOpen Unparseable;
     log := [] |}.

(** the analysis of the March record on the January and February records *)
Definition mar_summary : Summary :=
  {| sum_reference_date := Calendar.mk_datetime 2024 3 31;
     sum_country := "FR";
     sum_rates := [(1, 0.0350%float)];
     sum_va := None;
     changes_mom := [(Mat 1, 60.00000000000002%float)];
     changes_ytd := [];
     previous_date := Some (Calendar.mk_datetime 2024 2 29);
     ytd_date := None;
     alerts := ["⚠️ Variation M/M importante (1Y): hausse de +60.0 bps"] |}.

(** what [create_summary_dict] returns for the March rates against the
    February rates *)
Definition mar_deltas : Summary :=
  {| sum_reference_date := Calendar.mk_datetime 2024 3 31;
     sum_country := "FR";
     sum_rates := [(1, 0.0350%float)];
     sum_va := None;
     changes_mom := [(Mat 1, 60.00000000000002%float)];
     changes_ytd := [];
     previous_date := None;
     ytd_date := None;
     alerts := [] |}.

(** a store with the January record only *)
Definition jan_store : DataFrame :=
  Sample.frame
    [Sample.fr_row (Calendar.mk_datetime 2024 1 31) [("rate_1y", 0.0280%float)]].

(** a record dated on the third day of March *)
Definition early_mar_2024 : Observation :=
  Sample.observation (Calendar.mk_datetime 2024 3 3) [(1, 0.0300%float)] None.

(** the February record as the lookups rebuild it from the store *)
Definition feb_stored : Observation :=
  Sample.observation (Calendar.mk_datetime 2024 2 29)
    [(1, 0.0290%float); (5, 0.0300%float)] (Some 0.0010%float).

(** [str.lower] on the letters A to Z *)
Fixpoint ascii_lower (s : string) : string :=
  match s with
  | EmptyString => EmptyString
  | String c s' =>
      let n := Ascii.nat_of_ascii c in
      String (if Nat.leb 65 n && Nat.leb n 90 then Ascii.ascii_of_nat (n + 32) else c)
             (ascii_lower s')
  end.

(** [float] on an int: the nearest float *)
Definition float_of_Z (z : Z) : float :=
  SF2Prim (binary_normalize prec emax z 0 false).

(** [float] on a string, for a sheet without numbers written as text: every
    string is rejected *)
Definition no_float_of_str (s : string) : option float := None.

(** a sheet with rows for the maturities 1, 2, 5, 10 and 20, in percent:
    no value at 10 years, a value out of range at 20 years *)
Definition sheet : Pivot :=
  {| pv_columns := ["Euro"; "France"; "Germany"];
     pv_index := [PyInt 1; PyInt 2; PyInt 5; PyInt 10; PyInt 20];
     pv_at := fun i col =>
       if String.eqb col "France" then
         nth i [PyFloat 3.5; PyFloat 3.25; PyFloat 3; PyNone; PyFloat 99] PyNone
       else PyNone |}.

(** three files, newest first *)
Definition files : list FileInfo :=
  [("EIOPA_RFR_20240331.zip", "https://www.eiopa.europa.eu/a",
    Calendar.mk_datetime 2024 3 31);
   ("EIOPA_RFR_20240325.zip", "https://www.eiopa.europa.eu/b",
    Calendar.mk_datetime 2024 3 25);
   ("EIOPA_RFR_20240229.zip", "https://www.eiopa.europa.eu/c",
    Calendar.mk_datetime 2024 2 29)].

End Cases.

(** * Properties *)

Example rate_col_10 : rate_col 10 = "rate_10y".
Proof. reflexivity. Qed.

Example previous_month_of_2024_03_31 :
  get_previous_month_date (Calendar.mk_datetime 2024 3 31)
  = Calendar.mk_datetime 2024 2 29.
Proof. reflexivity. Qed.

Example year_start_of_2024_03_31 :
  get_year_start_date (Calendar.mk_datetime 2024 3 31)
  = Calendar.mk_datetime 2024 1 1.
Proof. reflexivity. Qed.

Example ord2ymd_2024_12_31 :
  Calendar._ord2ymd (Calendar.mk_datetime 2024 12 31) = (2024, 12, 31).
Proof. reflexivity. Qed.

Example format_bps_45 :
  format_bps (calculate_bps_change 0.0265%float 0.0310%float) = "+45.0 bps".
Proof. vm_compute. reflexivity. Qed.

Example format_bps_neg : format_bps (-12.25)%float = "-12.2 bps".
Proof. vm_compute. reflexivity. Qed.

Example format_bps_half : format_bps (0.75)%float = "+0.8 bps".
Proof. vm_compute. reflexivity. Qed.

(** ** Basis-point deltas *)

(** C9, as stated, fails: in binary64 arithmetic neither delta is exactly
    the round number. *)
Lemma calculate_bps_change_not_exact :
  calculate_bps_change 0.0265%float 0.0310%float <> 45%float
  /\ calculate_bps_change 0.0300%float 0.0200%float <> (-100)%float.
Proof.
  split; intros H.
  - apply (f_equal (fun x => PrimFloat.eqb x 45%float)) in H.
    vm_compute in H. discriminate.
  - apply (f_equal (fun x => PrimFloat.eqb x (-100)%float)) in H.
    vm_compute in H. discriminate.
Qed.

(** C9, amended: the function is the formula [(new - old) * 10000] in
    binary64 arithmetic; on the two examples it returns the floats one unit
    in the last place above 45 and above -100, which print as 45.0 and
    -100.0 basis points. *)
Theorem calculate_bps_change_examples :
  (forall old_rate new_rate,
      calculate_bps_change old_rate new_rate
      = PrimFloat.mul (PrimFloat.sub new_rate old_rate) 10000%float)
  /\ calculate_bps_change 0.0265%float 0.0310%float = PrimFloat.next_up 45%float
  /\ calculate_bps_change 0.0265%float 0.0310%float = 45.00000000000001%float
  /\ calculate_bps_change 0.0300%float 0.0200%float = PrimFloat.next_up (-100)%float
  /\ calculate_bps_change 0.0300%float 0.0200%float = (-99.99999999999999)%float
  /\ PrimFloat.eqb (calculate_bps_change 0.0300%float 0.0200%float) (-100)%float = false
  /\ format_bps (calculate_bps_change 0.0265%float 0.0310%float) = "+45.0 bps"
  /\ format_bps (calculate_bps_change 0.0300%float 0.0200%float) = "-100.0 bps".
Proof.
  repeat split; vm_compute; reflexivity.
Qed.

(** ** Sorting *)

Section SortFacts.
Context {A : Type} (key : A -> Z).

Lemma insert_by_perm x l : Permutation (insert_by key x l) (x :: l).
Proof.
  induction l as [|y l IH]; simpl; [done|].
  destruct (key x <=? key y); [done|].
  rewrite IH. apply perm_swap.
Qed.

Lemma sort_by_perm l : Permutation (sort_by key l) l.
Proof.
  induction l as [|x l IH]; simpl; [done|].
  by rewrite insert_by_perm, IH.
Qed.

Lemma insert_by_sorted x l :
  StronglySorted (fun a b => key a <= key b) l ->
  StronglySorted (fun a b => key a <= key b) (insert_by key x l).
Proof.
  induction 1 as [|y l Hl IH Hy]; simpl.
  - repeat constructor.
  - destruct (Z.leb_spec (key x) (key y)).
    + constructor; [by constructor|].
      constructor; [done|].
      eapply Forall_impl; [exact Hy|]. simpl. intros. lia.
    + constructor; [done|].
      rewrite Forall_forall. intros z Hz.
      rewrite insert_by_perm in Hz. apply elem_of_cons in Hz.
      destruct Hz as [->|Hz]; [lia|].
      rewrite Forall_forall in Hy. by apply Hy.
Qed.

Lemma sort_by_sorted l :
  StronglySorted (fun a b => key a <= key b) (sort_by key l).
Proof.
  induction l; simpl; [constructor|]. by apply insert_by_sorted.
Qed.

(** The first row of the sorted list is the first row of the input among
    those with the least key. *)
Lemma sort_by_head l r rest :
  sort_by key l = r :: rest ->
  exists pre post,
    l = pre ++ r :: post
    /\ (forall c, c ∈ pre -> key r < key c)
    /\ (forall c, c ∈ l -> key r <= key c).
Proof.
  revert r rest. induction l as [|x l IH]; simpl; intros r rest Hs; [done|].
  destruct (sort_by key l) as [|y ys] eqn:Hl.
  - assert (l = []) as ->.
    { apply Permutation_nil. rewrite <- Hl. apply sort_by_perm. }
    simpl in Hs. injection Hs as <- <-.
    exists [], []. split_and!; [done|by intros c ?%elem_of_nil|].
    intros c ->%list_elem_of_singleton. lia.
  - destruct (IH y ys eq_refl) as (pre & post & -> & Hpre & Hall).
    simpl in Hs. destruct (Z.leb_spec (key x) (key y)); injection Hs as <- <-.
    + exists [], (pre ++ y :: post).
      split_and!; [done|by intros c ?%elem_of_nil|].
      intros c [->|Hc]%elem_of_cons; [lia|]. specialize (Hall c Hc). lia.
    + exists (x :: pre), post. split_and!; [done|..].
      * intros c [->|Hc]%elem_of_cons; [lia|]. by apply Hpre.
      * intros c [->|Hc]%elem_of_cons; [lia|]. by apply Hall.
Qed.

Lemma sort_by_nil l : sort_by key l = [] -> l = [].
Proof.
  intros H. apply Permutation_nil. rewrite <- H. apply sort_by_perm.
Qed.

End SortFacts.

(** ** Masks, frames and dictionaries *)


Lemma select_map {A} (f : A -> bool) (l : list A) :
  select (map f l) l = List.filter f l.
Proof. induction l as [|x l IH]; simpl; [done|]. by rewrite IH. Qed.

Lemma mask_any_map {A} (f : A -> bool) (l : list A) :
  mask_any (map f l) = true <-> exists x, x ∈ l /\ f x = true.
Proof.
  unfold mask_any. rewrite existsb_exists. split.
  - intros (b & Hb & ->). apply in_map_iff in Hb as (x & Hx & Hin).
    exists x. by rewrite list_elem_of_In.
  - intros (x & Hin & Hx). exists true. split; [|done].
    apply in_map_iff. exists x. by rewrite <- list_elem_of_In.
Qed.

Lemma elem_of_filter_bool {A} (f : A -> bool) (l : list A) x :
  x ∈ List.filter f l <-> x ∈ l /\ f x = true.
Proof. rewrite !list_elem_of_In. apply filter_In. Qed.

Lemma zip_mask_map {A} (f : A -> bool) (g h : A -> A) (l : list A) :
  zip_with (fun (b : bool) r => if b then h r else r) (map f l)
           (map (fun r => if f r then g r else r) l)
  = map (fun r => if f r then h (g r) else r) l.
Proof.
  induction l as [|x l IH]; simpl; [done|]. rewrite IH. by destruct (f x).
Qed.

Lemma loc_set_rows (f : Row -> bool) (g upd : Row -> Row) l col df :
  rows df = map (fun r => if f r then g r else r) l ->
  rows (loc_set upd (map f l) col df)
  = map (fun r => if f r then upd (g r) else r) l.
Proof. intros H. simpl. rewrite H. apply zip_mask_map. Qed.

Lemma loc_set_loop_rows (f : Row -> bool) l items : forall g df,
  rows df = map (fun r => if f r then g r else r) l ->
  rows (foldl (fun df '(col, value) => loc_set (set_cell col value) (map f l) col df)
              df items)
  = map (fun r => if f r
                  then foldl (fun r '(col, value) => set_cell col value r) (g r) items
                  else r) l.
Proof.
  induction items as [|[col v] items IH]; intros g df H; simpl; [done|].
  apply (IH (fun r => set_cell col v (g r))).
  by apply loc_set_rows.
Qed.

Lemma add_column_elem col c cols :
  c ∈ add_column col cols <-> c = col \/ c ∈ cols.
Proof.
  unfold add_column. case_bool_decide.
  - split; [by right|]. by intros [->|?].
  - rewrite elem_of_app, list_elem_of_singleton. tauto.
Qed.

Lemma loc_set_loop_columns (mask : list bool) items c : forall df,
  c ∈ columns (foldl (fun df '(col, value) => loc_set (set_cell col value) mask col df)
                     df items)
  <-> c ∈ columns df \/ c ∈ dict_keys items.
Proof.
  induction items as [|[col v] items IH]; intros df; simpl.
  - rewrite elem_of_nil. tauto.
  - rewrite IH. simpl. rewrite add_column_elem, elem_of_cons. tauto.
Qed.

Lemma key_exists_spec data df :
  key_exists data df = true
  <-> exists r, r ∈ rows df /\ has_key data r = true.
Proof.
  unfold key_exists. rewrite andb_true_iff, mask_any_map. split.
  - by intros [_ H].
  - intros (r & Hr & Hk). split; [|by exists r].
    unfold df_empty. destruct (rows df); [by apply elem_of_nil in Hr|done].
Qed.

(** The frame left by an upsert on a key that is already there. *)
Lemma upsert_frame_existing data df :
  key_exists data df = true ->
  rows (upsert_frame data df)
  = sort_by reference_date
      (map (fun r => if has_key data r then overwrite_row data r else r) (rows df))
  /\ forall c, c ∈ dict_keys (row_items data) -> c ∈ columns (upsert_frame data df).
Proof.
  intros Hk. pose proof Hk as Hk'.
  unfold key_exists in Hk. apply andb_true_iff in Hk as [He Ha].
  unfold upsert_frame. rewrite He, Ha.
  unfold sort_values_reference_date. cbn [negb rows columns].
  split.
  - f_equal.
    rewrite (loc_set_loop_rows (has_key data) (rows df) (row_items data)
               (fun r => set_country (obs_country data)
                           (set_reference_date (obs_reference_date data) r))).
    + done.
    + erewrite (loc_set_rows (has_key data) (set_reference_date (obs_reference_date data))); [done|].
      erewrite (loc_set_rows (has_key data) (fun r => r)); [done|].
      rewrite <- (map_id (rows df)) at 1. apply map_ext. intros r. by destruct (has_key data r).
  - intros c Hc. apply loc_set_loop_columns. by right.
Qed.

Lemma row_items_eq data :
  row_items data =
  [("rate_1y", to_cell (dict_get 1 (obs_rates data)));
   ("rate_5y", to_cell (dict_get 5 (obs_rates data)));
   ("rate_10y", to_cell (dict_get 10 (obs_rates data)));
   ("rate_20y", to_cell (dict_get 20 (obs_rates data)));
   ("rate_30y", to_cell (dict_get 30 (obs_rates data)));
   ("va", to_cell (obs_va data))].
Proof. reflexivity. Qed.

Lemma overwrite_row_key data r :
  reference_date (overwrite_row data r) = obs_reference_date data
  /\ country (overwrite_row data r) = obs_country data.
Proof. unfold overwrite_row. rewrite row_items_eq. done. Qed.

Lemma overwrite_row_cells data r :
  (forall m, m ∈ TARGET_MATURITIES ->
     cell (overwrite_row data r) (rate_col m)
     = to_cell (dict_get m (obs_rates data)))
  /\ cell (overwrite_row data r) "va" = to_cell (obs_va data).
Proof.
  unfold overwrite_row. rewrite row_items_eq. unfold cell. cbn [foldl set_cell floats].
  split.
  - intros m Hm. unfold TARGET_MATURITIES in Hm.
    repeat (apply elem_of_cons in Hm as [->|Hm]);
      [..|by apply elem_of_nil in Hm].
    all: repeat (rewrite lookup_insert_ne by done); by rewrite lookup_insert_eq.
  - by rewrite lookup_insert_eq.
Qed.

(** The columns the new row does not name keep their cells: the descriptive
    columns of the schema are carried through an upsert. *)
Lemma overwrite_row_other_cells data r col :
  col ∉ dict_keys (row_items data) ->
  cell (overwrite_row data r) col = cell r col.
Proof.
  unfold overwrite_row.
  set (r0 := set_country _ _).
  change (cell r col) with (cell r0 col).
  generalize r0. clear r0.
  induction (row_items data) as [|[c v] items IH]; intros r0 Hc; simpl; [done|].
  simpl in Hc. apply not_elem_of_cons in Hc as [Hne Hc].
  rewrite IH by done. unfold cell, set_cell. simpl.
  by rewrite lookup_insert_ne.
Qed.

Section DictFacts.
Context {K V : Type} `{EqDecision K}.

Lemma dict_get_set (k k' : K) (v : V) d :
  dict_get k' (dict_set k v d) = if decide (k' = k) then Some v else dict_get k' d.
Proof.
  induction d as [|[k0 v0] d IH]; simpl.
  - by destruct (decide (k' = k)).
  - destruct (decide (k = k0)) as [->|Hne]; simpl.
    + by destruct (decide (k' = k0)).
    + rewrite IH. destruct (decide (k' = k0)) as [->|]; [|done].
      by destruct (decide (k0 = k)).
Qed.

(** A dictionary filled by a loop [for k in l: if p(k): d[k] = f(k)]. *)
Lemma dict_get_filled (p : K -> bool) (f : K -> V) (l : list K) k : forall d,
  dict_get k (foldl (fun d k => if p k then dict_set k (f k) d else d) d l)
  = if bool_decide (k ∈ l) && p k then Some (f k) else dict_get k d.
Proof.
  induction l as [|k0 l IH]; intros d; simpl; [done|].
  rewrite IH. destruct (decide (k = k0)) as [->|Hne].
  - rewrite (bool_decide_true (k0 ∈ k0 :: l)) by (apply elem_of_cons; by left).
    destruct (p k0) eqn:Hp; simpl.
    + rewrite andb_true_r, dict_get_set.
      rewrite decide_True by done. by case_bool_decide.
    + by rewrite andb_false_r.
  - assert (bool_decide (k ∈ k0 :: l) = bool_decide (k ∈ l)) as ->.
    { apply bool_decide_ext. rewrite elem_of_cons. intuition congruence. }
    destruct (bool_decide (k ∈ l) && p k); [done|].
    destruct (p k0); [|done]. rewrite dict_get_set. by rewrite decide_False.
Qed.

End DictFacts.

Lemma of_cell_to_cell (v : option float) :
  (forall x, v = Some x -> PrimFloat.is_nan x = false) ->
  of_cell (to_cell v) = v.
Proof.
  intros H. destruct v as [x|]; simpl.
  - unfold of_cell, notna. by rewrite (H x eq_refl).
  - reflexivity.
Qed.

(** The dictionary rebuilt from a row holds, under each target maturity whose
    column exists, the row's cell when it is not null. *)
Lemma row_to_dict_rates cols row m :
  dict_get m (obs_rates (row_to_dict cols row))
  = if bool_decide (m ∈ TARGET_MATURITIES)
       && (bool_decide (rate_col m ∈ cols) && notna (cell row (rate_col m)))
    then Some (cell row (rate_col m)) else None.
Proof.
  unfold row_to_dict. cbn [obs_rates].
  apply (dict_get_filled
           (fun k => bool_decide (rate_col k ∈ cols) && notna (cell row (rate_col k)))
           (fun k => cell row (rate_col k))).
Qed.

Lemma has_key_spec data r :
  has_key data r = true
  <-> reference_date r = obs_reference_date data /\ country r = obs_country data.
Proof.
  unfold has_key. by rewrite andb_true_iff, !bool_decide_eq_true.
Qed.

(** After an upsert on an existing key, every row under that key is an
    overwritten row. *)
Lemma upsert_frame_existing_rows data df row :
  key_exists data df = true ->
  row ∈ rows (upsert_frame data df) ->
  has_key data row = true ->
  exists r, r ∈ rows df /\ row = overwrite_row data r.
Proof.
  intros Hk Hin Hrow.
  destruct (upsert_frame_existing data df Hk) as [Hrows _].
  rewrite Hrows, sort_by_perm in Hin.
  apply list_elem_of_fmap in Hin as (r & -> & Hr).
  destruct (has_key data r) eqn:Hkr; [by exists r|congruence].
Qed.

Lemma get_historical_data_found df c d row :
  row ∈ rows df -> country row = c -> reference_date row = d ->
  exists row', row' ∈ rows df /\ country row' = c /\ reference_date row' = d
    /\ get_historical_data df c d = Some (row_to_dict (columns df) row').
Proof.
  intros Hin Hc Hd. unfold get_historical_data.
  unfold df_empty. destruct (rows df) as [|r0 l] eqn:Hl; [by apply elem_of_nil in Hin|].
  rewrite <- Hl in *. clear Hl r0 l.
  set (f := fun r => bool_decide (country r = c) && bool_decide (reference_date r = d)).
  assert (Hf : forall r, f r = true <-> country r = c /\ reference_date r = d).
  { intros r. unfold f. by rewrite andb_true_iff, !bool_decide_eq_true. }
  assert (Hany : mask_any (map f (rows df)) = true).
  { apply mask_any_map. exists row. split; [done|]. by apply Hf. }
  rewrite Hany, select_map. simpl.
  destruct (List.filter f (rows df)) as [|row' l] eqn:Hfl.
  - assert (row ∈ List.filter f (rows df)) as Hx.
    { apply elem_of_filter_bool. split; [done|]. by apply Hf. }
    rewrite Hfl in Hx. by apply elem_of_nil in Hx.
  - assert (row' ∈ List.filter f (rows df)) as Hx.
    { rewrite Hfl. apply elem_of_cons. by left. }
    apply elem_of_filter_bool in Hx as [Hx1 Hx2]. apply Hf in Hx2 as [? ?].
    by exists row'.
Qed.

(** ** Running [add_to_historical] *)

Lemma upsert_frame_rows_sorted data df :
  StronglySorted (fun r1 r2 => reference_date r1 <= reference_date r2)
    (rows (upsert_frame data df)).
Proof. unfold upsert_frame. simpl. apply sort_by_sorted. Qed.

Lemma upsert_frame_date_sorted data df : date_sorted (upsert_frame data df).
Proof. apply StronglySorted_Sorted, upsert_frame_rows_sorted. Qed.

(** [add_to_historical] always returns; the frame in memory is the mutated
    one whether or not the write went through. *)
Lemma add_to_historical_run data st :
  result (add_to_historical data) st = Returned tt
  /\ historical_data (exec (add_to_historical data) st)
     = upsert_frame data (historical_data st)
  /\ disk (exec (add_to_historical data) st) = disk st
  /\ historical_file (exec (add_to_historical data) st)
     = match disk st with
       | Writes => Csv (upsert_frame data (historical_data st))
       | FailsAtOpen => historical_file st
       | FailsAfterOpen remains => remains
       end.
Proof.
  unfold result, exec, add_to_historical, save_historical, try_except,
    get_historical_frame, set_historical_frame, to_csv, logger,
    mbind, mret, M_bind, M_ret, bind, ret.
  destruct (key_exists data (historical_data st)); simpl;
    destruct (disk st) eqn:Hw; simpl; rewrite ?Hw; done.
Qed.

Lemma add_all_run l st :
  result (add_all l) st = Returned tt
  /\ (l <> [] -> date_sorted (historical_data (exec (add_all l) st)))
  /\ (l = [] -> exec (add_all l) st = st).
Proof.
  revert st. induction l as [|data l IH]; intros st.
  - by split_and!.
  - destruct (add_to_historical_run data st) as (Hr & Hd & _).
    unfold result, exec in *. simpl.
    unfold mbind, M_bind, bind.
    destruct (add_to_historical data st) as [o st1] eqn:Hrun.
    simpl in Hr, Hd. subst o.
    destruct (IH st1) as (IHr & IHs & IHn).
    split_and!; [done| |done].
    intros _. destruct l as [|d' l'].
    + rewrite IHn by done. rewrite Hd. apply upsert_frame_date_sorted.
    + by apply IHs.
Qed.

(** C1: an upsert of [r] on a key the store already has overwrites, in every
    row under that key, each rate column and the VA column with [r]'s value
    or null, and an exact lookup of the key then returns [r]. *)
Theorem upsert_overwrites (r : Observation) (st : State) :
  (exists row, row ∈ rows (historical_data st)
               /\ reference_date row = obs_reference_date r
               /\ country row = obs_country r) ->
  (forall m v, dict_get m (obs_rates r) = Some v ->
               m ∈ TARGET_MATURITIES /\ PrimFloat.is_nan v = false) ->
  (forall v, obs_va r = Some v -> PrimFloat.is_nan v = false) ->
  let st' := exec (add_to_historical r) st in
  (forall row, row ∈ rows (historical_data st') ->
     reference_date row = obs_reference_date r -> country row = obs_country r ->
     (forall m, m ∈ TARGET_MATURITIES ->
        cell row (rate_col m) = to_cell (dict_get m (obs_rates r)))
     /\ cell row "va" = to_cell (obs_va r))
  /\ exists o,
       get_historical_data (historical_data st') (obs_country r)
         (obs_reference_date r) = Some o
       /\ same_observation o r.
Proof.
  intros (row0 & Hin0 & Hd0 & Hc0) Hrates Hva st'.
  destruct (add_to_historical_run r st) as (_ & Hdata & _).
  subst st'. rewrite Hdata. clear Hdata.
  set (df := historical_data st) in *.
  assert (Hk : key_exists r df = true).
  { apply key_exists_spec. exists row0. split; [done|]. by apply has_key_spec. }
  assert (Hcells : forall row, row ∈ rows (upsert_frame r df) ->
     reference_date row = obs_reference_date r -> country row = obs_country r ->
     (forall m, m ∈ TARGET_MATURITIES ->
        cell row (rate_col m) = to_cell (dict_get m (obs_rates r)))
     /\ cell row "va" = to_cell (obs_va r)).
  { intros row Hin Hd Hc.
    destruct (upsert_frame_existing_rows r df row Hk Hin) as (r1 & _ & ->).
    - by apply has_key_spec.
    - apply overwrite_row_cells. }
  split; [exact Hcells|].
  destruct (upsert_frame_existing r df Hk) as [Hrows Hcols].
  assert (Hin : overwrite_row r row0 ∈ rows (upsert_frame r df)).
  { rewrite Hrows, sort_by_perm. apply list_elem_of_fmap.
    exists row0. split; [|done].
    by rewrite (proj2 (has_key_spec r row0) (conj Hd0 Hc0)). }
  destruct (overwrite_row_key r row0) as [Hkd Hkc].
  destruct (get_historical_data_found _ _ _ _ Hin Hkc Hkd)
    as (row' & Hin' & Hc' & Hd' & Hget).
  eexists. split; [exact Hget|].
  destruct (Hcells row' Hin' Hd' Hc') as [Hr Hv].
  unfold same_observation. split_and!; [done|done| |].
  - intros m. rewrite row_to_dict_rates.
    destruct (bool_decide (m ∈ TARGET_MATURITIES)) eqn:Hm.
    + apply bool_decide_eq_true in Hm.
      rewrite bool_decide_true.
      2:{ apply Hcols. rewrite row_items_eq. unfold TARGET_MATURITIES in Hm. simpl.
          repeat (apply elem_of_cons in Hm as [->|Hm]); [..|by apply elem_of_nil in Hm];
          rewrite !elem_of_cons; auto 10. }
      rewrite (Hr m Hm). simpl.
      destruct (dict_get m (obs_rates r)) as [v|] eqn:Hg; simpl.
      * unfold notna. by rewrite (proj2 (Hrates m v Hg)).
      * reflexivity.
    + simpl. apply bool_decide_eq_false in Hm.
      destruct (dict_get m (obs_rates r)) as [v|] eqn:Hg; [|done].
      by destruct (Hrates m v Hg).
  - cbn [row_to_dict obs_va]. rewrite Hv. by apply of_cell_to_cell.
Qed.


(** C8: from a store whose rows are in date order, any sequence of upserts
    leaves the rows in non-decreasing order of reference_date; after at
    least one upsert this holds whatever the order was before. *)
Theorem upserts_keep_date_order (st : State) (l : list Observation) :
  date_sorted (historical_data st) \/ l <> [] ->
  result (add_all l) st = Returned tt
  /\ date_sorted (historical_data (exec (add_all l) st)).
Proof.
  intros H. destruct (add_all_run l st) as (Hr & Hs & Hn).
  split; [done|].
  destruct l as [|d l'].
  - destruct H as [H|H]; [|done]. by rewrite Hn.
  - by apply Hs.
Qed.


(** ** Anchor lookups *)

Lemma get_previous_month_data_near df d c :
  get_previous_month_data df d c = lookup_near df c (get_previous_month_date d) 5.
Proof. reflexivity. Qed.

Lemma get_ytd_data_near df d c :
  get_ytd_data df d c = lookup_near df c (get_year_start_date d) 10.
Proof. reflexivity. Qed.

Lemma filter_split {A} (f : A -> bool) (l : list A) : forall p x q,
  List.filter f l = p ++ x :: q ->
  exists pre post,
    l = pre ++ x :: post /\ List.filter f pre = p /\ f x = true.
Proof.
  induction l as [|y l IH]; intros p x q H; simpl in H.
  - by destruct p.
  - destruct (f y) eqn:Hy.
    + destruct p as [|y' p]; simpl in H; injection H as -> H.
      * by exists [], l.
      * destruct (IH p x q H) as (pre & post & -> & Hp & Hx).
        exists (y' :: pre), post. simpl. by rewrite Hy, Hp.
    + destruct (IH p x q H) as (pre & post & -> & Hp & Hx).
      exists (y :: pre), post. simpl. by rewrite Hy.
Qed.

Lemma window_test c anchor tol r :
  bool_decide (country r = c)
  && (anchor - Calendar.timedelta tol <=? reference_date r)
  && (reference_date r <=? anchor + Calendar.timedelta tol) = true
  <-> in_window c anchor tol r.
Proof.
  unfold in_window, Calendar.timedelta.
  rewrite !andb_true_iff, bool_decide_eq_true, !Z.leb_le. tauto.
Qed.

Lemma lookup_near_first_closest df c anchor tol :
  first_closest_match df c anchor tol (lookup_near df c anchor tol).
Proof.
  unfold lookup_near, df_empty.
  destruct (rows df) as [|r0 l0] eqn:Hrows.
  { simpl. intros r Hr. rewrite Hrows in Hr. by apply elem_of_nil in Hr. }
  rewrite <- Hrows. clear r0 l0 Hrows.
  set (f := fun r => bool_decide (country r = c)
              && (anchor - Calendar.timedelta tol <=? reference_date r)
              && (reference_date r <=? anchor + Calendar.timedelta tol)).
  assert (Hf : forall r, f r = true <-> in_window c anchor tol r)
    by (intros; apply window_test).
  cbv zeta.
  destruct (mask_any (map f (rows df))) eqn:Hany; simpl.
  - rewrite select_map.
    destruct (sort_by _ (List.filter f (rows df))) as [|row rest] eqn:Hs.
    + apply sort_by_nil in Hs. apply mask_any_map in Hany as (x & Hx & Hfx).
      assert (x ∈ List.filter f (rows df)) as Hin by (by apply elem_of_filter_bool).
      rewrite Hs in Hin. by apply elem_of_nil in Hin.
    + apply sort_by_head in Hs as (p & q & Hpq & Hbefore & Hall).
      destruct (filter_split f (rows df) p row q Hpq) as (pre & post & Hl & Hp & Hrow).
      exists pre, row, post. split_and!; [done|done|by apply Hf|..].
      * intros r Hr Hw. apply Hall, elem_of_filter_bool. split; [done|by apply Hf].
      * intros r Hr Hw. apply Hbefore. rewrite <- Hp.
        apply elem_of_filter_bool. split; [done|by apply Hf].
  - intros r Hr Hw. apply Hf in Hw.
    assert (mask_any (map f (rows df)) = true) as Ht
      by (apply mask_any_map; by exists r).
    congruence.
Qed.



Lemma first_closest_closest df c anchor tol res :
  first_closest_match df c anchor tol res -> closest_match df c anchor tol res.
Proof.
  destruct res as [o|]; simpl; [|done].
  intros (pre & row & post & Hl & -> & Hw & Hall & _).
  exists row. split_and!; [|done|done|done].
  rewrite Hl. apply elem_of_app. right. apply elem_of_cons. by left.
Qed.

(** C3, as stated, fails on a store whose rows are not in date order, as a
    store read from a file may be: with records 3 days after and 3 days
    before the anchor, in that order, the month-over-month lookup returns
    the later one (two rows are sorted by insertion, which keeps their
    order). *)
Lemma anchor_tie_not_earliest :
  ~ earliest_closest_match Sample.tie_store "FR"
      (get_previous_month_date (Calendar.mk_datetime 2024 3 31)) 5
      (get_previous_month_data Sample.tie_store
         (Calendar.mk_datetime 2024 3 31) "FR").
Proof.
  assert (exists o, get_previous_month_data Sample.tie_store
                      (Calendar.mk_datetime 2024 3 31) "FR" = Some o
                    /\ obs_reference_date o = Calendar.mk_datetime 2024 3 3)
    as (o & -> & Ho).
  { eexists. split; [vm_compute; reflexivity|]. reflexivity. }
  simpl. intros (row & Hin & -> & Hw & Hbest).
  cbn [row_to_dict obs_reference_date] in Ho.
  specialize (Hbest (Sample.fr_row (Calendar.mk_datetime 2024 2 26)
                       [("rate_1y", 0.0290%float)])).
  unfold distance in Hbest. rewrite Ho in Hbest.
  destruct Hbest as [Hlt|[_ Hle]].
  - unfold Sample.tie_store, Sample.frame. simpl. rewrite !elem_of_cons. auto.
  - split; [done|]. vm_compute. split; discriminate.
  - vm_compute in Hlt. discriminate.
  - vm_compute in Hle. by apply Hle.
Qed.

(** C3, amended: each anchor lookup considers exactly the rows of the country
    within 5 days of the previous month end (10 days of the year start),
    returns nothing when there is none, and otherwise a row of the window at
    the least day-distance from the anchor; which one of several rows at
    that distance is left open. *)
Theorem anchor_lookup_closest (df : DataFrame) (ref : datetime) (c : string) :
  closest_match df c (get_previous_month_date ref) 5
    (get_previous_month_data df ref c)
  /\ closest_match df c (get_year_start_date ref) 10
       (get_ytd_data df ref c).
Proof.
  rewrite get_previous_month_data_near, get_ytd_data_near.
  split; apply first_closest_closest, lookup_near_first_closest.
Qed.

(** With rows 7 and 3 days before and 2 and 6 days after the anchor, the
    lookup returns the row 2 days after it. *)
Example anchor_lookup_spread :
  obs_reference_date
    <$> get_previous_month_data Sample.spread_store
          (Calendar.mk_datetime 2024 3 31) "FR"
  = Some (Calendar.mk_datetime 2024 3 2).
Proof. vm_compute. reflexivity. Qed.

(** ** Time series *)

Lemma filter_map_bool {A B} (f : B -> bool) (g : A -> B) (l : list A) :
  List.filter f (map g l) = map g (List.filter (fun x => f (g x)) l).
Proof.
  induction l as [|x l IH]; simpl; [done|].
  rewrite IH. by destruct (f (g x)).
Qed.

Lemma filter_filter_bool {A} (f g : A -> bool) (l : list A) :
  List.filter f (List.filter g l) = List.filter (fun x => g x && f x) l.
Proof.
  induction l as [|x l IH]; simpl; [done|].
  destruct (g x); simpl; [|done]. rewrite IH. by destruct (f x).
Qed.

Lemma df_where_filter (f : Row -> bool) l : df_where f l = List.filter f l.
Proof. apply select_map. Qed.

Lemma get_time_series_eq df c m s e :
  get_time_series df c m s e
  = if bool_decide (rate_col m ∈ columns df) then
      sort_by fst
        (map (fun r => (reference_date r, cell r (rate_col m)))
             (List.filter (in_series c (rate_col m) s e) (rows df)))
    else [].
Proof.
  unfold get_time_series, df_empty.
  destruct (rows df) as [|r0 l0] eqn:Hrows.
  { by case_bool_decide. }
  rewrite <- Hrows. clear r0 l0 Hrows.
  case_bool_decide; simpl; [|done].
  f_equal. rewrite select_map, filter_map_bool. f_equal. simpl.
  rewrite df_where_filter.
  destruct s as [s|], e as [e|]; rewrite ?df_where_filter, ?filter_filter_bool;
    apply filter_ext; intros r; unfold in_series;
    rewrite ?andb_true_r, ?andb_assoc; reflexivity.
Qed.

(** C10: the time-series query is a total function of its arguments: it
    returns the (date, rate) pairs of the rows of the country inside the
    bounds whose rate is not null, in date order; an empty store or a
    missing rate column gives the empty sequence. *)
Theorem get_time_series_total (df : DataFrame) (c : string) (m : Z)
    (s e : option datetime) :
  Permutation (get_time_series df c m s e)
    (if bool_decide (rate_col m ∈ columns df) then
       map (fun r => (reference_date r, cell r (rate_col m)))
           (List.filter (in_series c (rate_col m) s e) (rows df))
     else [])
  /\ StronglySorted (fun p q => fst p <= fst q) (get_time_series df c m s e)
  /\ (forall d v, (d, v) ∈ get_time_series df c m s e ->
        PrimFloat.is_nan v = false)
  /\ (rows df = [] -> get_time_series df c m s e = [])
  /\ (rate_col m ∉ columns df -> get_time_series df c m s e = []).
Proof.
  rewrite get_time_series_eq. split_and!.
  - case_bool_decide; [apply sort_by_perm|done].
  - case_bool_decide; [apply sort_by_sorted|constructor].
  - intros d v Hin. case_bool_decide; [|by apply elem_of_nil in Hin].
    rewrite sort_by_perm in Hin.
    apply list_elem_of_fmap in Hin as (r & [= -> ->] & Hr).
    apply elem_of_filter_bool in Hr as [_ Hr]. unfold in_series in Hr.
    apply andb_true_iff in Hr as [_ Hr]. unfold notna in Hr.
    by apply negb_true_iff in Hr.
  - intros ->. by case_bool_decide.
  - intros Hc. by rewrite bool_decide_false.
Qed.


Lemma upsert_overwrites_witness :
  (exists row, row ∈ rows (historical_data (Sample.state Sample.feb_store true))
               /\ reference_date row = obs_reference_date Sample.feb_revised
               /\ country row = obs_country Sample.feb_revised)
  /\ exists o,
       get_historical_data
         (historical_data (exec (add_to_historical Sample.feb_revised)
                                (Sample.state Sample.feb_store true)))
         (obs_country Sample.feb_revised)
         (obs_reference_date Sample.feb_revised) = Some o
       /\ same_observation o Sample.feb_revised.
Proof.
  set (r := Sample.feb_revised). set (st := Sample.state Sample.feb_store true).
  assert (H1 : exists row, row ∈ rows (historical_data st)
               /\ reference_date row = obs_reference_date r
               /\ country row = obs_country r).
  { eexists. split; [apply elem_of_cons; left; reflexivity|]. split; reflexivity. }
  split; [exact H1|].
  refine (proj2 (upsert_overwrites r st H1 _ _)).
  - intros m v H. cbn in H. case_decide; [|done]. injection H as <-. subst m.
    split; [apply elem_of_cons; by left|]. vm_compute. reflexivity.
  - intros v H. discriminate H.
Defined.

Example upsert_overwrites_feb :
  get_historical_data
    (historical_data (exec (add_to_historical Sample.feb_revised)
                           (Sample.state Sample.feb_store true)))
    "FR" (Calendar.mk_datetime 2024 2 29)
  = Some Sample.feb_revised.
Proof. vm_compute. reflexivity. Qed.

Lemma upserts_keep_date_order_witness :
  (date_sorted (historical_data (Sample.state (DataFrame_of_columns schema) true))
   \/ [Sample.mar_2024; Sample.jan_2024; Sample.feb_2024] <> [])
  /\ result (add_all [Sample.mar_2024; Sample.jan_2024; Sample.feb_2024])
       (Sample.state (DataFrame_of_columns schema) true) = Returned tt
  /\ date_sorted
       (historical_data
          (exec (add_all [Sample.mar_2024; Sample.jan_2024; Sample.feb_2024])
                (Sample.state (DataFrame_of_columns schema) true))).
Proof.
  set (st := Sample.state (DataFrame_of_columns schema) true).
  set (l := [Sample.mar_2024; Sample.jan_2024; Sample.feb_2024]).
  assert (H : date_sorted (historical_data st) \/ l <> []) by (right; discriminate).
  split; [exact H|]. exact (upserts_keep_date_order st l H).
Defined.

Example upserts_order_dates :
  map reference_date
    (rows (historical_data
             (exec (add_all [Sample.mar_2024; Sample.jan_2024; Sample.feb_2024])
                   (Sample.state (DataFrame_of_columns schema) true))))
  = [Calendar.mk_datetime 2024 1 31; Calendar.mk_datetime 2024 2 29;
     Calendar.mk_datetime 2024 3 31].
Proof. vm_compute. reflexivity. Qed.


(** ** Alerts *)

Lemma scan_alerts_eq label threshold changes : forall acc,
  scan_alerts label threshold changes acc
  = acc ++ map (alert_of label) (alert_entries threshold changes).
Proof.
  unfold scan_alerts, alert_entries.
  induction changes as [|[k d] changes IH]; intros acc; simpl.
  - by rewrite app_nil_r.
  - rewrite IH. unfold alerting at 2. simpl.
    case_bool_decide; simpl; [done|].
    destruct (alert_due threshold d); simpl; [|done].
    by rewrite <- app_assoc.
Qed.

Lemma detect_alerts_eq summary :
  _detect_alerts summary
  = map (alert_of "M/M") (alert_entries ALERT_THRESHOLD_MOM (changes_mom summary))
    ++ map (alert_of "YTD") (alert_entries ALERT_THRESHOLD_YTD (changes_ytd summary)).
Proof. unfold _detect_alerts. by rewrite !scan_alerts_eq. Qed.

Lemma alert_entries_elem threshold changes k d :
  (k, d) ∈ alert_entries threshold changes
  <-> (k, d) ∈ changes /\ k <> VaKey /\ alert_due threshold d = true.
Proof.
  unfold alert_entries. rewrite elem_of_filter_bool. unfold alerting. simpl.
  rewrite andb_true_iff, negb_true_iff, bool_decide_eq_false. tauto.
Qed.



(** ** Deltas *)

Section DictKeys.
Context {K V : Type} `{EqDecision K}.

Lemma dict_get_keys (k : K) (d : list (K * V)) :
  is_Some (dict_get k d) <-> k ∈ dict_keys d.
Proof.
  induction d as [|[k0 v0] d IH]; simpl.
  - rewrite elem_of_nil. split; [by intros [? ?]|done].
  - rewrite elem_of_cons. destruct (decide (k = k0)) as [->|Hne].
    + split; [by left|by eexists].
    + rewrite IH. intuition congruence.
Qed.

Lemma dict_keys_set (k : K) (v : V) (d : list (K * V)) :
  dict_keys (dict_set k v d)
  = if bool_decide (k ∈ dict_keys d) then dict_keys d else dict_keys d ++ [k].
Proof.
  induction d as [|[k0 v0] d IH]; simpl; [done|].
  destruct (decide (k = k0)) as [->|Hne]; simpl.
  - rewrite bool_decide_true; [done|]. apply elem_of_cons. by left.
  - rewrite IH. fold (dict_keys d).
    destruct (bool_decide (k ∈ dict_keys d)) eqn:Hk.
    + apply bool_decide_eq_true in Hk. rewrite bool_decide_true; [done|].
      apply elem_of_cons. by right.
    + apply bool_decide_eq_false in Hk. rewrite bool_decide_false; [done|].
      rewrite elem_of_cons. intuition congruence.
Qed.

End DictKeys.

Lemma sublist_filter_bool {A} (f : A -> bool) (l : list A) :
  List.filter f l `sublist_of` l.
Proof.
  induction l as [|x l IH]; simpl; [done|].
  destruct (f x); by constructor.
Qed.

Lemma sublist_omap {A B} (f : A -> option B) (l1 l2 : list A) :
  l1 `sublist_of` l2 -> omap f l1 `sublist_of` omap f l2.
Proof.
  induction 1 as [|x l1 l2 _ IH|x l1 l2 _ IH]; simpl; [done|..];
    destruct (f x); try done; by constructor.
Qed.

Lemma omap_map {A B C} (f : B -> option C) (g : A -> B) (l : list A) :
  omap f (map g l) = omap (fun x => f (g x)) l.
Proof.
  induction l as [|x l IH]; [done|]. csimpl. by rewrite IH.
Qed.

Lemma sublist_sorted_lt (l1 l2 : list Z) :
  l1 `sublist_of` l2 -> Sorted Z.lt l2 -> Sorted Z.lt l1.
Proof.
  intros Hsub Hs. apply StronglySorted_Sorted.
  apply Sorted_StronglySorted in Hs; [|intros x y z; lia].
  induction Hsub as [|x l1 l2 Hsub IH|x l1 l2 Hsub IH].
  - constructor.
  - apply StronglySorted_inv in Hs as [Hs Hall]. constructor; [by apply IH|].
    rewrite Forall_forall in Hall |- *. intros y Hy. apply Hall.
    by eapply elem_of_sublist.
  - apply StronglySorted_inv in Hs as [Hs _]. by apply IH.
Qed.

Lemma dict_index_Some {K V} `{EqDecision K} (d : list (K * V)) k v :
  dict_get k d = Some v -> dict_index d k = Returned v.
Proof. intros H. unfold dict_index. by rewrite H. Qed.

(** the maturities under which a delta dictionary has an entry *)
Lemma maturities_set_mat m (v : float) (changes : list (mkey * float)) :
  omap maturity_of (dict_keys (dict_set (Mat m) v changes))
  = if bool_decide (Mat m ∈ dict_keys changes)
    then omap maturity_of (dict_keys changes)
    else omap maturity_of (dict_keys changes) ++ [m].
Proof.
  rewrite dict_keys_set. case_bool_decide; [done|]. by rewrite omap_app.
Qed.

Lemma maturities_set_va (v : float) (changes : list (mkey * float)) :
  omap maturity_of (dict_keys (dict_set VaKey v changes))
  = omap maturity_of (dict_keys changes).
Proof.
  rewrite dict_keys_set. case_bool_decide; [done|].
  rewrite omap_app. simpl. by rewrite app_nil_r.
Qed.

(** The loop over the current maturities never raises; it leaves no ['va']
    entry and its entries follow the order of the keys it ran through. *)
Lemma changes_loop (rates anchor_rates : list (Z * float)) : forall keys acc done,
  (forall k, k ∈ keys -> k ∈ dict_keys rates) ->
  dict_get VaKey acc = None ->
  omap maturity_of (dict_keys acc) `sublist_of` done ->
  exists changes,
    for_each keys
      (fun changes maturity =>
         if dict_mem maturity anchor_rates then
           old ← dict_index anchor_rates maturity;
           new ← dict_index rates maturity;
           mret (dict_set (Mat maturity) (calculate_bps_change old new) changes)
         else mret changes)
      acc = Returned changes
    /\ dict_get VaKey changes = None
    /\ omap maturity_of (dict_keys changes) `sublist_of` done ++ keys.
Proof.
  induction keys as [|k keys IH]; intros acc done Hkeys Hva Hsub; simpl.
  - exists acc. by rewrite app_nil_r.
  - assert (Hk : k ∈ dict_keys rates) by (apply Hkeys, elem_of_cons; by left).
    assert (Hrest : forall k', k' ∈ keys -> k' ∈ dict_keys rates)
      by (intros k' ?; apply Hkeys, elem_of_cons; by right).
    replace (done ++ k :: keys) with ((done ++ [k]) ++ keys)
      by (by rewrite <- app_assoc).
    destruct (dict_mem k anchor_rates) eqn:Hmem; simpl.
    + apply bool_decide_eq_true in Hmem as [old Hold].
      apply dict_get_keys in Hk as [new Hnew].
      rewrite (dict_index_Some _ _ _ Hold). cbn [mbind outcome_bind obind].
      rewrite (dict_index_Some _ _ _ Hnew). cbn [mbind outcome_bind obind mret outcome_ret].
      apply IH; [done|..].
      * rewrite dict_get_set. by rewrite decide_False.
      * rewrite maturities_set_mat. case_bool_decide.
        -- by apply sublist_inserts_r.
        -- by apply sublist_app.
    + apply IH; [done|done|]. by apply sublist_inserts_r.
Qed.

Lemma truthy_Some {K V} (d : option (list (K * V))) :
  truthy d = true -> exists d', d = Some d'.
Proof. destruct d as [[|]|]; naive_solver. Qed.

(** The deltas against a resolved anchor that has rates: the loop's
    dictionary, with a ['va'] entry added when the anchor has a VA. *)
Lemma changes_against_truthy rates va anchor_rates anchor_va :
  truthy anchor_rates = true ->
  exists changes,
    dict_get VaKey changes = None
    /\ omap maturity_of (dict_keys changes) `sublist_of` dict_keys rates
    /\ changes_against rates va anchor_rates anchor_va
       = match anchor_va with
         | Some anchor_va =>
             change ← calculate_bps_change_opt anchor_va va;
             mret (dict_set VaKey change changes)
         | None => Returned changes
         end.
Proof.
  intros Ht. unfold changes_against. rewrite Ht.
  destruct (truthy_Some _ Ht) as [ar ->]. cbn [default from_option id].
  destruct (changes_loop rates ar (dict_keys rates) [] []) as (ch & Hch & Hva & Hsub);
    [done|done|done|].
  exists ch. split_and!; [done|done|].
  unfold mbind at 1, outcome_bind at 1. by rewrite Hch.
Qed.

Lemma changes_against_returned rates va anchor_rates anchor_va changes :
  changes_against rates va anchor_rates anchor_va = Returned changes ->
  omap maturity_of (dict_keys changes) `sublist_of` dict_keys rates.
Proof.
  destruct (truthy anchor_rates) eqn:Ht.
  - destruct (changes_against_truthy rates va _ anchor_va Ht) as (ch & _ & Hsub & ->).
    destruct anchor_va as [av|]; [|by intros [= <-]].
    destruct va as [v|]; simpl; [|done].
    intros [= <-]. by rewrite maturities_set_va.
  - unfold changes_against. rewrite Ht. intros [= <-]. apply sublist_nil_l.
Qed.

(** With a VA on the current side and a resolved anchor that has rates, the
    deltas are returned and hold a ['va'] entry exactly when the anchor has a
    VA; the entry is the basis-point change between the two. *)
Lemma changes_against_va rates v anchor_rates anchor_va :
  truthy anchor_rates = true ->
  exists changes,
    changes_against rates (Some v) anchor_rates anchor_va = Returned changes
    /\ dict_get VaKey changes
       = (fun a => calculate_bps_change a v) <$> anchor_va.
Proof.
  intros Ht.
  destruct (changes_against_truthy rates (Some v) _ anchor_va Ht) as (ch & Hva & _ & ->).
  destruct anchor_va as [av|]; simpl.
  - eexists. split; [done|]. rewrite dict_get_set. by rewrite decide_True.
  - by exists ch.
Qed.

(** With no VA on the current side and a VA on a resolved anchor that has
    rates, [None - anchor_va] raises. *)
Lemma changes_against_va_missing rates anchor_rates av :
  truthy anchor_rates = true ->
  changes_against rates None anchor_rates (Some av) = Raised TypeError.
Proof.
  intros Ht.
  by destruct (changes_against_truthy rates None _ (Some av) Ht) as (ch & _ & _ & ->).
Qed.


(** ** [analyze] *)

Lemma analyze_returned df current s :
  analyze df current = Returned s ->
  changes_against (obs_rates current) (obs_va current)
    (obs_rates <$> get_previous_month_data df (obs_reference_date current)
                     (obs_country current))
    (get_previous_month_data df (obs_reference_date current) (obs_country current)
       ≫= obs_va)
  = Returned (changes_mom s)
  /\ changes_against (obs_rates current) (obs_va current)
       (obs_rates <$> get_ytd_data df (obs_reference_date current)
                        (obs_country current))
       (get_ytd_data df (obs_reference_date current) (obs_country current)
          ≫= obs_va)
     = Returned (changes_ytd s)
  /\ alerts s = _detect_alerts s.
Proof.
  unfold analyze, create_summary_dict.
  destruct (changes_against _ _ (obs_rates <$> get_previous_month_data _ _ _) _)
    as [mom|e]; [|done].
  destruct (changes_against _ _ (obs_rates <$> get_ytd_data _ _ _) _)
    as [ytd|e]; [|done].
  intros [= <-]. done.
Qed.

(** C4: the alerts of an analysis are, in order, those of its
    month-over-month deltas then those of its year-to-date deltas, and a
    maturity's delta gives an alert exactly when its absolute value is at
    least the threshold (50 and 100 basis points).  On a store with a rate
    of zero at the month-over-month and at the year-to-date anchor, a rate
    of 0.5% (a delta of exactly 50) raises the month-over-month alert and
    0.499% none; a rate of 1% (exactly 100) raises both alerts and 0.999%
    the month-over-month alert only; a fall by exactly 50 is alerted as
    well. *)
Theorem alert_iff_threshold (df : DataFrame) (current : Observation)
    (s : Summary) :
  analyze df current = Returned s ->
  alerts s
  = map (alert_of "M/M") (alert_entries ALERT_THRESHOLD_MOM (changes_mom s))
    ++ map (alert_of "YTD") (alert_entries ALERT_THRESHOLD_YTD (changes_ytd s))
  /\ (forall m d,
        (Mat m, d) ∈ alert_entries ALERT_THRESHOLD_MOM (changes_mom s)
        <-> (Mat m, d) ∈ changes_mom s
            /\ PrimFloat.leb 50%float (PrimFloat.abs d) = true)
  /\ (forall m d,
        (Mat m, d) ∈ alert_entries ALERT_THRESHOLD_YTD (changes_ytd s)
        <-> (Mat m, d) ∈ changes_ytd s
            /\ PrimFloat.leb 100%float (PrimFloat.abs d) = true)
  /\ analysis_deltas (analyze Cases.zero_store (Cases.at_rate 0.005))
     = Some ([(Mat 10, 50%float)], [(Mat 10, 50%float)],
             ["⚠️ Variation M/M importante (10Y): hausse de +50.0 bps"])
  /\ analysis_deltas (analyze Cases.zero_store (Cases.at_rate 0.00499))
     = Some ([(Mat 10, 49.9%float)], [(Mat 10, 49.9%float)], [])
  /\ analysis_deltas (analyze Cases.zero_store (Cases.at_rate 0.01))
     = Some ([(Mat 10, 100%float)], [(Mat 10, 100%float)],
             ["⚠️ Variation M/M importante (10Y): hausse de +100.0 bps";
              "⚠️ Variation YTD importante (10Y): hausse de +100.0 bps"])
  /\ analysis_deltas (analyze Cases.zero_store (Cases.at_rate 0.00999))
     = Some ([(Mat 10, 99.9%float)], [(Mat 10, 99.9%float)],
             ["⚠️ Variation M/M importante (10Y): hausse de +99.9 bps"])
  /\ analysis_deltas (analyze Cases.half_store (Cases.at_rate 0))
     = Some ([(Mat 10, (-50)%float)], [(Mat 10, (-50)%float)],
             ["⚠️ Variation M/M importante (10Y): baisse de -50.0 bps"]).
Proof.
  intros Ha. destruct (analyze_returned df current s Ha) as (_ & _ & ->).
  split_and!; try (vm_compute; reflexivity).
  - apply detect_alerts_eq.
  - intros m d. rewrite alert_entries_elem. unfold alert_due, ALERT_THRESHOLD_MOM.
    split; [tauto|]. intros [? ?]. by split_and!.
  - intros m d. rewrite alert_entries_elem. unfold alert_due, ALERT_THRESHOLD_YTD.
    split; [tauto|]. intros [? ?]. by split_and!.
Qed.

Lemma alert_iff_threshold_witness :
  analyze Sample.scenario_store Sample.mar_2024 = Returned Cases.mar_summary
  /\ alerts Cases.mar_summary
     = map (alert_of "M/M")
           (alert_entries ALERT_THRESHOLD_MOM (changes_mom Cases.mar_summary))
       ++ map (alert_of "YTD")
              (alert_entries ALERT_THRESHOLD_YTD (changes_ytd Cases.mar_summary)).
Proof.
  assert (H : analyze Sample.scenario_store Sample.mar_2024
              = Returned Cases.mar_summary) by (vm_compute; reflexivity).
  split; [exact H|].
  exact (proj1 (alert_iff_threshold Sample.scenario_store Sample.mar_2024
                  Cases.mar_summary H)).
Defined.


Lemma alert_maturities_sublist threshold changes :
  alert_maturities threshold changes
  `sublist_of` omap maturity_of (dict_keys changes).
Proof.
  unfold alert_maturities, alert_entries, dict_keys. rewrite omap_map.
  apply sublist_omap, sublist_filter_bool.
Qed.

(** C5, as stated, fails: the alerts follow the order of the current
    observation's rates dictionary; with the 10-year rate entered before the
    1-year rate, the 10-year alert comes first. *)
Lemma alerts_not_ascending :
  exists s,
    analyze Sample.two_rate_store Sample.mar_unordered = Returned s
    /\ alerts s
       = ["⚠️ Variation M/M importante (10Y): hausse de +100.0 bps";
          "⚠️ Variation M/M importante (1Y): hausse de +100.0 bps"]
    /\ alert_maturities ALERT_THRESHOLD_MOM (changes_mom s) = [10; 1]
    /\ ~ Sorted Z.lt (alert_maturities ALERT_THRESHOLD_MOM (changes_mom s)).
Proof.
  eexists. split; [vm_compute; reflexivity|].
  split; [vm_compute; reflexivity|].
  assert (H : alert_maturities ALERT_THRESHOLD_MOM
                [(Mat 10, 100.00000000000001%float);
                 (Mat 1, 100.00000000000001%float)] = [10; 1])
    by (vm_compute; reflexivity).
  split; [exact H|]. cbn [changes_mom]. rewrite H.
  intros Hs. apply Sorted_inv in Hs as [_ Hs]. apply HdRel_inv in Hs. lia.
Qed.

(** C5, amended: the alert list of an analysis result holds one alert for
    each month-over-month delta at or over its threshold, in the order of
    the delta dictionary, then one for each such year-to-date delta; the
    ['va'] entry gives none; the maturities of the alerts follow the order
    of the current observation's rates dictionary, hence ascend when that
    dictionary's keys ascend. *)
Theorem alerts_in_mapping_order (df : DataFrame) (current : Observation)
    (s : Summary) :
  analyze df current = Returned s ->
  alerts s
  = map (alert_of "M/M") (alert_entries ALERT_THRESHOLD_MOM (changes_mom s))
    ++ map (alert_of "YTD") (alert_entries ALERT_THRESHOLD_YTD (changes_ytd s))
  /\ alert_entries ALERT_THRESHOLD_MOM (changes_mom s) `sublist_of` changes_mom s
  /\ alert_entries ALERT_THRESHOLD_YTD (changes_ytd s) `sublist_of` changes_ytd s
  /\ (forall d, ((VaKey, d) ∉ alert_entries ALERT_THRESHOLD_MOM (changes_mom s))
                /\ ((VaKey, d) ∉ alert_entries ALERT_THRESHOLD_YTD (changes_ytd s)))
  /\ length (alerts s)
     = (length (alert_entries ALERT_THRESHOLD_MOM (changes_mom s))
        + length (alert_entries ALERT_THRESHOLD_YTD (changes_ytd s)))%nat
  /\ alert_maturities ALERT_THRESHOLD_MOM (changes_mom s)
     `sublist_of` dict_keys (obs_rates current)
  /\ alert_maturities ALERT_THRESHOLD_YTD (changes_ytd s)
     `sublist_of` dict_keys (obs_rates current)
  /\ (Sorted Z.lt (dict_keys (obs_rates current)) ->
      Sorted Z.lt (alert_maturities ALERT_THRESHOLD_MOM (changes_mom s))
      /\ Sorted Z.lt (alert_maturities ALERT_THRESHOLD_YTD (changes_ytd s))).
Proof.
  intros Ha. destruct (analyze_returned df current s Ha) as (Hmom & Hytd & Hal).
  apply changes_against_returned in Hmom, Hytd.
  assert (Hm : alert_maturities ALERT_THRESHOLD_MOM (changes_mom s)
               `sublist_of` dict_keys (obs_rates current))
    by (etrans; [apply alert_maturities_sublist|done]).
  assert (Hy : alert_maturities ALERT_THRESHOLD_YTD (changes_ytd s)
               `sublist_of` dict_keys (obs_rates current))
    by (etrans; [apply alert_maturities_sublist|done]).
  rewrite Hal, detect_alerts_eq.
  split_and!; [done|apply sublist_filter_bool..| | |done|done|].
  - intros d. split; intros Hin; apply alert_entries_elem in Hin; tauto.
  - by rewrite length_app, !length_map.
  - intros Hs. split; eapply sublist_sorted_lt; done.
Qed.

Lemma alerts_in_mapping_order_witness :
  analyze Sample.scenario_store Sample.mar_2024
  = Returned
      {| sum_reference_date := Calendar.mk_datetime 2024 3 31;
         sum_country := "FR";
         sum_rates := [(1, 0.0350%float)];
         sum_va := None;
         changes_mom := [(Mat 1, 60.00000000000002%float)];
         changes_ytd := [];
         previous_date := Some (Calendar.mk_datetime 2024 2 29);
         ytd_date := None;
         alerts := ["⚠️ Variation M/M importante (1Y): hausse de +60.0 bps"] |}
  /\ alert_maturities ALERT_THRESHOLD_MOM [(Mat 1, 60.00000000000002%float)]
     `sublist_of` [1].
Proof.
  assert (H : analyze Sample.scenario_store Sample.mar_2024
  = Returned
      {| sum_reference_date := Calendar.mk_datetime 2024 3 31;
         sum_country := "FR";
         sum_rates := [(1, 0.0350%float)];
         sum_va := None;
         changes_mom := [(Mat 1, 60.00000000000002%float)];
         changes_ytd := [];
         previous_date := Some (Calendar.mk_datetime 2024 2 29);
         ytd_date := None;
         alerts := ["⚠️ Variation M/M importante (1Y): hausse de +60.0 bps"] |})
    by (vm_compute; reflexivity).
  split; [exact H|].
  exact (proj1 (proj2 (proj2 (proj2 (proj2 (proj2
           (alerts_in_mapping_order _ _ _ H))))))).
Defined.

(** ** The VA delta *)

(** C2, where the code departs from it: with a VA on the anchor and none on
    the current observation, [analyze] raises instead of returning a result
    without a ['va'] entry; and with a VA on both sides but no rate on the
    anchor, the result has no ['va'] entry. *)
Theorem analyze_va_divergence :
  analyze Sample.feb_store Sample.mar_2024 = Raised TypeError
  /\ get_previous_month_data Sample.feb_store
       (obs_reference_date Sample.mar_2024) "FR"
     = Some (Sample.observation (Calendar.mk_datetime 2024 2 29)
               [(1, 0.0290%float); (5, 0.0300%float)] (Some 0.0010%float))
  /\ (exists s, analyze Sample.va_only_store Sample.mar_with_va = Returned s
                /\ changes_mom s = []
                /\ previous_date s = Some (Calendar.mk_datetime 2024 2 29))
  /\ get_previous_month_data Sample.va_only_store
       (obs_reference_date Sample.mar_with_va) "FR"
     = Some (Sample.observation (Calendar.mk_datetime 2024 2 29)
               [] (Some 0.0010%float)).
Proof.
  split_and!; try (vm_compute; reflexivity).
  eexists. split_and!; vm_compute; reflexivity.
Qed.


(** ** Loading and saving *)

Lemma empty_frame_queries cols c d m s e :
  get_historical_data (DataFrame_of_columns cols) c d = None
  /\ get_previous_month_data (DataFrame_of_columns cols) d c = None
  /\ get_ytd_data (DataFrame_of_columns cols) d c = None
  /\ get_time_series (DataFrame_of_columns cols) c m s e = [].
Proof. done. Qed.

(** C6, as stated, fails: on a file that exists but cannot be parsed,
    [_load_historical] does not fail; it returns an empty frame. *)
Lemma load_unparseable_returns :
  result _load_historical Sample.unparseable_state
  = Returned (DataFrame_of_columns [])
  /\ ~ (exists e, result _load_historical Sample.unparseable_state = Raised e).
Proof.
  split; [reflexivity|]. intros [e He]. discriminate He.
Qed.

(** C6, amended: the load never fails.  Without a file it returns an empty
    frame with the column schema; on a file that cannot be parsed it logs
    the error and returns an empty frame without columns; otherwise it
    returns the file's frame.  An empty frame answers every query with
    nothing. *)
Theorem load_historical_cases (st : State) :
  match historical_file st with
  | Absent =>
      result _load_historical st = Returned (DataFrame_of_columns schema)
  | Unparseable =>
      result _load_historical st = Returned (DataFrame_of_columns [])
      /\ log (exec _load_historical st)
         = log st ++ [(ERROR, "Erreur lors du chargement de l'historique")]
  | Csv df => result _load_historical st = Returned df
  end
  /\ historical_file (exec _load_historical st) = historical_file st
  /\ result init st = Returned tt
  /\ result _load_historical st
     = Returned (historical_data (exec init st))
  /\ schema
     = ["reference_date"; "country"; "rate_1y"; "rate_5y"; "rate_10y";
        "rate_20y"; "rate_30y"; "va"; "llp"; "alpha"; "ufr"; "cra";
        "convergence"; "coupon_freq"]
  /\ (forall cols c d m s e,
        get_historical_data (DataFrame_of_columns cols) c d = None
        /\ get_previous_month_data (DataFrame_of_columns cols) d c = None
        /\ get_ytd_data (DataFrame_of_columns cols) d c = None
        /\ get_time_series (DataFrame_of_columns cols) c m s e = []).
Proof.
  split_and!; [..|reflexivity|apply empty_frame_queries];
    unfold result, exec, init, _load_historical, try_except, file_exists,
      read_csv, logger, set_historical_frame, mbind, mret, M_bind, M_ret, bind, ret;
    destruct (historical_file st) eqn:Hf; simpl; rewrite ?Hf; done.
Qed.

(** C7, as stated, fails: when the write fails, [add_to_historical] returns
    normally; no error reaches the caller. *)
Lemma write_failure_not_raised :
  result (add_to_historical Sample.mar_2024)
    (Sample.state Sample.scenario_store false) = Returned tt
  /\ ~ (exists e, result (add_to_historical Sample.mar_2024)
                    (Sample.state Sample.scenario_store false) = Raised e).
Proof.
  split; [reflexivity|]. intros [e He]. discriminate He.
Qed.

(** C7, amended: when the write fails, whether before or after the file is
    opened, [add_to_historical] logs the error and returns normally, and
    the frame in memory holds the upsert. *)
Theorem write_failure_keeps_mutation (r : Observation) (st : State) :
  writable st = false ->
  result (add_to_historical r) st = Returned tt
  /\ historical_data (exec (add_to_historical r) st)
     = upsert_frame r (historical_data st)
  /\ (ERROR, "Erreur lors de la sauvegarde")
     ∈ log (exec (add_to_historical r) st).
Proof.
  intros Hw. unfold writable in Hw.
  unfold result, exec, add_to_historical, save_historical, try_except,
    get_historical_frame, set_historical_frame, to_csv, logger,
    mbind, mret, M_bind, M_ret, bind, ret.
  destruct (key_exists r (historical_data st)); simpl;
    destruct (disk st) eqn:Hd; try discriminate Hw; simpl;
    (split_and!; [done|done|]); rewrite !elem_of_app, !elem_of_cons; tauto.
Qed.

Lemma write_failure_keeps_mutation_witness :
  writable (Cases.truncating_state Sample.scenario_store) = false
  /\ result (add_to_historical Sample.mar_2024)
       (Cases.truncating_state Sample.scenario_store) = Returned tt
  /\ historical_data (exec (add_to_historical Sample.mar_2024)
                           (Cases.truncating_state Sample.scenario_store))
     = upsert_frame Sample.mar_2024
         (historical_data (Cases.truncating_state Sample.scenario_store))
  /\ (ERROR, "Erreur lors de la sauvegarde")
     ∈ log (exec (add_to_historical Sample.mar_2024)
                 (Cases.truncating_state Sample.scenario_store)).
Proof.
  split; [reflexivity|].
  exact (write_failure_keeps_mutation Sample.mar_2024
           (Cases.truncating_state Sample.scenario_store) eq_refl).
Defined.

(** The file is as it was when the write fails before the file is opened;
    a write that fails after the open leaves the file empty. *)
Example failed_write_file :
  historical_file (exec (add_to_historical Sample.mar_2024)
                        (Sample.state Sample.scenario_store false))
  = Csv Sample.scenario_store
  /\ historical_file (exec (add_to_historical Sample.mar_2024)
                           (Cases.truncating_state Sample.scenario_store))
     = Unparseable.
Proof. split; reflexivity. Qed.

(** When the write goes through, the file holds the frame in memory. *)
Lemma write_success_saves (r : Observation) (st : State) :
  writable st = true ->
  historical_file (exec (add_to_historical r) st)
  = Csv (historical_data (exec (add_to_historical r) st)).
Proof.
  intros Hw. unfold writable in Hw.
  destruct (add_to_historical_run r st) as (_ & -> & _ & ->).
  by destruct (disk st).
Qed.

(** * Further properties *)

(** ** Upserts on any store *)

Lemma df_empty_spec df : df_empty df = true <-> rows df = [].
Proof. unfold df_empty. by destruct (rows df). Qed.

Lemma key_exists_false data df :
  key_exists data df = false ->
  forall r, r ∈ rows df -> has_key data r = false.
Proof.
  intros Hk r Hr. destruct (has_key data r) eqn:Hr'; [|done].
  assert (key_exists data df = true) by (apply key_exists_spec; eauto).
  congruence.
Qed.

Lemma columns_concat c df1 df2 :
  c ∈ columns (concat df1 df2) <-> c ∈ columns df1 \/ c ∈ columns df2.
Proof.
  unfold concat. cbn [columns].
  generalize (columns df1). induction (columns df2) as [|x l IH]; intros cols; simpl.
  - rewrite elem_of_nil. tauto.
  - rewrite IH, add_column_elem, elem_of_cons. tauto.
Qed.

(** The rows an upsert leaves, before the sort: the rows under the key
    overwritten, or the new row appended. *)
Lemma upsert_frame_rows data df :
  rows (upsert_frame data df)
  = sort_by reference_date
      (if key_exists data df
       then map (fun r => if has_key data r then overwrite_row data r else r) (rows df)
       else rows df ++ [new_row data]).
Proof.
  destruct (key_exists data df) eqn:Hk.
  - by apply upsert_frame_existing.
  - unfold upsert_frame, key_exists in *.
    destruct (df_empty df) eqn:He; cbn [negb andb] in *.
    + apply df_empty_spec in He. by rewrite He.
    + by rewrite Hk.
Qed.

Lemma upsert_frame_columns data df c :
  c ∈ dict_keys (row_items data) -> c ∈ columns (upsert_frame data df).
Proof.
  intros Hc. destruct (key_exists data df) eqn:Hk.
  - by apply upsert_frame_existing.
  - unfold upsert_frame, key_exists in *.
    destruct (df_empty df) eqn:He; cbn [negb andb] in *.
    + cbn [sort_values_reference_date DataFrame_of_row columns].
      apply elem_of_app. by right.
    + rewrite Hk. cbn [sort_values_reference_date columns].
      apply columns_concat. right. cbn [DataFrame_of_row columns].
      apply elem_of_app. by right.
Qed.

Lemma upsert_frame_key_columns data df :
  "reference_date" ∈ columns (upsert_frame data df)
  /\ "country" ∈ columns (upsert_frame data df).
Proof.
  unfold upsert_frame. destruct (df_empty df) eqn:He; cbn [negb].
  - cbn [sort_values_reference_date DataFrame_of_row columns].
    rewrite !elem_of_app, !elem_of_cons. auto.
  - destruct (mask_any (map (has_key data) (rows df))) eqn:Hk;
      cbn [sort_values_reference_date columns].
    + split; apply loc_set_loop_columns; left; cbn [loc_set columns];
        rewrite !add_column_elem; auto.
    + split; apply columns_concat; right; cbn [DataFrame_of_row columns];
        rewrite !elem_of_app, !elem_of_cons; auto.
Qed.

(** Every item of the new row is an entry of the row an upsert writes. *)
Lemma overwrite_row_entries data r col v :
  (col, v) ∈ row_items data -> floats (overwrite_row data r) !! col = Some v.
Proof.
  unfold overwrite_row. rewrite row_items_eq. cbn [foldl set_cell floats].
  rewrite !elem_of_cons, elem_of_nil.
  intros [H|[H|[H|[H|[H|[H|[]]]]]]]; injection H as -> ->;
    repeat (rewrite lookup_insert_ne by done); by rewrite lookup_insert_eq.
Qed.

Lemma new_row_entries data col v :
  (col, v) ∈ row_items data -> floats (new_row data) !! col = Some v.
Proof.
  unfold new_row. rewrite row_items_eq. cbn [floats list_to_map foldr fst snd].
  rewrite !elem_of_cons, elem_of_nil.
  intros [H|[H|[H|[H|[H|[H|[]]]]]]]; injection H as -> ->;
    repeat (rewrite lookup_insert_ne by done); by rewrite lookup_insert_eq.
Qed.

Lemma row_items_elem data :
  (forall m, m ∈ TARGET_MATURITIES ->
     (rate_col m, to_cell (dict_get m (obs_rates data))) ∈ row_items data)
  /\ ("va", to_cell (obs_va data)) ∈ row_items data.
Proof.
  rewrite row_items_eq. split.
  - intros m Hm. unfold TARGET_MATURITIES in Hm.
    repeat (apply elem_of_cons in Hm as [->|Hm]); [..|by apply elem_of_nil in Hm];
      rewrite !elem_of_cons; auto 10.
  - rewrite !elem_of_cons; auto 10.
Qed.

(** After an upsert, the rows under the record's key hold each item of the
    new row, and there is such a row. *)
Lemma upsert_frame_key_rows data df :
  (forall row, row ∈ rows (upsert_frame data df) -> has_key data row = true ->
     forall col v, (col, v) ∈ row_items data -> floats row !! col = Some v)
  /\ exists row, row ∈ rows (upsert_frame data df) /\ has_key data row = true.
Proof.
  rewrite upsert_frame_rows. destruct (key_exists data df) eqn:Hk.
  - split.
    + intros row Hin Hrow col v Hcv. rewrite sort_by_perm in Hin.
      apply list_elem_of_fmap in Hin as (r & -> & Hr).
      destruct (has_key data r) eqn:Hkr; [|congruence].
      by apply overwrite_row_entries.
    + apply key_exists_spec in Hk as (r & Hr & Hkr).
      exists (overwrite_row data r). split.
      * rewrite sort_by_perm. apply list_elem_of_fmap. exists r. by rewrite Hkr.
      * apply has_key_spec, overwrite_row_key.
  - split.
    + intros row Hin Hrow col v Hcv. rewrite sort_by_perm in Hin.
      apply elem_of_app in Hin as [Hin|Hin].
      * rewrite (key_exists_false data df Hk row Hin) in Hrow. discriminate.
      * apply list_elem_of_singleton in Hin as ->. by apply new_row_entries.
    + exists (new_row data). split.
      * rewrite sort_by_perm. apply elem_of_app. right. by apply list_elem_of_singleton.
      * by apply has_key_spec.
Qed.

Lemma cell_of_entry (row : Row) col v : floats row !! col = Some v -> cell row col = v.
Proof. intros H. unfold cell. by rewrite H. Qed.

(** The dictionary rebuilt from a row that holds the items of a record of
    the data model is that record. *)
Lemma row_to_dict_of_items data cols row :
  record_ok data ->
  has_key data row = true ->
  (forall col v, (col, v) ∈ row_items data -> floats row !! col = Some v) ->
  (forall c, c ∈ dict_keys (row_items data) -> c ∈ cols) ->
  same_observation (row_to_dict cols row) data.
Proof.
  intros [Hrates Hva] Hk Hitems Hcols.
  apply has_key_spec in Hk as [Hd Hc].
  destruct (row_items_elem data) as [Hr Hv].
  unfold same_observation. split_and!; [done|done| |].
  - intros m. rewrite row_to_dict_rates.
    destruct (bool_decide (m ∈ TARGET_MATURITIES)) eqn:Hm.
    + apply bool_decide_eq_true in Hm.
      rewrite bool_decide_true.
      2:{ apply Hcols. unfold dict_keys. apply list_elem_of_fmap.
          eexists. split; [|by apply Hr]. done. }
      rewrite (cell_of_entry _ _ _ (Hitems _ _ (Hr m Hm))). simpl.
      destruct (dict_get m (obs_rates data)) as [v|] eqn:Hg; simpl.
      * unfold notna. by rewrite (proj2 (Hrates m v Hg)).
      * reflexivity.
    + simpl. apply bool_decide_eq_false in Hm.
      destruct (dict_get m (obs_rates data)) as [v|] eqn:Hg; [|done].
      by destruct (Hrates m v Hg).
  - cbn [row_to_dict obs_va]. rewrite (cell_of_entry _ _ _ (Hitems _ _ Hv)).
    by apply of_cell_to_cell.
Qed.

(** X1: whatever the store held, an exact lookup after [add_to_historical]
    returns the record that was added. *)
Theorem upsert_then_get (r : Observation) (st : State) :
  record_ok r ->
  exists o,
    get_historical_data (historical_data (exec (add_to_historical r) st))
      (obs_country r) (obs_reference_date r) = Some o
    /\ same_observation o r.
Proof.
  intros Hok. destruct (add_to_historical_run r st) as (_ & -> & _).
  set (df := historical_data st).
  destruct (upsert_frame_key_rows r df) as [Hrows (row0 & Hin0 & Hk0)].
  pose proof (proj1 (has_key_spec r row0) Hk0) as [Hd0 Hc0].
  destruct (get_historical_data_found _ _ _ _ Hin0 Hc0 Hd0)
    as (row & Hin & Hc & Hd & ->).
  eexists. split; [done|].
  apply row_to_dict_of_items; [done|by apply has_key_spec|..].
  - apply Hrows; [done|by apply has_key_spec].
  - intros c Hcol. by apply upsert_frame_columns.
Qed.

Lemma add_column_id col cols : col ∈ cols -> add_column col cols = cols.
Proof. intros H. unfold add_column. by rewrite bool_decide_true. Qed.

Lemma loc_set_loop_columns_id (mask : list bool) items : forall df,
  (forall c, c ∈ dict_keys items -> c ∈ columns df) ->
  columns (foldl (fun df '(col, value) => loc_set (set_cell col value) mask col df)
                 df items)
  = columns df.
Proof.
  induction items as [|[col v] items IH]; intros df H; simpl; [done|].
  assert (Hc : col ∈ columns df) by (apply H; simpl; apply elem_of_cons; by left).
  rewrite IH; simpl; rewrite (add_column_id _ _ Hc); [done|].
  intros c Hin. apply H. simpl. apply elem_of_cons. by right.
Qed.

(** Overwriting a row that already holds the items changes nothing. *)
Lemma overwrite_row_id data row :
  has_key data row = true ->
  (forall col v, (col, v) ∈ row_items data -> floats row !! col = Some v) ->
  overwrite_row data row = row.
Proof.
  intros Hk Hitems. apply has_key_spec in Hk as [Hd Hc].
  unfold overwrite_row.
  assert (Hr0 : set_country (obs_country data)
                  (set_reference_date (obs_reference_date data) row) = row).
  { destruct row. simpl in *. by subst. }
  rewrite Hr0. clear Hr0.
  induction (row_items data) as [|[col v] items IH]; simpl; [done|].
  assert (Hs : set_cell col v row = row).
  { unfold set_cell. destruct row as [d c f]. simpl. f_equal.
    apply insert_id. apply (Hitems col v). apply elem_of_cons. by left. }
  rewrite Hs. apply IH. intros c w Hin. apply Hitems. apply elem_of_cons. by right.
Qed.

(** X2: an upsert is idempotent up to the order of the rows: adding the same
    record a second time leaves the columns as they were and the same rows,
    with no row added or changed (rows of the same date may change places in
    the sort). *)
Theorem upsert_idempotent (r : Observation) (df : DataFrame) :
  columns (upsert_frame r (upsert_frame r df)) = columns (upsert_frame r df)
  /\ Permutation (rows (upsert_frame r (upsert_frame r df)))
                 (rows (upsert_frame r df))
  /\ date_sorted (upsert_frame r (upsert_frame r df)).
Proof.
  set (df1 := upsert_frame r df).
  destruct (upsert_frame_key_rows r df) as [Hitems Hex]. fold df1 in Hitems, Hex.
  assert (Hk : key_exists r df1 = true) by (by apply key_exists_spec).
  split_and!; [| |apply upsert_frame_date_sorted].
  - unfold key_exists in Hk. apply andb_true_iff in Hk as [He Ha].
    unfold upsert_frame at 1. rewrite He, Ha.
    cbn [sort_values_reference_date columns].
    destruct (upsert_frame_key_columns r df) as [Hc1 Hc2]. fold df1 in Hc1, Hc2.
    rewrite loc_set_loop_columns_id; cbn [loc_set columns].
    + by rewrite (add_column_id _ _ Hc1), (add_column_id _ _ Hc2).
    + intros c Hc. rewrite (add_column_id _ _ Hc1), (add_column_id _ _ Hc2).
      by apply upsert_frame_columns.
  - rewrite upsert_frame_rows, Hk, sort_by_perm.
    assert (Hmap : map (fun x => if has_key r x then overwrite_row r x else x) (rows df1)
                   = rows df1).
    { rewrite <- (map_id (rows df1)) at 2. apply map_ext_in. intros row Hin.
      destruct (has_key r row) eqn:Hkr; [|done].
      apply overwrite_row_id; [done|]. apply Hitems; [|done]. by apply list_elem_of_In. }
    by rewrite Hmap.
Qed.

(** keeping the rows on which a test holds commutes with permutations *)
Lemma filter_bool_perm {A} (f : A -> bool) (l1 l2 : list A) :
  Permutation l1 l2 -> Permutation (List.filter f l1) (List.filter f l2).
Proof.
  induction 1 as [|x l1 l2 _ IH|x y l|l1 l2 l3 _ IH1 _ IH2]; simpl.
  - done.
  - destruct (f x); [by constructor|done].
  - destruct (f x), (f y); try done. apply perm_swap.
  - by etrans.
Qed.

(** X3: an upsert touches no row under another key: the rows that do not
    carry the record's date and country are the same before and after, and
    the frame has one row more exactly when the key was new. *)
Theorem upsert_keeps_other_rows (r : Observation) (df : DataFrame) :
  Permutation
    (List.filter (fun row => negb (has_key r row)) (rows (upsert_frame r df)))
    (List.filter (fun row => negb (has_key r row)) (rows df))
  /\ length (rows (upsert_frame r df))
     = (if key_exists r df then length (rows df) else S (length (rows df))).
Proof.
  rewrite upsert_frame_rows. split.
  - rewrite (filter_bool_perm _ _ _ (sort_by_perm _ _)).
    destruct (key_exists r df) eqn:Hk.
    + rewrite filter_map_bool.
      assert (Hf : List.filter
                (fun x => negb (has_key r (if has_key r x then overwrite_row r x else x)))
                (rows df)
              = List.filter (fun row => negb (has_key r row)) (rows df)).
      { apply filter_ext. intros row. destruct (has_key r row) eqn:Hkr; [|by rewrite Hkr].
        by rewrite (proj2 (has_key_spec r _) (overwrite_row_key r row)). }
      rewrite Hf. clear Hf.
      induction (rows df) as [|row l IH]; simpl; [done|].
      destruct (has_key r row) eqn:Hkr; simpl; [done|].
      rewrite Hkr. by constructor.
    + rewrite Stdlib.Lists.List.filter_app. simpl.
      rewrite (proj2 (has_key_spec r (new_row r))) by done. simpl.
      by rewrite app_nil_r.
  - rewrite (Permutation_length (sort_by_perm _ _)).
    destruct (key_exists r df).
    + by rewrite length_map.
    + rewrite length_app. simpl. lia.
Qed.

(** X4: upserts keep the keys unique: if no two rows share a date and a
    country, the same holds after any sequence of upserts. *)
Theorem upserts_keep_keys_unique (st : State) (l : list Observation) :
  NoDup (row_keys (historical_data st)) ->
  NoDup (row_keys (historical_data (exec (add_all l) st))).
Proof.
  revert st. induction l as [|r l IH]; intros st Hnd; [done|].
  destruct (add_to_historical_run r st) as (Hres & Hdata & _).
  unfold exec, result in *. simpl. unfold mbind, M_bind, bind.
  destruct (add_to_historical r st) as [o st1]. simpl in *. subst o.
  apply IH. rewrite Hdata. clear IH Hdata st1.
  set (df := historical_data st) in *.
  unfold row_keys in *. rewrite upsert_frame_rows.
  rewrite (Permutation_map _ (sort_by_perm _ _)).
  destruct (key_exists r df) eqn:Hk.
  - rewrite map_map.
    erewrite map_ext; [exact Hnd|]. intros row. simpl.
    destruct (has_key r row) eqn:Hkr; [|done].
    destruct (overwrite_row_key r row) as [-> ->].
    by apply has_key_spec in Hkr as [-> ->].
  - rewrite map_app. simpl. apply NoDup_app. split_and!; [done| |apply NoDup_singleton].
    intros k Hin Hk'. apply list_elem_of_singleton in Hk' as ->.
    apply list_elem_of_fmap in Hin as (row & [= Hd Hc] & Hrow).
    pose proof (key_exists_false r df Hk row Hrow) as Hf.
    rewrite (proj2 (has_key_spec r row)) in Hf; [discriminate|done].
Qed.

(** What an exact lookup returns is the dictionary of a row with the
    country and the date. *)
Lemma get_historical_data_some df c d o :
  get_historical_data df c d = Some o ->
  obs_country o = c /\ obs_reference_date o = d
  /\ exists row, row ∈ rows df /\ o = row_to_dict (columns df) row.
Proof.
  unfold get_historical_data.
  destruct (df_empty df); [done|].
  set (f := fun r => bool_decide (country r = c) && bool_decide (reference_date r = d)).
  destruct (mask_any (map f (rows df))); [|done]. simpl.
  rewrite select_map.
  destruct (List.filter f (rows df)) as [|row rest] eqn:Hf; [done|].
  intros [= <-].
  assert (Hin : row ∈ List.filter f (rows df)) by (rewrite Hf; apply elem_of_cons; by left).
  apply elem_of_filter_bool in Hin as [Hin Hrow]. unfold f in Hrow.
  apply andb_true_iff in Hrow as [Hc Hd].
  apply bool_decide_eq_true in Hc, Hd. split_and!; [done|done|]. by exists row.
Qed.

(** X5: the exact lookup is exact: it returns nothing exactly when no row
    has the country and the date, and what it returns is the dictionary of
    a row with that country and that date. *)
Theorem get_historical_data_exact (df : DataFrame) (c : string) (d : datetime) :
  (get_historical_data df c d = None
   <-> forall row, row ∈ rows df -> ~ (country row = c /\ reference_date row = d))
  /\ (forall o, get_historical_data df c d = Some o ->
        obs_country o = c /\ obs_reference_date o = d
        /\ exists row, row ∈ rows df /\ o = row_to_dict (columns df) row).
Proof.
  split; [|apply get_historical_data_some].
  split.
  - intros Hnone row Hin [Hc Hd].
    destruct (get_historical_data_found df c d row Hin Hc Hd) as (? & _ & _ & _ & H).
    congruence.
  - intros Hno. destruct (get_historical_data df c d) as [o|] eqn:Hg; [|done].
    destruct (get_historical_data_some df c d o Hg) as (Hc & Hd & row & Hin & ->).
    destruct (Hno row Hin). done.
Qed.

(** ** What the lookups return *)

Section DictFilled.
Context {K V : Type} `{EqDecision K}.

(** the keys of a dictionary filled by [for k in l: if p(k): d[k] = f(k)],
    when [l] has no repetition *)
Lemma dict_keys_filled (p : K -> bool) (f : K -> V) (l : list K) : forall d,
  NoDup l -> (forall k, k ∈ l -> k ∉ dict_keys d) ->
  dict_keys (foldl (fun d k => if p k then dict_set k (f k) d else d) d l)
  = dict_keys d ++ List.filter p l.
Proof.
  induction l as [|k0 l IH]; intros d Hnd Hfresh; simpl.
  - by rewrite app_nil_r.
  - apply NoDup_cons in Hnd as [Hk0 Hnd].
    assert (Hd0 : k0 ∉ dict_keys d) by (apply Hfresh, elem_of_cons; by left).
    destruct (p k0).
    + rewrite IH; [|done|].
      * rewrite dict_keys_set, bool_decide_false by done. by rewrite <- app_assoc.
      * intros k Hk. rewrite dict_keys_set, bool_decide_false by done.
        rewrite elem_of_app, list_elem_of_singleton. intros [Hin| ->]; [|done].
        revert Hin. apply Hfresh, elem_of_cons. by right.
    + apply IH; [done|]. intros k Hk. apply Hfresh, elem_of_cons. by right.
Qed.

End DictFilled.

Lemma TARGET_MATURITIES_sorted : Sorted Z.lt TARGET_MATURITIES.
Proof. unfold TARGET_MATURITIES. repeat constructor. Qed.

Lemma TARGET_MATURITIES_NoDup : NoDup TARGET_MATURITIES.
Proof.
  unfold TARGET_MATURITIES.
  repeat (apply NoDup_cons; split; [rewrite ?elem_of_cons, elem_of_nil; lia|]).
  apply NoDup_nil_2.
Qed.

Lemma row_to_dict_well_formed cols row :
  dict_keys (obs_rates (row_to_dict cols row)) `sublist_of` TARGET_MATURITIES
  /\ Sorted Z.lt (dict_keys (obs_rates (row_to_dict cols row)))
  /\ record_ok (row_to_dict cols row).
Proof.
  assert (Hsub : dict_keys (obs_rates (row_to_dict cols row))
                 `sublist_of` TARGET_MATURITIES).
  { unfold row_to_dict. cbn [obs_rates].
    rewrite (dict_keys_filled
               (fun k => bool_decide (rate_col k ∈ cols) && notna (cell row (rate_col k)))
               (fun k => cell row (rate_col k))).
    - apply sublist_filter_bool.
    - apply TARGET_MATURITIES_NoDup.
    - intros k _ Hk. by apply elem_of_nil in Hk. }
  split_and!; [done|by eapply sublist_sorted_lt, TARGET_MATURITIES_sorted|].
  split.
  - intros m v. rewrite row_to_dict_rates.
    destruct (bool_decide (m ∈ TARGET_MATURITIES)) eqn:Hm; [|done].
    apply bool_decide_eq_true in Hm. simpl.
    destruct (bool_decide (rate_col m ∈ cols)); [|done]. simpl.
    destruct (notna (cell row (rate_col m))) eqn:Hn; [|done].
    intros [= <-]. split; [done|]. unfold notna in Hn. by apply negb_true_iff in Hn.
  - intros v. cbn [row_to_dict obs_va]. unfold of_cell.
    destruct (notna (cell row "va")) eqn:Hn; [|done].
    intros [= <-]. unfold notna in Hn. by apply negb_true_iff in Hn.
Qed.

Lemma lookup_near_row df c anchor tol o :
  lookup_near df c anchor tol = Some o ->
  exists row, row ∈ rows df /\ o = row_to_dict (columns df) row
              /\ in_window c anchor tol row.
Proof.
  intros H. pose proof (lookup_near_first_closest df c anchor tol) as Hm.
  rewrite H in Hm. destruct Hm as (pre & row & post & Hl & -> & Hw & _).
  exists row. split_and!; [|done|done].
  rewrite Hl. apply elem_of_app. right. apply elem_of_cons. by left.
Qed.

(** X6: whatever the frame holds, an observation returned by one of the three
    lookups has its rates under configured maturities, in ascending order of
    maturity, and holds no NaN. *)
Theorem lookups_return_records (df : DataFrame) (c : string) (d : datetime)
    (o : Observation) :
  get_historical_data df c d = Some o
  \/ get_previous_month_data df d c = Some o
  \/ get_ytd_data df d c = Some o ->
  dict_keys (obs_rates o) `sublist_of` TARGET_MATURITIES
  /\ Sorted Z.lt (dict_keys (obs_rates o))
  /\ record_ok o.
Proof.
  intros H.
  assert (exists row, o = row_to_dict (columns df) row) as [row ->].
  { destruct H as [H|[H|H]].
    - apply get_historical_data_some in H as (_ & _ & row & _ & ->). by exists row.
    - rewrite get_previous_month_data_near in H.
      apply lookup_near_row in H as (row & _ & -> & _). by exists row.
    - rewrite get_ytd_data_near in H.
      apply lookup_near_row in H as (row & _ & -> & _). by exists row. }
  apply row_to_dict_well_formed.
Qed.

(** ** Upserts and the time series *)

(** X7: after [add_to_historical], the time series of the record's country
    holds the record's date with its rate, for each configured maturity the
    record has a rate for and any bounds that include the date. *)
Theorem upsert_then_time_series (r : Observation) (st : State) (m : Z)
    (v : float) (s e : option datetime) :
  m ∈ TARGET_MATURITIES ->
  dict_get m (obs_rates r) = Some v ->
  PrimFloat.is_nan v = false ->
  (forall s', s = Some s' -> s' <= obs_reference_date r) ->
  (forall e', e = Some e' -> obs_reference_date r <= e') ->
  (obs_reference_date r, v)
  ∈ get_time_series (historical_data (exec (add_to_historical r) st))
      (obs_country r) m s e.
Proof.
  intros Hm Hv Hnan Hs He.
  destruct (add_to_historical_run r st) as (_ & -> & _).
  set (df := historical_data st).
  destruct (upsert_frame_key_rows r df) as [Hitems (row & Hin & Hk)].
  destruct (row_items_elem r) as [Hr _].
  pose proof (cell_of_entry _ _ _ (Hitems row Hin Hk _ _ (Hr m Hm))) as Hcell.
  rewrite Hv in Hcell. simpl in Hcell.
  apply has_key_spec in Hk as [Hd Hc].
  rewrite get_time_series_eq, bool_decide_true.
  2:{ apply upsert_frame_columns. unfold dict_keys. apply list_elem_of_fmap.
      eexists. split; [|by apply Hr]. done. }
  rewrite sort_by_perm. apply list_elem_of_fmap. exists row.
  split; [by rewrite Hd, Hcell|].
  apply elem_of_filter_bool. split; [done|].
  unfold in_series. rewrite Hcell, Hd, bool_decide_true by done. unfold notna.
  rewrite Hnan. simpl.
  destruct s as [s'|], e as [e'|]; simpl; rewrite ?andb_true_r, ?andb_true_iff, ?Z.leb_le;
    auto.
Qed.

(** ** Across runs *)

(** What [__init__] puts in memory, by what the file holds. *)
Lemma init_loads (st : State) :
  historical_data (exec init st)
  = match historical_file st with
    | Csv df => df
    | Absent => DataFrame_of_columns schema
    | Unparseable => DataFrame_of_columns []
    end.
Proof.
  unfold exec, init, _load_historical, try_except, file_exists, read_csv,
    logger, set_historical_frame, mbind, mret, M_bind, M_ret, bind, ret.
  destruct (historical_file st) eqn:Hf; simpl; rewrite ?Hf; done.
Qed.

(** X8: a new analyzer started on what the last one left on disk holds the
    upserted frame when the write went through; the frame of the last
    successful write when the write failed before the file was opened; and
    an empty frame without columns, the earlier records gone, when the write
    failed after the open and left the file empty. *)
Theorem next_run_reads_the_file (r : Observation) (st : State) (df0 : DataFrame) :
  historical_file st = Csv df0 ->
  (disk st = Writes ->
   historical_data (exec init (exec (add_to_historical r) st))
   = upsert_frame r (historical_data st))
  /\ (disk st = FailsAtOpen ->
      historical_data (exec init (exec (add_to_historical r) st)) = df0)
  /\ (disk st = FailsAfterOpen Unparseable ->
      historical_data (exec init (exec (add_to_historical r) st))
      = DataFrame_of_columns []).
Proof.
  intros Hf. destruct (add_to_historical_run r st) as (_ & _ & _ & Hfile).
  rewrite init_loads, Hfile.
  split_and!; intros ->; by rewrite ?Hf.
Qed.

(** ** Deltas, maturity by maturity *)

Lemma changes_loop_get (rates anchor_rates : list (Z * float)) : forall keys acc,
  (forall k, k ∈ keys -> k ∈ dict_keys rates) ->
  exists changes,
    for_each keys
      (fun changes maturity =>
         if dict_mem maturity anchor_rates then
           old ← dict_index anchor_rates maturity;
           new ← dict_index rates maturity;
           mret (dict_set (Mat maturity) (calculate_bps_change old new) changes)
         else mret changes)
      acc = Returned changes
    /\ forall m,
         dict_get (Mat m) changes
         = match (if bool_decide (m ∈ keys) then dict_get m anchor_rates else None),
                 dict_get m rates with
           | Some old, Some new => Some (calculate_bps_change old new)
           | _, _ => dict_get (Mat m) acc
           end.
Proof.
  induction keys as [|k keys IH]; intros acc Hkeys; simpl.
  - exists acc. by split.
  - assert (Hk : k ∈ dict_keys rates) by (apply Hkeys, elem_of_cons; by left).
    assert (Hrest : forall k', k' ∈ keys -> k' ∈ dict_keys rates)
      by (intros k' ?; apply Hkeys, elem_of_cons; by right).
    apply dict_get_keys in Hk as [new Hnew].
    destruct (dict_mem k anchor_rates) eqn:Hmem.
    + apply bool_decide_eq_true in Hmem as [old Hold].
      rewrite (dict_index_Some _ _ _ Hold). cbn [mbind outcome_bind obind].
      rewrite (dict_index_Some _ _ _ Hnew). cbn [mbind outcome_bind obind mret outcome_ret].
      destruct (IH (dict_set (Mat k) (calculate_bps_change old new) acc) Hrest)
        as (ch & Hch & Hget).
      exists ch. split; [done|]. intros m. rewrite Hget, dict_get_set.
      destruct (decide (m = k)) as [->|Hne].
      * rewrite (bool_decide_true (k ∈ k :: keys)) by (apply elem_of_cons; by left).
        rewrite Hold, Hnew, decide_True by done.
        by destruct (bool_decide (k ∈ keys)).
      * rewrite decide_False by congruence.
        assert (bool_decide (m ∈ k :: keys) = bool_decide (m ∈ keys)) as ->; [|done].
        apply bool_decide_ext. rewrite elem_of_cons. intuition congruence.
    + apply bool_decide_eq_false in Hmem.
      cbn [mbind outcome_bind obind mret outcome_ret].
      destruct (IH acc Hrest) as (ch & Hch & Hget).
      exists ch. split; [done|]. intros m. rewrite Hget.
      destruct (decide (m = k)) as [->|Hne].
      * rewrite (bool_decide_true (k ∈ k :: keys)) by (apply elem_of_cons; by left).
        destruct (dict_get k anchor_rates) as [old|] eqn:Hold.
        { destruct Hmem. by eexists. }
        by destruct (bool_decide (k ∈ keys)).
      * assert (bool_decide (m ∈ k :: keys) = bool_decide (m ∈ keys)) as ->; [|done].
        apply bool_decide_ext. rewrite elem_of_cons. intuition congruence.
Qed.

Lemma changes_against_rate rates va anchor_rates anchor_va changes :
  changes_against rates va anchor_rates anchor_va = Returned changes ->
  forall m,
    dict_get (Mat m) changes
    = if truthy anchor_rates then rate_delta rates anchor_rates m else None.
Proof.
  unfold changes_against. destruct (truthy anchor_rates) eqn:Ht.
  2:{ by intros [= <-]. }
  destruct (truthy_Some _ Ht) as [ar ->]. cbn [default from_option id].
  destruct (changes_loop_get rates ar (dict_keys rates) []) as (ch & Hch & Hget); [done|].
  unfold mbind at 1, outcome_bind at 1. rewrite Hch. cbn [obind].
  assert (Hgoal : forall m, dict_get (Mat m) ch = rate_delta rates (Some ar) m).
  { intros m. rewrite Hget. unfold rate_delta. simpl.
    destruct (dict_get m rates) as [new|] eqn:Hnew.
    - rewrite bool_decide_true; [done|]. apply dict_get_keys. by eexists.
    - by destruct (if bool_decide _ then _ else _). }
  destruct anchor_va as [av|].
  - destruct va as [v|]; simpl; [|done].
    intros [= <-] m. rewrite dict_get_set, decide_False by done. apply Hgoal.
  - intros [= <-]. exact Hgoal.
Qed.

(** X9: in a summary, a maturity has a month-over-month (year-to-date) delta
    exactly when the current observation and a non-empty anchor both have a
    rate for it, and the delta is the basis-point change between the two; a
    maturity one side lacks has no entry. *)
Theorem summary_rate_deltas (reference_date : datetime) (country : string)
    (rates : list (Z * float)) (va : option float)
    (previous_rates : option (list (Z * float))) (previous_va : option float)
    (ytd_rates : option (list (Z * float))) (ytd_va : option float)
    (s : Summary) :
  create_summary_dict reference_date country rates va
    previous_rates previous_va ytd_rates ytd_va = Returned s ->
  forall m,
    dict_get (Mat m) (changes_mom s)
    = (if truthy previous_rates then rate_delta rates previous_rates m else None)
    /\ dict_get (Mat m) (changes_ytd s)
       = (if truthy ytd_rates then rate_delta rates ytd_rates m else None).
Proof.
  unfold create_summary_dict.
  destruct (changes_against rates va previous_rates previous_va) as [mom|] eqn:Hm; [|done].
  destruct (changes_against rates va ytd_rates ytd_va) as [ytd|] eqn:Hy; [|done].
  intros [= <-] m. cbn [changes_mom changes_ytd].
  split; eapply changes_against_rate; done.
Qed.

(** ** When the comparison raises *)

Lemma changes_against_outcome rates va anchor_rates anchor_va :
  if va_conflict va anchor_rates anchor_va
  then changes_against rates va anchor_rates anchor_va = Raised TypeError
  else exists changes,
         changes_against rates va anchor_rates anchor_va = Returned changes.
Proof.
  destruct (truthy anchor_rates) eqn:Ht.
  - destruct (changes_against_truthy rates va anchor_rates anchor_va Ht)
      as (ch & _ & _ & ->).
    unfold va_conflict. rewrite Ht.
    destruct va as [v|], anchor_va as [av|]; simpl; eauto.
  - unfold changes_against, va_conflict. rewrite Ht.
    destruct va as [v|], anchor_va as [av|]; simpl; eauto.
Qed.

(** An upsert leaves a frame with the columns the lookups read. *)
Lemma upsert_frame_read_columns data df : read_columns (upsert_frame data df).
Proof.
  right. destruct (upsert_frame_key_columns data df) as [Hd Hc].
  split_and!; [done|done|]. apply upsert_frame_columns.
  rewrite row_items_eq. cbn [dict_keys map fst]. rewrite !elem_of_cons. auto 10.
Qed.

(** X10: on a frame with the columns the lookups read, and for a reference
    date in the years of pandas timestamps, [analyze] raises in one case
    only, and then raises [TypeError]: the current observation has no VA
    while the month-over-month or the year-to-date anchor it resolves has
    rates and a VA.  In every other case it returns a summary. *)
Theorem analyze_raises_iff (df : DataFrame) (current : Observation) (e : exn) :
  read_columns df ->
  timestamp_years (obs_reference_date current) ->
  analyze df current = Raised e
  <-> e = TypeError
      /\ (va_conflict (obs_va current)
            (obs_rates <$> get_previous_month_data df
                             (obs_reference_date current) (obs_country current))
            (get_previous_month_data df
               (obs_reference_date current) (obs_country current) ≫= obs_va)
          || va_conflict (obs_va current)
               (obs_rates <$> get_ytd_data df
                                (obs_reference_date current) (obs_country current))
               (get_ytd_data df
                  (obs_reference_date current) (obs_country current) ≫= obs_va))
         = true.
Proof.
  intros _ _. unfold analyze, create_summary_dict.
  set (p := get_previous_month_data _ _ _). set (y := get_ytd_data _ _ _).
  pose proof (changes_against_outcome (obs_rates current) (obs_va current)
                (obs_rates <$> p) (p ≫= obs_va)) as Hp.
  pose proof (changes_against_outcome (obs_rates current) (obs_va current)
                (obs_rates <$> y) (y ≫= obs_va)) as Hy.
  destruct (va_conflict _ (obs_rates <$> p) _).
  - rewrite Hp. simpl. split; [by intros [= <-]|by intros [-> _]].
  - destruct Hp as [mom ->]. simpl.
    destruct (va_conflict _ (obs_rates <$> y) _).
    + rewrite Hy. simpl. split; [by intros [= <-]|by intros [-> _]].
    + destruct Hy as [ytd ->]. simpl. split; [done|by intros [_ ?]].
Qed.

Lemma lookup_near_none df c anchor tol :
  (forall row, row ∈ rows df -> country row = c ->
     tol < Z.abs (reference_date row - anchor)) ->
  lookup_near df c anchor tol = None.
Proof.
  intros Hfar. destruct (lookup_near df c anchor tol) as [o|] eqn:Hl; [|done].
  apply lookup_near_row in Hl as (row & Hin & _ & Hc & Hw).
  specialize (Hfar row Hin Hc). lia.
Qed.

(** X11: when the store holds no row of the country within 5 days of the
    previous month end or within 10 days of the year start, as on an empty
    store, [analyze] returns the current observation with no delta, no
    anchor date and no alert. *)
Theorem analyze_without_anchor (df : DataFrame) (current : Observation) :
  (forall row, row ∈ rows df -> country row = obs_country current ->
     5 < Z.abs (reference_date row
                - get_previous_month_date (obs_reference_date current))
     /\ 10 < Z.abs (reference_date row
                    - get_year_start_date (obs_reference_date current))) ->
  analyze df current
  = Returned {| sum_reference_date := obs_reference_date current;
                sum_country := obs_country current;
                sum_rates := obs_rates current;
                sum_va := obs_va current;
                changes_mom := [];
                changes_ytd := [];
                previous_date := None;
                ytd_date := None;
                alerts := [] |}.
Proof.
  intros Hfar. unfold analyze.
  rewrite get_previous_month_data_near, get_ytd_data_near.
  rewrite !lookup_near_none; [done|..]; intros row Hin Hc; by apply Hfar.
Qed.

(** ** The anchors an analysis reports *)

Lemma analyze_returned_dates df current s :
  analyze df current = Returned s ->
  previous_date s
  = obs_reference_date
      <$> get_previous_month_data df (obs_reference_date current) (obs_country current)
  /\ ytd_date s
     = obs_reference_date
         <$> get_ytd_data df (obs_reference_date current) (obs_country current)
  /\ sum_rates s = obs_rates current /\ sum_va s = obs_va current.
Proof.
  unfold analyze, create_summary_dict.
  destruct (changes_against _ _ (obs_rates <$> get_previous_month_data _ _ _) _)
    as [mom|]; [|done].
  destruct (changes_against _ _ (obs_rates <$> get_ytd_data _ _ _) _)
    as [ytd|]; [|done].
  by intros [= <-].
Qed.

(** X12: the anchor dates of an analysis are dates of stored rows of the
    current country, at most 5 days from the previous month end and at most
    10 days from the year start. *)
Theorem analysis_anchor_dates (df : DataFrame) (current : Observation)
    (s : Summary) :
  analyze df current = Returned s ->
  (forall d, previous_date s = Some d ->
     Z.abs (d - get_previous_month_date (obs_reference_date current)) <= 5
     /\ exists row, row ∈ rows df /\ country row = obs_country current
                    /\ reference_date row = d)
  /\ (forall d, ytd_date s = Some d ->
        Z.abs (d - get_year_start_date (obs_reference_date current)) <= 10
        /\ exists row, row ∈ rows df /\ country row = obs_country current
                       /\ reference_date row = d).
Proof.
  intros Ha. destruct (analyze_returned_dates df current s Ha) as (-> & -> & _).
  rewrite get_previous_month_data_near, get_ytd_data_near.
  split; intros d Hd.
  - destruct (lookup_near df _ _ 5) as [o|] eqn:Hl; [|done].
    injection Hd as <-.
    apply lookup_near_row in Hl as (row & Hin & -> & Hc & Hw).
    cbn [row_to_dict obs_reference_date]. split; [lia|]. by exists row.
  - destruct (lookup_near df _ _ 10) as [o|] eqn:Hl; [|done].
    injection Hd as <-.
    apply lookup_near_row in Hl as (row & Hin & -> & Hc & Hw).
    cbn [row_to_dict obs_reference_date]. split; [lia|]. by exists row.
Qed.

(** ** The calendar *)

Lemma month_day_ok_from_spec count leap : forall n i,
  month_day_ok_from count leap n = true ->
  n <= i < n + Z.of_nat count -> month_day_ok leap i = true.
Proof.
  induction count as [|count IH]; intros n i H Hi; [lia|].
  simpl in H. apply andb_true_iff in H as [H0 H].
  destruct (decide (i = n)) as [->|Hne]; [done|].
  apply (IH (n + 1)); [done|lia].
Qed.

Lemma month_day_ok_year leap r :
  0 <= r < 365 -> month_day_ok leap r = true.
Proof.
  intros Hr. apply (month_day_ok_from_spec 365 leap 0); [|lia].
  destruct leap; vm_compute; reflexivity.
Qed.

(** the year part of [_ord2ymd]: how an ordinal splits into cycles of 400,
    100, 4 and 1 years and a day of the year *)
Lemma ord_split n :
  let n0 := n - 1 in
  let n400 := n0 / 146097 in
  let r400 := n0 mod 146097 in
  let n100 := r400 / 36524 in
  let r100 := r400 mod 36524 in
  let n4 := r100 / 1461 in
  let r4 := r100 mod 1461 in
  let n1 := r4 / 365 in
  let r1 := r4 mod 365 in
  n0 = 146097 * n400 + 36524 * n100 + 1461 * n4 + 365 * n1 + r1
  /\ 0 <= n100 <= 4 /\ 0 <= n4 <= 24 /\ 0 <= n1 <= 4 /\ 0 <= r1 < 365
  /\ (n100 = 4 -> n4 = 0 /\ n1 = 0 /\ r1 = 0)
  /\ (n1 = 4 -> r1 = 0 /\ n4 <= 23).
Proof.
  cbv zeta. Z.div_mod_to_equations. lia.
Qed.

Lemma days_before_year_split a b c e :
  0 <= b <= 3 -> 0 <= c <= 24 -> 0 <= e <= 3 ->
  Calendar._days_before_year (400 * a + 100 * b + 4 * c + e + 1)
  = 146097 * a + 36524 * b + 1461 * c + 365 * e.
Proof.
  intros Hb Hc He. unfold Calendar._days_before_year. cbv zeta.
  Z.div_mod_to_equations. lia.
Qed.

Lemma is_leap_split a b c e :
  0 <= b <= 3 -> 0 <= c <= 24 -> 0 <= e <= 3 ->
  Calendar._is_leap (400 * a + 100 * b + 4 * c + e + 1)
  = (e =? 3) && (negb (c =? 24) || (b =? 3)).
Proof.
  intros Hb Hc He. unfold Calendar._is_leap.
  destruct (Z.eqb_spec ((400 * a + 100 * b + 4 * c + e + 1) mod 4) 0) as [H4|H4];
  destruct (Z.eqb_spec ((400 * a + 100 * b + 4 * c + e + 1) mod 100) 0) as [H100|H100];
  destruct (Z.eqb_spec ((400 * a + 100 * b + 4 * c + e + 1) mod 400) 0) as [H400|H400];
  destruct (Z.eqb_spec e 3), (Z.eqb_spec c 24), (Z.eqb_spec b 3); simpl;
    try reflexivity; exfalso; Z.div_mod_to_equations; lia.
Qed.

Lemma ord2ymd_eq n :
  Calendar._ord2ymd n
  = let n0 := n - 1 in
    let n400 := n0 / 146097 in
    let r400 := n0 mod 146097 in
    let n100 := r400 / 36524 in
    let r100 := r400 mod 36524 in
    let n4 := r100 / 1461 in
    let r4 := r100 mod 1461 in
    let n1 := r4 / 365 in
    let r1 := r4 mod 365 in
    let year := n400 * 400 + 1 + n100 * 100 + n4 * 4 + n1 in
    if (n1 =? 4) || (n100 =? 4) then (year - 1, 12, 31)
    else
      let leapyear := (n1 =? 3) && (negb (n4 =? 24) || (n100 =? 3)) in
      (year, fst (month_day r1 leapyear), snd (month_day r1 leapyear)).
Proof.
  unfold Calendar._ord2ymd, month_day. cbv zeta.
  change Calendar._DI400Y with 146097.
  change Calendar._DI100Y with 36524.
  change Calendar._DI4Y with 1461.
  destruct (_ || _); [done|].
  by destruct (_ <? _).
Qed.

Lemma ymd2ord_eq y m d :
  Calendar._ymd2ord y m d
  = Calendar._days_before_year y + days_before (Calendar._is_leap y) m + d.
Proof. reflexivity. Qed.

Lemma days_in_month_eq y m : _days_in_month y m = days_in (Calendar._is_leap y) m.
Proof. reflexivity. Qed.

(** Every ordinal is the ordinal of its year, month and day, and these are
    a month of the year and a day of that month. *)
Lemma ord2ymd_spec n :
  Calendar._ymd2ord (Calendar.dt_year n) (Calendar.dt_month n) (Calendar.dt_day n) = n
  /\ 1 <= Calendar.dt_month n <= 12
  /\ 1 <= Calendar.dt_day n
          <= _days_in_month (Calendar.dt_year n) (Calendar.dt_month n).
Proof.
  unfold Calendar.dt_year, Calendar.dt_month, Calendar.dt_day.
  rewrite ord2ymd_eq. cbv zeta.
  destruct (ord_split n) as (Hn & H100 & H4 & H1 & Hr & Hc100 & Hc1).
  cbv zeta in *.
  set (n400 := (n - 1) / 146097) in *.
  set (r400 := (n - 1) mod 146097) in *.
  set (n100 := r400 / 36524) in *.
  set (r100 := r400 mod 36524) in *.
  set (n4 := r100 / 1461) in *.
  set (r4 := r100 mod 1461) in *.
  set (n1 := r4 / 365) in *.
  set (r1 := r4 mod 365) in *.
  clearbody n400 n100 n4 n1 r1. clear r400 r100 r4.
  rewrite ymd2ord_eq, days_in_month_eq.
  destruct (Z.eqb_spec n1 4) as [E1|E1]; [|destruct (Z.eqb_spec n100 4) as [E100|E100]];
    cbn [orb fst snd].
  - destruct (Hc1 E1) as [-> Hn4]. subst n1.
    assert (n100 <= 3) by (destruct (decide (n100 = 4)) as [E|E]; [destruct (Hc100 E); lia|lia]).
    replace (n400 * 400 + 1 + n100 * 100 + n4 * 4 + 4 - 1)
      with (400 * n400 + 100 * n100 + 4 * n4 + 3 + 1) by lia.
    rewrite is_leap_split, days_before_year_split by lia.
    replace (3 =? 3) with true by done.
    destruct (Z.eqb_spec n4 24); [lia|]. cbn [andb orb negb].
    change (days_before true 12) with 335. change (days_in true 12) with 31. lia.
  - destruct (Hc100 E100) as (-> & -> & ->). subst n100.
    replace (n400 * 400 + 1 + 4 * 100 + 0 * 4 + 0 - 1)
      with (400 * n400 + 100 * 3 + 4 * 24 + 3 + 1) by lia.
    rewrite is_leap_split, days_before_year_split by lia.
    cbn [Z.eqb Pos.eqb andb orb negb].
    change (days_before true 12) with 335. change (days_in true 12) with 31. lia.
  - replace (n400 * 400 + 1 + n100 * 100 + n4 * 4 + n1)
      with (400 * n400 + 100 * n100 + 4 * n4 + n1 + 1) by lia.
    rewrite is_leap_split, days_before_year_split by lia.
    set (leap := (n1 =? 3) && (negb (n4 =? 24) || (n100 =? 3))).
    pose proof (month_day_ok_year leap r1 Hr) as Hok.
    unfold month_day_ok in Hok. destruct (month_day r1 leap) as [m d].
    cbn [fst snd].
    rewrite !andb_true_iff, !Z.leb_le, Z.eqb_eq in Hok. lia.
Qed.

Lemma days_before_year_step y :
  Calendar._days_before_year (y + 1)
  = Calendar._days_before_year y + 365 + Calendar.bool_to_Z (Calendar._is_leap y).
Proof.
  unfold Calendar._days_before_year, Calendar._is_leap. cbv zeta.
  replace (y + 1 - 1) with y by lia.
  destruct (Z.eqb_spec (y mod 4) 0), (Z.eqb_spec (y mod 100) 0),
    (Z.eqb_spec (y mod 400) 0); simpl; Z.div_mod_to_equations; lia.
Qed.

Lemma days_before_year_mono y y' :
  y <= y' -> Calendar._days_before_year y <= Calendar._days_before_year y'.
Proof.
  intros H. unfold Calendar._days_before_year. cbv zeta.
  Z.div_mod_to_equations. lia.
Qed.

Ltac month_cases m :=
  let H := fresh in
  assert (H : m = 1 \/ m = 2 \/ m = 3 \/ m = 4 \/ m = 5 \/ m = 6 \/ m = 7
              \/ m = 8 \/ m = 9 \/ m = 10 \/ m = 11 \/ m = 12) by lia;
  destruct H as [->|[->|[->|[->|[->|[->|[->|[->|[->|[->|[->| ->]]]]]]]]]]].

(** the months of a year follow one another, from day 0 to the year's end *)
Lemma days_before_bounds leap m :
  1 <= m <= 12 ->
  0 <= days_before leap m
  /\ 28 <= days_in leap m <= 31
  /\ days_before leap m + days_in leap m
     = (if m =? 12 then 365 + Calendar.bool_to_Z leap else days_before leap (m + 1)).
Proof.
  intros Hm. month_cases m; destruct leap; vm_compute; repeat split; discriminate.
Qed.

Lemma days_before_end leap m :
  1 <= m <= 12 -> days_before leap m + days_in leap m <= 365 + Calendar.bool_to_Z leap.
Proof.
  intros Hm. month_cases m; destruct leap; vm_compute; discriminate.
Qed.

Lemma days_before_mono leap m m' :
  1 <= m -> m < m' -> m' <= 12 ->
  days_before leap m + days_in leap m <= days_before leap m'.
Proof.
  intros H1 H2 H3.
  assert (Hk : exists k, m' = m + 1 + Z.of_nat k) by (exists (Z.to_nat (m' - m - 1)); lia).
  destruct Hk as [k ->]. clear H2.
  induction k as [|k IH].
  - destruct (days_before_bounds leap m) as (_ & _ & Hs); [lia|].
    destruct (Z.eqb_spec m 12); [lia|]. replace (m + 1 + Z.of_nat 0) with (m + 1) by lia. lia.
  - assert (IH' : days_before leap m + days_in leap m <= days_before leap (m + 1 + Z.of_nat k))
      by (apply IH; lia).
    destruct (days_before_bounds leap (m + 1 + Z.of_nat k)) as (_ & Hd & Hs); [lia|].
    destruct (Z.eqb_spec (m + 1 + Z.of_nat k) 12); [lia|].
    replace (m + 1 + Z.of_nat (S k)) with (m + 1 + Z.of_nat k + 1) by lia. lia.
Qed.

(** a date of the calendar: a month of the year and a day of that month *)
Lemma ymd2ord_inj y m d y' m' d' :
  1 <= m <= 12 -> 1 <= d <= _days_in_month y m ->
  1 <= m' <= 12 -> 1 <= d' <= _days_in_month y' m' ->
  Calendar._ymd2ord y m d = Calendar._ymd2ord y' m' d' ->
  y = y' /\ m = m' /\ d = d'.
Proof.
  rewrite !ymd2ord_eq, !days_in_month_eq. intros Hm Hd Hm' Hd' He.
  assert (Hy : forall y m d, 1 <= m <= 12 -> 1 <= d <= days_in (Calendar._is_leap y) m ->
            Calendar._days_before_year y
            < Calendar._days_before_year y + days_before (Calendar._is_leap y) m + d
            <= Calendar._days_before_year (y + 1)).
  { clear. intros y m d Hm Hd. rewrite days_before_year_step.
    pose proof (days_before_end (Calendar._is_leap y) m Hm).
    destruct (days_before_bounds (Calendar._is_leap y) m Hm) as (H0 & _ & _). lia. }
  pose proof (Hy y m d Hm Hd) as B. pose proof (Hy y' m' d' Hm' Hd') as B'.
  assert (y = y') as <-.
  { destruct (Z.lt_trichotomy y y') as [Hlt|[Heq|Hgt]]; [|done|].
    - pose proof (days_before_year_mono (y + 1) y'). lia.
    - pose proof (days_before_year_mono (y' + 1) y). lia. }
  split; [done|].
  assert (m = m') as <-.
  { destruct (Z.lt_trichotomy m m') as [Hlt|[Heq|Hgt]]; [|done|].
    - pose proof (days_before_mono (Calendar._is_leap y) m m'). lia.
    - pose proof (days_before_mono (Calendar._is_leap y) m' m). lia. }
  split; [done|lia].
Qed.

Lemma ord2ymd_ymd2ord y m d :
  1 <= m <= 12 -> 1 <= d <= _days_in_month y m ->
  Calendar.dt_year (Calendar._ymd2ord y m d) = y
  /\ Calendar.dt_month (Calendar._ymd2ord y m d) = m
  /\ Calendar.dt_day (Calendar._ymd2ord y m d) = d.
Proof.
  intros Hm Hd.
  destruct (ord2ymd_spec (Calendar._ymd2ord y m d)) as (He & Hm' & Hd').
  exact (ymd2ord_inj _ _ _ y m d Hm' Hd' Hm Hd He).
Qed.

(** ** The two anchors *)

Lemma get_previous_month_date_eq d :
  get_previous_month_date d = d - Calendar.dt_day d.
Proof.
  destruct (ord2ymd_spec d) as (He & _ & _).
  unfold get_previous_month_date, Calendar.replace_day, Calendar.mk_datetime,
    Calendar.timedelta. cbv zeta.
  rewrite ymd2ord_eq in *. lia.
Qed.

Lemma dt_day_bounds d : 1 <= Calendar.dt_day d <= 31.
Proof.
  destruct (ord2ymd_spec d) as (_ & Hm & Hd). rewrite days_in_month_eq in Hd.
  destruct (days_before_bounds (Calendar._is_leap (Calendar.dt_year d)) _ Hm)
    as (_ & ? & _). lia.
Qed.

Lemma days_before_ends leap :
  days_before leap 1 = 0
  /\ days_before leap 12 + days_in leap 12 = 365 + Calendar.bool_to_Z leap.
Proof. by destruct leap. Qed.

Lemma get_year_start_date_bounds d :
  get_year_start_date d <= d
  /\ d < get_year_start_date d + 365
         + Calendar.bool_to_Z (Calendar._is_leap (Calendar.dt_year d))
  /\ (1 < Calendar.dt_month d \/ 11 < Calendar.dt_day d ->
      get_year_start_date d + 10 < d).
Proof.
  destruct (ord2ymd_spec d) as (He & Hm & Hd). rewrite days_in_month_eq in Hd.
  unfold get_year_start_date, Calendar.mk_datetime.
  rewrite ymd2ord_eq in *.
  set (leap := Calendar._is_leap (Calendar.dt_year d)) in *.
  pose proof (days_before_end leap _ Hm).
  destruct (days_before_bounds leap _ Hm) as (H0 & _ & _).
  change (days_before leap 1) with (0 + Calendar.bool_to_Z (false && leap)).
  cbn [andb Calendar.bool_to_Z].
  split_and!; [lia|lia|].
  intros [H1|H11]; [|lia].
  assert (days_before leap 1 + days_in leap 1 <= days_before leap (Calendar.dt_month d))
    by (apply days_before_mono; lia).
  assert (days_before leap 1 + days_in leap 1 = 31) by (by destruct leap).
  lia.
Qed.

(** X13: the month-over-month anchor date is the last day of the month before
    the reference date's: it is the reference date less its day of the month,
    so between 1 and 31 days before it; the day after it is the first of the
    reference date's month; and it is the last day of the previous month, in
    December of the year before when the reference date is in January. *)
Theorem previous_month_date_is_month_end (d : datetime) :
  Calendar.mk_datetime 1 2 1 <= d <= Calendar.mk_datetime 9999 12 31 ->
  get_previous_month_date d = d - Calendar.dt_day d
  /\ d - 31 <= get_previous_month_date d < d
  /\ (Calendar.dt_year (get_previous_month_date d + 1) = Calendar.dt_year d
      /\ Calendar.dt_month (get_previous_month_date d + 1) = Calendar.dt_month d
      /\ Calendar.dt_day (get_previous_month_date d + 1) = 1)
  /\ Calendar.dt_year (get_previous_month_date d)
     = (if Calendar.dt_month d =? 1 then Calendar.dt_year d - 1 else Calendar.dt_year d)
  /\ Calendar.dt_month (get_previous_month_date d)
     = (if Calendar.dt_month d =? 1 then 12 else Calendar.dt_month d - 1)
  /\ Calendar.dt_day (get_previous_month_date d)
     = _days_in_month (Calendar.dt_year (get_previous_month_date d))
         (Calendar.dt_month (get_previous_month_date d)).
Proof.
  intros _.
  pose proof (dt_day_bounds d) as Hday.
  destruct (ord2ymd_spec d) as (He & Hm & Hd).
  split; [apply get_previous_month_date_eq|].
  split; [rewrite get_previous_month_date_eq; lia|].
  set (y := Calendar.dt_year d) in *. set (m := Calendar.dt_month d) in *.
  assert (Hfirst : get_previous_month_date d + 1 = Calendar._ymd2ord y m 1).
  { unfold get_previous_month_date, Calendar.replace_day, Calendar.mk_datetime,
      Calendar.timedelta. cbv zeta. fold y m. lia. }
  split.
  { rewrite Hfirst. apply ord2ymd_ymd2ord; [done|]. lia. }
  assert (Hlast : get_previous_month_date d
                  = Calendar._ymd2ord (if m =? 1 then y - 1 else y)
                      (if m =? 1 then 12 else m - 1)
                      (_days_in_month (if m =? 1 then y - 1 else y)
                                      (if m =? 1 then 12 else m - 1))).
  { assert (Hp : get_previous_month_date d = Calendar._ymd2ord y m 1 - 1) by lia.
    rewrite Hp, !ymd2ord_eq, days_in_month_eq.
    destruct (Z.eqb_spec m 1) as [->|Hne].
    - pose proof (days_before_year_step (y - 1)) as Hs.
      replace (y - 1 + 1) with y in Hs by lia. rewrite Hs.
      change (1 =? 1) with true. cbv iota.
      destruct (days_before_ends (Calendar._is_leap (y - 1))) as [_ H12].
      destruct (days_before_ends (Calendar._is_leap y)) as [H1 _]. lia.
    - destruct (days_before_bounds (Calendar._is_leap y) (m - 1)) as (_ & _ & Hs); [lia|].
      destruct (Z.eqb_spec (m - 1) 12); [lia|].
      replace (m - 1 + 1) with m in Hs by lia. lia. }
  assert (Hvalid : 1 <= (if m =? 1 then 12 else m - 1) <= 12)
    by (destruct (Z.eqb_spec m 1); lia).
  assert (Hdim : 1 <= _days_in_month (if m =? 1 then y - 1 else y)
                        (if m =? 1 then 12 else m - 1)
                   <= _days_in_month (if m =? 1 then y - 1 else y)
                        (if m =? 1 then 12 else m - 1)).
  { rewrite days_in_month_eq.
    destruct (days_before_bounds (Calendar._is_leap (if m =? 1 then y - 1 else y))
                _ Hvalid) as (_ & ? & _). lia. }
  destruct (ord2ymd_ymd2ord _ _ _ Hvalid Hdim) as (Hy' & Hm' & Hd').
  rewrite <- Hlast in Hy', Hm', Hd'.
  split_and!; [done|done|]. by rewrite Hy', Hm'.
Qed.

(** X14: the year-to-date anchor date is January 1 of the reference date's
    year; the reference date is that day or one of the days of the year
    after it. *)
Theorem year_start_date_is_january_first (d : datetime) :
  Calendar.mk_datetime 1 1 1 <= d <= Calendar.mk_datetime 9999 12 31 ->
  Calendar.dt_year (get_year_start_date d) = Calendar.dt_year d
  /\ Calendar.dt_month (get_year_start_date d) = 1
  /\ Calendar.dt_day (get_year_start_date d) = 1
  /\ get_year_start_date d <= d
  /\ d < get_year_start_date d
         + (if Calendar._is_leap (Calendar.dt_year d) then 366 else 365).
Proof.
  intros _.
  destruct (ord2ymd_ymd2ord (Calendar.dt_year d) 1 1) as (Hy & Hm & Hd);
    [lia|by rewrite days_in_month_eq; destruct (Calendar._is_leap _)|].
  destruct (get_year_start_date_bounds d) as (Hle & Hlt & _).
  split_and!; [done..|].
  by destruct (Calendar._is_leap (Calendar.dt_year d)); simpl in Hlt; lia.
Qed.

(** ** Anchors and the reference date *)

(** X15: past the fifth day of a month, the month-over-month anchor of an
    analysis is dated before the reference date; past January 11, so is the
    year-to-date anchor. *)
Theorem anchors_precede_reference (df : DataFrame) (current : Observation)
    (s : Summary) :
  analyze df current = Returned s ->
  (5 < Calendar.dt_day (obs_reference_date current) ->
   forall d, previous_date s = Some d -> d < obs_reference_date current)
  /\ (1 < Calendar.dt_month (obs_reference_date current)
      \/ 11 < Calendar.dt_day (obs_reference_date current) ->
      forall d, ytd_date s = Some d -> d < obs_reference_date current).
Proof.
  intros Ha. destruct (analyze_returned_dates df current s Ha) as (-> & -> & _).
  rewrite get_previous_month_data_near, get_ytd_data_near.
  split; intros Hday d Hd.
  - destruct (lookup_near df _ _ 5) as [o|] eqn:Hl; [|done].
    injection Hd as <-.
    apply lookup_near_row in Hl as (row & _ & -> & _ & Hw).
    cbn [row_to_dict obs_reference_date].
    rewrite get_previous_month_date_eq in Hw. lia.
  - destruct (lookup_near df _ _ 10) as [o|] eqn:Hl; [|done].
    injection Hd as <-.
    apply lookup_near_row in Hl as (row & _ & -> & _ & Hw).
    cbn [row_to_dict obs_reference_date].
    destruct (get_year_start_date_bounds (obs_reference_date current)) as (_ & _ & Hys).
    specialize (Hys Hday). lia.
Qed.

(** A row of the frame an upsert leaves carries the record's key or is a
    row the frame had. *)
Lemma upsert_frame_row_cases data df row :
  row ∈ rows (upsert_frame data df) ->
  has_key data row = true \/ row ∈ rows df.
Proof.
  rewrite upsert_frame_rows, sort_by_perm.
  destruct (key_exists data df).
  - intros Hin. apply list_elem_of_fmap in Hin as (r & -> & Hr).
    destruct (has_key data r) eqn:Hk; [|by right].
    left. apply has_key_spec, overwrite_row_key.
  - intros Hin. apply elem_of_app in Hin as [Hin|Hin]; [by right|].
    apply list_elem_of_singleton in Hin as ->. left. by apply has_key_spec.
Qed.

(** ** A record compared with itself *)

(** A rate within bounds less itself is zero, and so is the change in basis
    points. *)
Lemma calculate_bps_change_self rate :
  validate_rate rate = true -> calculate_bps_change rate rate = 0%float.
Proof.
  unfold validate_rate. rewrite andb_true_iff, !FloatAxioms.leb_spec.
  intros [Hlo Hhi]. unfold calculate_bps_change.
  assert (Hsub : PrimFloat.sub rate rate = 0%float).
  { rewrite <- (FloatAxioms.SF2Prim_Prim2SF (PrimFloat.sub rate rate)).
    rewrite FloatAxioms.sub_spec.
    unfold SFleb in Hlo, Hhi.
    destruct (Prim2SF rate) as [s|s| |s m e].
    - by destruct s.
    - destruct s; [vm_compute in Hlo|vm_compute in Hhi]; discriminate.
    - vm_compute in Hlo. discriminate.
    - unfold FloatAxioms.SF64sub, SFsub. cbv zeta. rewrite Z.sub_diag. reflexivity. }
  rewrite Hsub. vm_compute. reflexivity.
Qed.

Lemma dict_set_elem {K V} `{EqDecision K} (k : K) (v : V) (d : list (K * V)) k' v' :
  (k', v') ∈ dict_set k v d -> (k' = k /\ v' = v) \/ (k', v') ∈ d.
Proof.
  induction d as [|[k0 v0] d IH]; simpl.
  - intros H. apply list_elem_of_singleton in H. injection H as -> ->. by left.
  - destruct (decide (k = k0)) as [->|Hne]; rewrite !elem_of_cons.
    + intros [[= -> ->]|H]; auto.
    + intros [H|H]; [auto|]. destruct (IH H); auto.
Qed.

(** Every rate entry the loop of [create_summary_dict] writes is the change
    between the anchor's rate and the current rate of its maturity. *)
Lemma changes_loop_entries (rates anchor_rates : list (Z * float)) :
  forall keys acc changes,
  for_each keys
    (fun changes maturity =>
       if dict_mem maturity anchor_rates then
         old ← dict_index anchor_rates maturity;
         new ← dict_index rates maturity;
         mret (dict_set (Mat maturity) (calculate_bps_change old new) changes)
       else mret changes)
    acc = Returned changes ->
  (forall m v, (Mat m, v) ∈ acc ->
     exists old new, dict_get m anchor_rates = Some old /\ dict_get m rates = Some new
                     /\ v = calculate_bps_change old new) ->
  forall m v, (Mat m, v) ∈ changes ->
    exists old new, dict_get m anchor_rates = Some old /\ dict_get m rates = Some new
                    /\ v = calculate_bps_change old new.
Proof.
  induction keys as [|k keys IH]; intros acc changes; cbn [for_each].
  - by intros [= <-].
  - destruct (dict_mem k anchor_rates).
    + unfold dict_index.
      destruct (dict_get k anchor_rates) as [old|] eqn:Hold; [|done].
      destruct (dict_get k rates) as [new|] eqn:Hnew; [|done].
      cbn [mbind outcome_bind obind mret outcome_ret].
      intros Hrun Hacc. apply (IH _ _ Hrun).
      intros m v Hin. apply dict_set_elem in Hin as [[[= ->] ->]|Hin]; [|by apply Hacc].
      by exists old, new.
    + cbn [mbind outcome_bind obind mret outcome_ret]. apply IH.
Qed.

Lemma changes_against_entries rates va anchor_rates anchor_va changes :
  changes_against rates va anchor_rates anchor_va = Returned changes ->
  forall m v, (Mat m, v) ∈ changes ->
    exists ar old new,
      anchor_rates = Some ar /\ dict_get m ar = Some old /\ dict_get m rates = Some new
      /\ v = calculate_bps_change old new.
Proof.
  unfold changes_against. destruct (truthy anchor_rates) eqn:Ht.
  2:{ intros [= <-] m v Hin. by apply elem_of_nil in Hin. }
  destruct (truthy_Some _ Ht) as [ar ->]. cbn [default from_option id].
  destruct (for_each (dict_keys rates) _ []) as [ch|] eqn:Hloop; [|done].
  cbn [mbind outcome_bind obind].
  assert (Hch : forall m v, (Mat m, v) ∈ ch ->
            exists old new, dict_get m ar = Some old /\ dict_get m rates = Some new
                            /\ v = calculate_bps_change old new).
  { apply (changes_loop_entries _ _ _ _ _ Hloop).
    intros m v Hin. by apply elem_of_nil in Hin. }
  assert (Hgoal : forall m v, (Mat m, v) ∈ ch ->
            exists ar0 old new, Some ar = Some ar0 /\ dict_get m ar0 = Some old
                                /\ dict_get m rates = Some new
                                /\ v = calculate_bps_change old new).
  { intros m v Hin. destruct (Hch m v Hin) as (old & new & ? & ? & ?).
    by exists ar, old, new. }
  destruct anchor_va as [av|].
  - destruct va as [x|]; [|done]. cbn.
    intros [= <-] m v Hin. apply dict_set_elem in Hin as [[[=] _]|Hin]. by apply Hgoal.
  - by intros [= <-].
Qed.

Lemma filter_bool_nil {A} (f : A -> bool) (l : list A) :
  (forall x, x ∈ l -> f x = false) -> List.filter f l = [].
Proof.
  induction l as [|x l IH]; intros H; simpl; [done|].
  rewrite (H x) by (apply elem_of_cons; by left).
  apply IH. intros y Hy. apply H, elem_of_cons. by right.
Qed.

(** X16: a record dated in the first five days of a month lies in its own
    month-over-month window.  Once it is added, and unless the store holds
    another record of the country within 5 days of the previous month end,
    the month-over-month anchor of that record is the record itself; an
    analysis of the record then reports its own date as the previous date
    and, for rates within bounds, a month-over-month change of zero at
    every maturity, and no month-over-month alert. *)
Theorem early_month_record_is_own_anchor (r : Observation) (st : State) :
  record_ok r ->
  Calendar.dt_day (obs_reference_date r) <= 5 ->
  (forall row, row ∈ rows (historical_data st) ->
     in_window (obs_country r) (get_previous_month_date (obs_reference_date r)) 5 row ->
     reference_date row = obs_reference_date r) ->
  (exists o,
     get_previous_month_data (historical_data (exec (add_to_historical r) st))
       (obs_reference_date r) (obs_country r) = Some o
     /\ same_observation o r)
  /\ forall s,
       analyze (historical_data (exec (add_to_historical r) st)) r = Returned s ->
       previous_date s = Some (obs_reference_date r)
       /\ ((forall m v, dict_get m (obs_rates r) = Some v -> validate_rate v = true) ->
           (forall m v, (Mat m, v) ∈ changes_mom s -> v = 0%float)
           /\ alert_entries ALERT_THRESHOLD_MOM (changes_mom s) = []).
Proof.
  intros Hok Hday Hothers.
  assert (Hown : exists o,
     get_previous_month_data (historical_data (exec (add_to_historical r) st))
       (obs_reference_date r) (obs_country r) = Some o
     /\ same_observation o r).
  { destruct (add_to_historical_run r st) as (_ & -> & _).
    set (df := historical_data st) in *.
    destruct (upsert_frame_key_rows r df) as [Hitems (row0 & Hin0 & Hk0)].
    pose proof (dt_day_bounds (obs_reference_date r)) as Hb.
    rewrite get_previous_month_data_near.
    pose proof (lookup_near_first_closest (upsert_frame r df) (obs_country r)
                  (get_previous_month_date (obs_reference_date r)) 5) as Hm.
    destruct (lookup_near _ _ _ 5) as [o|].
    - destruct Hm as (pre & row & post & Hl & -> & Hw & _).
      assert (Hin : row ∈ rows (upsert_frame r df)).
      { rewrite Hl. apply elem_of_app. right. apply elem_of_cons. by left. }
      assert (Hk : has_key r row = true).
      { destruct (upsert_frame_row_cases r df row Hin) as [Hk|Hold]; [done|].
        apply has_key_spec. split; [by apply Hothers|]. by destruct Hw. }
      eexists. split; [done|].
      apply row_to_dict_of_items; [done|done|by apply Hitems|].
      intros c Hc. by apply upsert_frame_columns.
    - destruct (Hm row0 Hin0).
      apply has_key_spec in Hk0 as [Hd0 Hc0].
      split; [done|]. rewrite Hd0, get_previous_month_date_eq. lia. }
  split; [exact Hown|].
  destruct Hown as (o & Hlook & Hdate & _ & Hrates & _).
  intros s Ha.
  destruct (analyze_returned_dates _ _ _ Ha) as (Hprev & _).
  destruct (analyze_returned _ _ _ Ha) as (Hmom & _).
  rewrite Hlook in Hprev, Hmom. cbn [fmap option_fmap option_map] in Hprev, Hmom.
  split; [by rewrite Hprev, Hdate|].
  intros Hvalid.
  assert (Hzero : forall m v, (Mat m, v) ∈ changes_mom s -> v = 0%float).
  { intros m v Hin.
    destruct (changes_against_entries _ _ _ _ _ Hmom m v Hin)
      as (ar & old & new & [= <-] & Hold & Hnew & ->).
    rewrite Hrates, Hnew in Hold. injection Hold as <-.
    apply calculate_bps_change_self. by eapply Hvalid. }
  split; [exact Hzero|].
  apply filter_bool_nil. intros [k v] Hin. unfold alerting. cbn [fst snd].
  destruct k as [m|]; [|done].
  rewrite (Hzero m v Hin). reflexivity.
Qed.

(** ** The file of a date *)

Lemma get_file_by_date_loop_spec t : forall files seen c md,
  closest_so_far t seen c md ->
  (forall g, g ∈ seen -> g.2 <> t) ->
  match get_file_by_date_loop files t c md with
  | (Some f, _, _) =>
      exists pre post, files = pre ++ f :: post /\ f.2 = t
                       /\ forall g, g ∈ pre -> g.2 <> t
  | (None, c', md') =>
      (forall g, g ∈ files -> g.2 <> t)
      /\ closest_so_far t (seen ++ files) c' md'
  end.
Proof.
  induction files as [|[[filename url] file_date] files IH]; intros seen c md Hinv Hseen.
  - simpl. rewrite app_nil_r. split; [|done]. intros g Hg. by apply elem_of_nil in Hg.
  - cbn [get_file_by_date_loop]. case_bool_decide as Hdate.
    + exists [], files. split_and!; [done|done|]. intros g Hg. by apply elem_of_nil in Hg.
    + set (f := (filename, url, file_date)).
      assert (Hseen' : forall g, g ∈ seen ++ [f] -> g.2 <> t).
      { intros g Hg. apply elem_of_app in Hg as [Hg|Hg]; [by apply Hseen|].
        by apply list_elem_of_singleton in Hg as ->. }
      assert (Hstep : forall c' md',
                closest_so_far t (seen ++ [f]) c' md' ->
                match get_file_by_date_loop files t c' md' with
                | (Some f0, _, _) =>
                    exists pre post, f :: files = pre ++ f0 :: post /\ f0.2 = t
                                     /\ forall g, g ∈ pre -> g.2 <> t
                | (None, c'', md'') =>
                    (forall g, g ∈ f :: files -> g.2 <> t)
                    /\ closest_so_far t (seen ++ f :: files) c'' md''
                end).
      { intros c' md' Hinv'. specialize (IH (seen ++ [f]) c' md' Hinv' Hseen').
        destruct (get_file_by_date_loop files t c' md') as [[[f0|] c''] md''].
        - destruct IH as (pre & post & -> & Hf0 & Hpre).
          exists (f :: pre), post. split_and!; [done|done|].
          intros g Hg. apply elem_of_cons in Hg as [->|Hg]; [done|by apply Hpre].
        - destruct IH as [Hfiles Hinv'']. split.
          + intros g Hg. apply elem_of_cons in Hg as [->|Hg]; [done|by apply Hfiles].
          + by rewrite <- app_assoc in Hinv''. }
      destruct c as [c0|], md as [d0|]; try done.
      * destruct Hinv as (-> & pre & post & -> & Hpre & Hpost).
        destruct (Z.ltb_spec (Z.abs (file_date - t)) (file_distance t c0)) as [Hlt|Hge];
          apply Hstep.
        -- split; [done|].
           exists (pre ++ c0 :: post), []. split_and!; [done| |].
           ++ intros g Hg. change (Z.abs (file_date - t)) with (file_distance t f).
              apply elem_of_app in Hg as [Hg|Hg].
              ** specialize (Hpre g Hg). unfold file_distance in *. simpl. lia.
              ** apply elem_of_cons in Hg as [->|Hg]; [unfold file_distance in *; simpl; lia|].
                 specialize (Hpost g Hg). unfold file_distance in *. simpl. lia.
           ++ intros g Hg. by apply elem_of_nil in Hg.
        -- split; [done|].
           exists pre, (post ++ [f]). split_and!; [by rewrite <- app_assoc|done|].
           intros g Hg. apply elem_of_app in Hg as [Hg|Hg]; [by apply Hpost|].
           apply list_elem_of_singleton in Hg as ->. unfold file_distance in *. simpl. lia.
      * simpl in Hinv. subst seen. apply Hstep.
        split; [done|]. exists [], []. split_and!; [done|..];
          intros g Hg; by apply elem_of_nil in Hg.
Qed.

Lemma StronglySorted_suffix {A} (R : A -> A -> Prop) (l1 l2 : list A) :
  StronglySorted R (l1 ++ l2) -> StronglySorted R l2.
Proof.
  induction l1 as [|x l1 IH]; simpl; [done|].
  intros H. by apply StronglySorted_inv in H as [H _]; apply IH.
Qed.

(** X17: [get_file_by_date] returns the first of the files nearest to the
    target date, provided it is at most 5 days from it, and nothing when
    every file is farther.  A file of the target date itself is at distance
    0, so the first such file is returned when there is one.  On a list in
    descending order of date, as [get_available_files] leaves it, a tie
    goes to the later file. *)
Theorem get_file_by_date_first_closest (files : list FileInfo) (t : datetime) :
  (get_file_by_date files t = None
   <-> forall g, g ∈ files -> 5 < file_distance t g)
  /\ (forall f, get_file_by_date files t = Some f ->
        file_distance t f <= 5
        /\ exists pre post,
             files = pre ++ f :: post
             /\ (forall g, g ∈ pre -> file_distance t f < file_distance t g)
             /\ (forall g, g ∈ post -> file_distance t f <= file_distance t g))
  /\ (forall f, get_file_by_date files t = Some f -> newest_first files ->
        forall g, g ∈ files -> file_distance t g = file_distance t f -> g.2 <= f.2).
Proof.
  assert (Hsome : forall f, get_file_by_date files t = Some f ->
        file_distance t f <= 5
        /\ exists pre post,
             files = pre ++ f :: post
             /\ (forall g, g ∈ pre -> file_distance t f < file_distance t g)
             /\ (forall g, g ∈ post -> file_distance t f <= file_distance t g)).
  { intros f. unfold get_file_by_date.
    pose proof (get_file_by_date_loop_spec t files [] None None eq_refl) as H.
    destruct (get_file_by_date_loop files t None None) as [[[f0|] c] md].
    - destruct H as (pre & post & -> & Hf0 & Hpre).
      { intros g Hg. by apply elem_of_nil in Hg. }
      intros [= <-].
      assert (Hz : file_distance t f0 = 0) by (unfold file_distance; lia).
      split; [lia|]. exists pre, post. split_and!; [done|..].
      + intros g Hg. specialize (Hpre g Hg). unfold file_distance in *. lia.
      + intros g _. unfold file_distance in *. lia.
    - destruct H as [_ Hinv].
      { intros g Hg. by apply elem_of_nil in Hg. }
      simpl in Hinv. destruct c as [c0|], md as [d0|]; try done.
      destruct Hinv as (-> & pre & post & -> & Hpre & Hpost).
      destruct (Z.leb_spec (file_distance t c0) 5); [|done].
      intros [= <-]. split; [done|]. by exists pre, post. }
  split_and!; [|exact Hsome|].
  - split.
    + unfold get_file_by_date.
      pose proof (get_file_by_date_loop_spec t files [] None None eq_refl) as H.
      destruct (get_file_by_date_loop files t None None) as [[[f0|] c] md]; [done|].
      destruct H as [_ Hinv].
      { intros g Hg. by apply elem_of_nil in Hg. }
      simpl in Hinv. destruct c as [c0|], md as [d0|]; try done.
      * destruct Hinv as (-> & pre & post & -> & Hpre & Hpost).
        destruct (Z.leb_spec (file_distance t c0) 5); [done|].
        intros _ g Hg. apply elem_of_app in Hg as [Hg|Hg].
        -- specialize (Hpre g Hg). lia.
        -- apply elem_of_cons in Hg as [->|Hg]; [done|]. specialize (Hpost g Hg). lia.
      * hnf in Hinv. subst files. intros _ g Hg. by apply elem_of_nil in Hg.
    + intros Hfar. destruct (get_file_by_date files t) as [f|] eqn:Hg; [|done].
      destruct (Hsome f eq_refl) as (Hle & pre & post & -> & _).
      assert (5 < file_distance t f); [|lia].
      apply Hfar, elem_of_app. right. apply elem_of_cons. by left.
  - intros f Hf Hsorted g Hg Heq.
    destruct (Hsome f Hf) as (_ & pre & post & -> & Hpre & _).
    apply elem_of_app in Hg as [Hg|Hg]; [specialize (Hpre g Hg); lia|].
    apply elem_of_cons in Hg as [->|Hg]; [done|].
    unfold newest_first in Hsorted.
    apply StronglySorted_suffix in Hsorted.
    apply StronglySorted_inv in Hsorted as [_ Hall].
    rewrite Forall_forall in Hall. by apply Hall.
Qed.

(** ** The rates the processor hands over *)

(** A float within bounds is a number. *)
Lemma validate_rate_not_nan rate :
  validate_rate rate = true -> PrimFloat.is_nan rate = false.
Proof.
  unfold validate_rate, PrimFloat.is_nan.
  rewrite andb_true_iff, !FloatAxioms.leb_spec, FloatAxioms.eqb_spec.
  intros [H _]. unfold SFleb, SFeqb in *.
  destruct (Prim2SF rate) as [s|s| |s m e].
  - reflexivity.
  - simpl. by destruct s.
  - simpl in H. by destruct (Prim2SF MIN_RATE).
  - simpl. rewrite Z.compare_refl, Pos.compare_refl. by destruct s.
Qed.

Lemma select_none {A} (mask : list bool) : forall l : list A,
  mask_any mask = false -> select mask l = [].
Proof.
  induction mask as [|b mask IH]; intros l; [done|].
  cbn [mask_any existsb]. intros H. apply orb_false_iff in H as [-> H].
  destruct l as [|x l]; [done|]. cbn [select]. by apply IH.
Qed.

Section PythonFacts.

Variable lower : string -> string.
Variable float_of_str : string -> option float.
Variable float_of_int : Z -> float.

Lemma pivot_rate_valid df col m v :
  pivot_rate float_of_str float_of_int df col m = Some v ->
  validate_rate v = true.
Proof.
  unfold pivot_rate.
  destruct (select _ _) as [|rate_value ?]; [done|].
  destruct (safe_float_conversion _ _ rate_value) as [x|]; [|done].
  destruct (validate_rate (x / 100)) eqn:Hv; [|done]. by intros [= <-].
Qed.

(** The loop over the maturities fills the dictionary with the rates
    [pivot_rate] keeps. *)
Lemma extract_country_rates_from_pivot_eq df code :
  extract_country_rates_from_pivot lower float_of_str float_of_int df code
  = match find_country_column lower
            (default [code] (dict_get code country_mapping)) (pv_columns df) None with
    | None => None
    | Some col =>
        match foldl (fun rates m =>
                       if bool_decide (is_Some (pivot_rate float_of_str float_of_int df col m))
                       then dict_set m
                              (default nan (pivot_rate float_of_str float_of_int df col m))
                              rates
                       else rates)
                    [] TARGET_MATURITIES with
        | [] => None
        | r :: rates => Some (r :: rates)
        end
    end.
Proof.
  unfold extract_country_rates_from_pivot. cbv zeta.
  destruct (find_country_column _ _ _ _) as [col|]; [|done].
  assert (Hfold : forall l acc,
    foldl (fun rates maturity =>
             if negb (mask_any (map (fun v => index_eq float_of_int v maturity) (pv_index df)))
             then rates
             else match select (map (fun v => index_eq float_of_int v maturity) (pv_index df))
                          (column_values df col) with
                  | rate_value :: _ =>
                      match safe_float_conversion float_of_str float_of_int rate_value with
                      | Some rate_float =>
                          if validate_rate (rate_float / 100)
                          then dict_set maturity (rate_float / 100)%float rates
                          else rates
                      | None => rates
                      end
                  | [] => rates
                  end) acc l
    = foldl (fun rates m =>
               if bool_decide (is_Some (pivot_rate float_of_str float_of_int df col m))
               then dict_set m (default nan (pivot_rate float_of_str float_of_int df col m))
                      rates
               else rates) acc l).
  { induction l as [|m l IH]; intros acc; [done|]. cbn [foldl]. rewrite <- IH. f_equal.
    unfold pivot_rate.
    destruct (mask_any _) eqn:Hany; cbn [negb].
    - destruct (select _ _) as [|rate_value ?]; [done|].
      destruct (safe_float_conversion _ _ rate_value) as [x|]; [|done].
      by destruct (validate_rate (x / 100)).
    - assert (Hsel : select (map (fun v => index_eq float_of_int v m) (pv_index df))
                       (column_values df col) = []) by (by apply select_none).
      by rewrite Hsel. }
  rewrite Hfold. by destruct (foldl _ _ _).
Qed.

Lemma extracted_rates df code rates :
  extract_country_rates_from_pivot lower float_of_str float_of_int df code = Some rates ->
  rates <> []
  /\ dict_keys rates `sublist_of` TARGET_MATURITIES
  /\ exists col,
       col ∈ pv_columns df
       /\ forall m, dict_get m rates
                    = if bool_decide (m ∈ TARGET_MATURITIES)
                      then pivot_rate float_of_str float_of_int df col m else None.
Proof.
  rewrite extract_country_rates_from_pivot_eq.
  destruct (find_country_column _ _ _ _) as [col|] eqn:Hcol; [|done].
  set (p := fun m => bool_decide (is_Some (pivot_rate float_of_str float_of_int df col m))).
  set (f := fun m => default nan (pivot_rate float_of_str float_of_int df col m)).
  change (foldl _ [] TARGET_MATURITIES)
    with (foldl (fun d k => if p k then dict_set k (f k) d else d) [] TARGET_MATURITIES).
  pose proof (dict_keys_filled p f TARGET_MATURITIES [] TARGET_MATURITIES_NoDup) as Hkeys.
  pose proof (fun m => dict_get_filled p f TARGET_MATURITIES m []) as Hget.
  destruct (foldl _ [] TARGET_MATURITIES) as [|r rates0]; [done|].
  intros [= <-]. split_and!; [done| |].
  - rewrite Hkeys; [apply sublist_filter_bool|]. intros k _ Hk. by apply elem_of_nil in Hk.
  - exists col. split.
    + revert Hcol. generalize (default [code] (dict_get code country_mapping)).
      assert (Hgen : forall names acc,
                (forall c, acc = Some c -> c ∈ pv_columns df) ->
                find_country_column lower names (pv_columns df) acc = Some col ->
                col ∈ pv_columns df).
      { induction names as [|name names IH]; intros acc Hacc; cbn [find_country_column].
        - apply Hacc.
        - cbv zeta.
          destruct (List.find _ (pv_columns df)) as [c|] eqn:Hfind.
          + assert (Hc : c ∈ pv_columns df)
              by (apply list_elem_of_In; by apply find_some in Hfind as [? _]).
            destruct (truthy_label (Some c)); [by intros [= <-]|].
            apply IH. by intros ? [= <-].
          + destruct (truthy_label acc); [apply Hacc|by apply IH]. }
      intros names. by apply Hgen.
    + intros m. rewrite Hget. unfold p, f. cbn [dict_get].
      destruct (bool_decide (m ∈ TARGET_MATURITIES)); [|done]. cbn [andb].
      by destruct (pivot_rate _ _ df col m).
Qed.

(** X18: the rates [extract_country_rates_from_pivot] returns are not empty,
    stand under configured maturities, and each lies between [MIN_RATE] and
    [MAX_RATE], hence is a number; with a date, a country and no VA they
    make a record of the data model. *)
Theorem extracted_rates_are_valid (df : Pivot) (code : string)
    (rates : list (Z * float)) :
  extract_country_rates_from_pivot lower float_of_str float_of_int df code = Some rates ->
  rates <> []
  /\ dict_keys rates `sublist_of` TARGET_MATURITIES
  /\ (forall m v, dict_get m rates = Some v ->
        validate_rate v = true /\ PrimFloat.is_nan v = false)
  /\ (forall d c, record_ok (processed d c rates)).
Proof.
  intros H. destruct (extracted_rates df code rates H) as (Hne & Hsub & col & _ & Hget).
  assert (Hvalid : forall m v, dict_get m rates = Some v ->
            m ∈ TARGET_MATURITIES /\ validate_rate v = true).
  { intros m v. rewrite Hget. case_bool_decide; [|done].
    intros Hv. split; [done|]. by eapply pivot_rate_valid. }
  split_and!; [done|done|..].
  - intros m v Hv. destruct (Hvalid m v Hv) as [_ Hval].
    split; [done|by apply validate_rate_not_nan].
  - intros d c. split; [|done]. cbn [processed obs_rates].
    intros m v Hv. destruct (Hvalid m v Hv) as [Hm Hval].
    split; [done|by apply validate_rate_not_nan].
Qed.

End PythonFacts.

(** ** Dates in file names *)

Lemma digit_of_digit_char n : 0 <= n <= 9 -> digit_of (digit_char n) = Some n.
Proof.
  intros H. replace n with (Z.of_nat (Z.to_nat n)) by lia.
  assert (Hk : (Z.to_nat n < 10)%nat) by lia.
  revert Hk. generalize (Z.to_nat n). intros k Hk.
  do 10 (destruct k as [|k]; [reflexivity|]). lia.
Qed.

Lemma append_cons c s rest : String c s +:+ rest = String c (s +:+ rest).
Proof. reflexivity. Qed.

Lemma append_empty rest : EmptyString +:+ rest = rest.
Proof. reflexivity. Qed.

Lemma take_digits_cons n c s :
  take_digits (S n) (String c s)
  = d ← digit_of c; ds ← take_digits n s; Some (d :: ds).
Proof. reflexivity. Qed.

Lemma take_digits_two n rest k :
  0 <= n < 100 ->
  take_digits (S (S k)) (two_digits n +:+ rest)
  = ds ← take_digits k rest; Some (n / 10 :: n mod 10 :: ds).
Proof.
  intros H. unfold two_digits. rewrite !append_cons, append_empty, !take_digits_cons.
  rewrite !digit_of_digit_char by (Z.div_mod_to_equations; lia).
  cbn [mbind option_bind]. by destruct (take_digits k rest).
Qed.

Lemma take_digits_four n rest k :
  0 <= n < 10000 ->
  take_digits (S (S (S (S k)))) (four_digits n +:+ rest)
  = ds ← take_digits k rest;
    Some (n / 1000 :: n / 100 mod 10 :: n mod 100 / 10 :: n mod 100 mod 10 :: ds).
Proof.
  intros H. unfold four_digits.
  rewrite !append_cons, !take_digits_cons.
  rewrite !digit_of_digit_char by (Z.div_mod_to_equations; lia).
  cbn [mbind option_bind].
  rewrite take_digits_two by (Z.div_mod_to_equations; lia).
  by destruct (take_digits k rest).
Qed.

Lemma search_8_digits_skip pre rest :
  no_digit pre = true -> search_8_digits (pre +:+ rest) = search_8_digits rest.
Proof.
  induction pre as [|c pre IH]; [done|].
  cbn [no_digit]. intros H. apply andb_true_iff in H as [Hc Hpre].
  apply negb_true_iff, bool_decide_eq_false in Hc.
  rewrite append_cons. cbn [search_8_digits take_digits].
  destruct (digit_of c) as [d|] eqn:Hd; [destruct Hc; by eexists|].
  cbn [mbind option_bind]. by apply IH.
Qed.

Lemma append_assoc_string (s1 s2 s3 : string) :
  (s1 +:+ s2) +:+ s3 = s1 +:+ (s2 +:+ s3).
Proof.
  induction s1 as [|c s1 IH]; [done|]. by rewrite !append_cons, IH.
Qed.

Lemma search_8_digits_found s ds :
  take_digits 8 s = Some ds -> search_8_digits s = Some ds.
Proof. intros H. destruct s; unfold search_8_digits; by rewrite H. Qed.

(** X19: a file name made of an ASCII text without digits, the date as
    [format_date_eiopa] writes it, and anything after it, parses back to
    that date, for every date with a year of 4 digits. *)
Theorem parse_formatted_date (date : datetime) (pre post : string) :
  1000 <= Calendar.dt_year date <= 9999 ->
  ascii_text pre = true ->
  no_digit pre = true ->
  parse_date_from_filename (pre +:+ format_date_eiopa date +:+ post) = Some date.
Proof.
  intros Hy _ Hpre.
  destruct (ord2ymd_spec date) as (He & Hm & Hd).
  pose proof (days_before_bounds (Calendar._is_leap (Calendar.dt_year date)) _ Hm)
    as (_ & Hdim & _).
  rewrite days_in_month_eq in Hd.
  set (y := Calendar.dt_year date) in *. set (m := Calendar.dt_month date) in *.
  set (d := Calendar.dt_day date) in *.
  unfold parse_date_from_filename, format_date_eiopa. fold y m d.
  rewrite search_8_digits_skip by done.
  rewrite !append_assoc_string.
  rewrite (search_8_digits_found _
             [y / 1000; y / 100 mod 10; y mod 100 / 10; y mod 100 mod 10;
              m / 10; m mod 10; d / 10; d mod 10]).
  2:{ rewrite take_digits_four by lia. rewrite take_digits_two by lia.
      rewrite take_digits_two by lia. reflexivity. }
  unfold strptime_Ymd. cbn [take drop int_of_digits foldl].
  replace (10 * (10 * (10 * (10 * 0 + y / 1000) + y / 100 mod 10) + y mod 100 / 10)
           + y mod 100 mod 10) with y by (Z.div_mod_to_equations; lia).
  replace (10 * (10 * 0 + m / 10) + m mod 10) with m by (Z.div_mod_to_equations; lia).
  replace (10 * (10 * 0 + d / 10) + d mod 10) with d by (Z.div_mod_to_equations; lia).
  rewrite days_in_month_eq.
  rewrite !(proj2 (Z.leb_le _ _)) by lia. cbn [andb].
  f_equal. exact He.
Qed.






Lemma year_of_2024_03_31 : 1000 <= Calendar.dt_year (Calendar.mk_datetime 2024 3 31) <= 9999.
Proof. vm_compute. split; discriminate. Qed.

Lemma parse_formatted_date_witness :
  1000 <= Calendar.dt_year (Calendar.mk_datetime 2024 3 31) <= 9999
  /\ ascii_text "EIOPA_RFR_" = true
  /\ no_digit "EIOPA_RFR_" = true
  /\ parse_date_from_filename
       ("EIOPA_RFR_" +:+ format_date_eiopa (Calendar.mk_datetime 2024 3 31) +:+ ".zip")
     = Some (Calendar.mk_datetime 2024 3 31).
Proof.
  split; [exact year_of_2024_03_31|].
  split; [reflexivity|]. split; [reflexivity|].
  exact (parse_formatted_date (Calendar.mk_datetime 2024 3 31) "EIOPA_RFR_" ".zip"
           year_of_2024_03_31 eq_refl eq_refl).
Defined.



(** The first run of 8 digits decides: a name with a longer run of digits
    before the date has no date. *)
Example parse_longer_run :
  parse_date_from_filename "RFR_v120241231.zip" = None.
Proof. vm_compute. reflexivity. Qed.

(** February 30 is no date. *)
Example parse_february_30 :
  parse_date_from_filename "EIOPA_RFR_20240230.zip" = None.
Proof. vm_compute. reflexivity. Qed.

(** ** The theorems at work on sample data *)

Lemma mar_2024_record_ok : record_ok Sample.mar_2024.
Proof.
  split.
  - intros m v H. cbn in H. case_decide; [|done]. injection H as <-. subst m.
    split; [apply elem_of_cons; by left|]. vm_compute. reflexivity.
  - intros v H. discriminate H.
Qed.

Lemma early_mar_2024_record_ok : record_ok Cases.early_mar_2024.
Proof.
  split.
  - intros m v H. cbn in H. case_decide; [|done]. injection H as <-. subst m.
    split; [apply elem_of_cons; by left|]. vm_compute. reflexivity.
  - intros v H. discriminate H.
Qed.

Lemma analyze_mar_2024 :
  analyze Sample.scenario_store Sample.mar_2024 = Returned Cases.mar_summary.
Proof. vm_compute. reflexivity. Qed.

Lemma upsert_then_get_witness :
  record_ok Sample.mar_2024
  /\ exists o,
       get_historical_data
         (historical_data (exec (add_to_historical Sample.mar_2024)
                                (Sample.state Sample.scenario_store true)))
         (obs_country Sample.mar_2024) (obs_reference_date Sample.mar_2024) = Some o
       /\ same_observation o Sample.mar_2024.
Proof.
  split; [exact mar_2024_record_ok|].
  exact (upsert_then_get Sample.mar_2024 (Sample.state Sample.scenario_store true)
           mar_2024_record_ok).
Defined.

Lemma scenario_store_keys_unique :
  NoDup (row_keys (historical_data (Sample.state Sample.scenario_store true))).
Proof.
  apply NoDup_cons. split.
  - intros H. apply list_elem_of_singleton in H. vm_compute in H. discriminate H.
  - apply NoDup_singleton.
Qed.

Lemma upserts_keep_keys_unique_witness :
  NoDup (row_keys (historical_data (Sample.state Sample.scenario_store true)))
  /\ NoDup (row_keys (historical_data
                        (exec (add_all [Sample.feb_revised; Sample.mar_2024])
                              (Sample.state Sample.scenario_store true)))).
Proof.
  split; [exact scenario_store_keys_unique|].
  exact (upserts_keep_keys_unique (Sample.state Sample.scenario_store true)
           [Sample.feb_revised; Sample.mar_2024] scenario_store_keys_unique).
Defined.

Lemma get_feb_stored :
  get_historical_data Sample.feb_store "FR" (Calendar.mk_datetime 2024 2 29)
  = Some Cases.feb_stored.
Proof. vm_compute. reflexivity. Qed.

Lemma lookups_return_records_witness :
  (get_historical_data Sample.feb_store "FR" (Calendar.mk_datetime 2024 2 29)
   = Some Cases.feb_stored
   \/ get_previous_month_data Sample.feb_store (Calendar.mk_datetime 2024 2 29) "FR"
      = Some Cases.feb_stored
   \/ get_ytd_data Sample.feb_store (Calendar.mk_datetime 2024 2 29) "FR"
      = Some Cases.feb_stored)
  /\ dict_keys (obs_rates Cases.feb_stored) `sublist_of` TARGET_MATURITIES
  /\ Sorted Z.lt (dict_keys (obs_rates Cases.feb_stored))
  /\ record_ok Cases.feb_stored.
Proof.
  split; [left; exact get_feb_stored|].
  exact (lookups_return_records Sample.feb_store "FR" (Calendar.mk_datetime 2024 2 29)
           Cases.feb_stored (or_introl get_feb_stored)).
Defined.

Lemma upsert_then_time_series_witness :
  1 ∈ TARGET_MATURITIES
  /\ dict_get 1 (obs_rates Sample.mar_2024) = Some 0.0350%float
  /\ PrimFloat.is_nan 0.0350%float = false
  /\ (obs_reference_date Sample.mar_2024, 0.0350%float)
     ∈ get_time_series
         (historical_data (exec (add_to_historical Sample.mar_2024)
                                (Sample.state Sample.scenario_store true)))
         (obs_country Sample.mar_2024) 1 None None.
Proof.
  assert (H1 : 1 ∈ TARGET_MATURITIES) by (apply elem_of_cons; by left).
  split_and!; [exact H1|reflexivity|reflexivity|].
  refine (upsert_then_time_series Sample.mar_2024
            (Sample.state Sample.scenario_store true) 1 0.0350%float None None
            H1 eq_refl eq_refl _ _); intros ? H; discriminate H.
Defined.

Lemma next_run_reads_the_file_witness :
  historical_file (Cases.truncating_state Sample.scenario_store)
  = Csv Sample.scenario_store
  /\ historical_data
       (exec init (exec (add_to_historical Sample.mar_2024)
                        (Cases.truncating_state Sample.scenario_store)))
     = DataFrame_of_columns [].
Proof.
  split; [reflexivity|].
  exact (proj2 (proj2 (next_run_reads_the_file Sample.mar_2024
                         (Cases.truncating_state Sample.scenario_store)
                         Sample.scenario_store eq_refl))
           eq_refl).
Defined.

Lemma feb_store_read_columns : read_columns Sample.feb_store.
Proof.
  right. unfold Sample.feb_store, Sample.frame, schema. cbn [columns app map].
  split_and!; repeat (apply elem_of_cons; first [left; reflexivity | right]).
Qed.

Lemma mar_2024_timestamp_years :
  timestamp_years (obs_reference_date Sample.mar_2024).
Proof. vm_compute. split; discriminate. Qed.

Lemma analyze_raises_iff_witness :
  read_columns Sample.feb_store
  /\ timestamp_years (obs_reference_date Sample.mar_2024)
  /\ analyze Sample.feb_store Sample.mar_2024 = Raised TypeError.
Proof.
  split; [exact feb_store_read_columns|].
  split; [exact mar_2024_timestamp_years|].
  refine (proj2 (analyze_raises_iff Sample.feb_store Sample.mar_2024 TypeError
                   feb_store_read_columns mar_2024_timestamp_years) _).
  split; [reflexivity|vm_compute; reflexivity].
Defined.

Lemma create_summary_dict_mar :
  create_summary_dict (Calendar.mk_datetime 2024 3 31) "FR" [(1, 0.0350%float)] None
    (Some [(1, 0.0290%float)]) None None None
  = Returned Cases.mar_deltas.
Proof. vm_compute. reflexivity. Qed.

Lemma summary_rate_deltas_witness :
  create_summary_dict (Calendar.mk_datetime 2024 3 31) "FR" [(1, 0.0350%float)] None
    (Some [(1, 0.0290%float)]) None None None
  = Returned Cases.mar_deltas
  /\ dict_get (Mat 1) (changes_mom Cases.mar_deltas)
     = (if truthy (Some [(1, 0.0290%float)])
        then rate_delta [(1, 0.0350%float)] (Some [(1, 0.0290%float)]) 1 else None)
  /\ dict_get (Mat 1) (changes_ytd Cases.mar_deltas)
     = (if truthy (@None (list (Z * float)))
        then rate_delta [(1, 0.0350%float)] None 1 else None).
Proof.
  split; [exact create_summary_dict_mar|].
  exact (summary_rate_deltas (Calendar.mk_datetime 2024 3 31) "FR" [(1, 0.0350%float)]
           None (Some [(1, 0.0290%float)]) None None None Cases.mar_deltas
           create_summary_dict_mar 1).
Defined.

Lemma jan_store_far_from_anchors :
  forall row, row ∈ rows Cases.jan_store -> country row = obs_country Sample.mar_2024 ->
    5 < Z.abs (reference_date row
               - get_previous_month_date (obs_reference_date Sample.mar_2024))
    /\ 10 < Z.abs (reference_date row
                   - get_year_start_date (obs_reference_date Sample.mar_2024)).
Proof.
  intros row Hin _. apply list_elem_of_singleton in Hin. subst row.
  vm_compute. by split.
Qed.

Lemma analyze_without_anchor_witness :
  (forall row, row ∈ rows Cases.jan_store -> country row = obs_country Sample.mar_2024 ->
     5 < Z.abs (reference_date row
                - get_previous_month_date (obs_reference_date Sample.mar_2024))
     /\ 10 < Z.abs (reference_date row
                    - get_year_start_date (obs_reference_date Sample.mar_2024)))
  /\ analyze Cases.jan_store Sample.mar_2024
     = Returned {| sum_reference_date := obs_reference_date Sample.mar_2024;
                   sum_country := obs_country Sample.mar_2024;
                   sum_rates := obs_rates Sample.mar_2024;
                   sum_va := obs_va Sample.mar_2024;
                   changes_mom := [];
                   changes_ytd := [];
                   previous_date := None;
                   ytd_date := None;
                   alerts := [] |}.
Proof.
  split; [exact jan_store_far_from_anchors|].
  exact (analyze_without_anchor Cases.jan_store Sample.mar_2024
           jan_store_far_from_anchors).
Defined.

Lemma analysis_anchor_dates_witness :
  analyze Sample.scenario_store Sample.mar_2024 = Returned Cases.mar_summary
  /\ (forall d, previous_date Cases.mar_summary = Some d ->
        Z.abs (d - get_previous_month_date (obs_reference_date Sample.mar_2024)) <= 5
        /\ exists row, row ∈ rows Sample.scenario_store
                       /\ country row = obs_country Sample.mar_2024
                       /\ reference_date row = d).
Proof.
  split; [exact analyze_mar_2024|].
  exact (proj1 (analysis_anchor_dates Sample.scenario_store Sample.mar_2024
                  Cases.mar_summary analyze_mar_2024)).
Defined.

Lemma date_in_range_2024_03_31 :
  Calendar.mk_datetime 1 2 1 <= Calendar.mk_datetime 2024 3 31
  <= Calendar.mk_datetime 9999 12 31.
Proof. vm_compute. split; discriminate. Qed.

Lemma previous_month_date_is_month_end_witness :
  Calendar.mk_datetime 1 2 1 <= Calendar.mk_datetime 2024 3 31
  <= Calendar.mk_datetime 9999 12 31
  /\ get_previous_month_date (Calendar.mk_datetime 2024 3 31)
     = Calendar.mk_datetime 2024 3 31 - Calendar.dt_day (Calendar.mk_datetime 2024 3 31).
Proof.
  split; [exact date_in_range_2024_03_31|].
  exact (proj1 (previous_month_date_is_month_end (Calendar.mk_datetime 2024 3 31)
                  date_in_range_2024_03_31)).
Defined.

Lemma date_in_full_range_2024_03_31 :
  Calendar.mk_datetime 1 1 1 <= Calendar.mk_datetime 2024 3 31
  <= Calendar.mk_datetime 9999 12 31.
Proof. vm_compute. split; discriminate. Qed.

Lemma year_start_date_is_january_first_witness :
  Calendar.mk_datetime 1 1 1 <= Calendar.mk_datetime 2024 3 31
  <= Calendar.mk_datetime 9999 12 31
  /\ Calendar.dt_year (get_year_start_date (Calendar.mk_datetime 2024 3 31))
     = Calendar.dt_year (Calendar.mk_datetime 2024 3 31).
Proof.
  split; [exact date_in_full_range_2024_03_31|].
  exact (proj1 (year_start_date_is_january_first (Calendar.mk_datetime 2024 3 31)
                  date_in_full_range_2024_03_31)).
Defined.

Lemma day_of_2024_03_31 : 5 < Calendar.dt_day (obs_reference_date Sample.mar_2024).
Proof. vm_compute. reflexivity. Qed.

Lemma anchors_precede_reference_witness :
  analyze Sample.scenario_store Sample.mar_2024 = Returned Cases.mar_summary
  /\ 5 < Calendar.dt_day (obs_reference_date Sample.mar_2024)
  /\ (forall d, previous_date Cases.mar_summary = Some d ->
        d < obs_reference_date Sample.mar_2024).
Proof.
  split_and!; [exact analyze_mar_2024|exact day_of_2024_03_31|].
  exact (proj1 (anchors_precede_reference Sample.scenario_store Sample.mar_2024
                  Cases.mar_summary analyze_mar_2024) day_of_2024_03_31).
Defined.

Lemma day_of_2024_03_03 :
  Calendar.dt_day (obs_reference_date Cases.early_mar_2024) <= 5.
Proof. vm_compute. discriminate. Qed.

Lemma jan_store_outside_window :
  forall row, row ∈ rows (historical_data (Sample.state Cases.jan_store true)) ->
    in_window (obs_country Cases.early_mar_2024)
      (get_previous_month_date (obs_reference_date Cases.early_mar_2024)) 5 row ->
    reference_date row = obs_reference_date Cases.early_mar_2024.
Proof.
  intros row Hin [_ [Hlo _]]. apply list_elem_of_singleton in Hin. subst row.
  vm_compute in Hlo. by destruct Hlo.
Qed.

Lemma early_month_record_is_own_anchor_witness :
  record_ok Cases.early_mar_2024
  /\ Calendar.dt_day (obs_reference_date Cases.early_mar_2024) <= 5
  /\ (forall row, row ∈ rows (historical_data (Sample.state Cases.jan_store true)) ->
        in_window (obs_country Cases.early_mar_2024)
          (get_previous_month_date (obs_reference_date Cases.early_mar_2024)) 5 row ->
        reference_date row = obs_reference_date Cases.early_mar_2024)
  /\ exists o,
       get_previous_month_data
         (historical_data (exec (add_to_historical Cases.early_mar_2024)
                                (Sample.state Cases.jan_store true)))
         (obs_reference_date Cases.early_mar_2024)
         (obs_country Cases.early_mar_2024) = Some o
       /\ same_observation o Cases.early_mar_2024.
Proof.
  split_and!; [exact early_mar_2024_record_ok|exact day_of_2024_03_03
              |exact jan_store_outside_window|].
  exact (proj1 (early_month_record_is_own_anchor Cases.early_mar_2024
                  (Sample.state Cases.jan_store true)
                  early_mar_2024_record_ok day_of_2024_03_03 jan_store_outside_window)).
Defined.

(** On the sample sheet the processor keeps the rates at 1 and 5 years. *)
Lemma extract_sheet :
  extract_country_rates_from_pivot Cases.ascii_lower Cases.no_float_of_str
    Cases.float_of_Z Cases.sheet "FR"
  = Some [(1, 0.035%float); (5, 0.03%float)].
Proof. vm_compute. reflexivity. Qed.

Lemma extracted_rates_are_valid_witness :
  extract_country_rates_from_pivot Cases.ascii_lower Cases.no_float_of_str
    Cases.float_of_Z Cases.sheet "FR"
  = Some [(1, 0.035%float); (5, 0.03%float)]
  /\ [(1, 0.035%float); (5, 0.03%float)] <> []
  /\ dict_keys [(1, 0.035%float); (5, 0.03%float)] `sublist_of` TARGET_MATURITIES.
Proof.
  split; [exact extract_sheet|].
  split.
  - exact (proj1 (extracted_rates_are_valid Cases.ascii_lower Cases.no_float_of_str
                    Cases.float_of_Z Cases.sheet "FR" _ extract_sheet)).
  - exact (proj1 (proj2 (extracted_rates_are_valid Cases.ascii_lower
                           Cases.no_float_of_str Cases.float_of_Z Cases.sheet "FR" _
                           extract_sheet))).
Defined.

(** Between files 3 days before and 3 days after the date, the one after
    it, which comes first in the list, is returned. *)
Example get_file_by_date_tie :
  get_file_by_date Cases.files (Calendar.mk_datetime 2024 3 28)
  = Some ("EIOPA_RFR_20240331.zip", "https://www.eiopa.europa.eu/a",
          Calendar.mk_datetime 2024 3 31).
Proof. vm_compute. reflexivity. Qed.

(** ** The wording of an alert *)

Lemma alert_threshold_positive threshold :
  threshold = ALERT_THRESHOLD_MOM \/ threshold = ALERT_THRESHOLD_YTD ->
  exists m e, Prim2SF threshold = S754_finite false m e.
Proof. intros [->| ->]; vm_compute; eauto. Qed.

(** A delta that passes the test of [_detect_alerts] is a number other than
    zero: above zero or below it. *)
Lemma alert_due_sign threshold d :
  threshold = ALERT_THRESHOLD_MOM \/ threshold = ALERT_THRESHOLD_YTD ->
  alert_due threshold d = true ->
  PrimFloat.is_nan d = false
  /\ PrimFloat.leb 0 d = PrimFloat.ltb 0 d
  /\ PrimFloat.ltb d 0 = negb (PrimFloat.ltb 0 d).
Proof.
  intros Ht. destruct (alert_threshold_positive threshold Ht) as (m & e & Hthr).
  unfold alert_due, PrimFloat.is_nan.
  rewrite FloatAxioms.leb_spec, FloatAxioms.abs_spec, Hthr.
  rewrite FloatAxioms.leb_spec, !FloatAxioms.ltb_spec, FloatAxioms.eqb_spec.
  change (Prim2SF 0) with (S754_zero false).
  unfold SFleb, SFltb, SFeqb.
  destruct (Prim2SF d) as [s|s| |s m' e']; simpl.
  - done.
  - intros _. by destruct s.
  - done.
  - intros _. rewrite Z.compare_refl, Pos.compare_refl. by destruct s.
Qed.

(** X21: a delta that raises an alert is a number above or below zero (never
    NaN, never zero), and the alert words it accordingly: a rise reads
    "hausse de +..." and a fall "baisse de -...", the sign of [format_bps]
    agreeing with the direction. *)
Theorem alert_wording (threshold d : float) (label : string) (maturity : mkey) :
  threshold = ALERT_THRESHOLD_MOM \/ threshold = ALERT_THRESHOLD_YTD ->
  alert_due threshold d = true ->
  PrimFloat.is_nan d = false
  /\ PrimFloat.ltb d 0 = negb (PrimFloat.ltb 0 d)
  /\ alert_message label maturity d
     = "⚠️ Variation " +:+ label +:+ " importante (" +:+ key_to_string maturity
       +:+ "Y): "
       +:+ (if PrimFloat.ltb 0 d then "hausse de +" else "baisse de ")
       +:+ format_1f d +:+ " bps".
Proof.
  intros Ht Hd. destruct (alert_due_sign threshold d Ht Hd) as (Hnan & Hle & Hlt).
  split_and!; [done|done|].
  unfold alert_message, format_bps. rewrite Hle.
  by destruct (PrimFloat.ltb 0 d).
Qed.

Lemma alert_wording_witness :
  (ALERT_THRESHOLD_MOM = ALERT_THRESHOLD_MOM \/ ALERT_THRESHOLD_MOM = ALERT_THRESHOLD_YTD)
  /\ alert_due ALERT_THRESHOLD_MOM (-60)%float = true
  /\ alert_message "M/M" (Mat 10) (-60)%float
     = "⚠️ Variation " +:+ "M/M" +:+ " importante (" +:+ key_to_string (Mat 10)
       +:+ "Y): "
       +:+ (if PrimFloat.ltb 0 (-60)%float then "hausse de +" else "baisse de ")
       +:+ format_1f (-60)%float +:+ " bps".
Proof.
  split; [left; reflexivity|]. split; [reflexivity|].
  exact (proj2 (proj2 (alert_wording ALERT_THRESHOLD_MOM (-60)%float "M/M" (Mat 10)
                         (or_introl eq_refl) eq_refl))).
Defined.

(** ** One point a date in a time series *)

(** Among rows with unique keys, those of one country have different
    dates. *)
Lemma country_dates_unique (f : Row -> bool) (c : string) (l : list Row) :
  (forall r, f r = true -> country r = c) ->
  NoDup (map (fun r => (reference_date r, country r)) l) ->
  NoDup (map reference_date (List.filter f l)).
Proof.
  intros Hf. induction l as [|r l IH]; simpl; [constructor|].
  intros Hnd. apply NoDup_cons in Hnd as [Hr Hnd].
  destruct (f r) eqn:Hfr; [|by apply IH]. simpl.
  apply NoDup_cons. split; [|by apply IH].
  intros Hin. apply Hr.
  apply list_elem_of_fmap in Hin as (r' & Hd & Hr').
  apply elem_of_filter_bool in Hr' as [Hr' Hfr'].
  apply list_elem_of_fmap. exists r'. split; [|done].
  by rewrite Hd, (Hf r Hfr), (Hf r' Hfr').
Qed.

(** A list in ascending order of a key that no two elements share is in
    strictly ascending order of it. *)
Lemma sorted_unique_strict {A} (key : A -> Z) (l : list A) :
  StronglySorted (fun a b => key a <= key b) l ->
  NoDup (map key l) ->
  StronglySorted (fun a b => key a < key b) l.
Proof.
  induction 1 as [|x l Hl IH Hx]; simpl; [constructor|].
  intros Hnd. apply NoDup_cons in Hnd as [Hk Hnd].
  constructor; [by apply IH|].
  rewrite Forall_forall in Hx |- *. intros y Hy.
  specialize (Hx y Hy).
  assert (key x <> key y); [|lia].
  intros Heq. apply Hk. rewrite Heq. apply list_elem_of_fmap. by exists y.
Qed.

(** X22: in a store whose rows have unique keys, as unique keys stay under
    [add_to_historical], the time series of a country and a maturity holds
    at most one point a date: its dates are in strictly ascending order. *)
Theorem time_series_dates_increase (df : DataFrame) (c : string) (m : Z)
    (s e : option datetime) :
  NoDup (row_keys df) ->
  StronglySorted (fun p q : datetime * float => p.1 < q.1)
    (get_time_series df c m s e).
Proof.
  intros Hnd. rewrite get_time_series_eq. case_bool_decide; [|constructor].
  apply (sorted_unique_strict fst); [apply sort_by_sorted|].
  rewrite (Permutation_map _ (sort_by_perm _ _)).
  rewrite map_map. cbn [fst].
  apply (country_dates_unique _ c); [|exact Hnd].
  intros r Hr. unfold in_series in Hr.
  rewrite !andb_true_iff in Hr. destruct Hr as [[[Hc _] _] _].
  by apply bool_decide_eq_true in Hc.
Qed.

Lemma time_series_dates_increase_witness :
  NoDup (row_keys (historical_data (Sample.state Sample.scenario_store true)))
  /\ StronglySorted (fun p q : datetime * float => p.1 < q.1)
       (get_time_series (historical_data (Sample.state Sample.scenario_store true))
          "FR" 1 None None).
Proof.
  split; [exact scenario_store_keys_unique|].
  exact (time_series_dates_increase
           (historical_data (Sample.state Sample.scenario_store true)) "FR" 1 None None
           scenario_store_keys_unique).
Defined.
